(** * Clearcare price-transparency normalization engine

    A shallow embedding of the three walkers of the repository

      - [src/json_parser.py]               (module [JsonParser])
      - [src/tall_format_csv_extractor.py] (module [Tall])
      - [src/wide_format_csv_extractor.py] (module [Wide])

    together with the Python string and dictionary operations they use
    (module [Py]) and the run-scoped accumulators every walker updates
    (module [Audit]).

    Modelling conventions.
      - Text is a [string] of 8-bit characters; [Py.isspace] and
        [Py.upper] are Python's [str.isspace] and [str.upper] on the
        ASCII range.
      - A [defaultdict(int)] keyed by strings is a [gmap string nat] read
        through [Audit.cnt] (absent key = 0); a [dict] or a pandas row
        whose insertion order is observable is an association list.
      - The module-level accumulators of each Python file are an explicit
        state [Audit.Accumulators] threaded through the walker; the rows
        handed to the writer are collected, in order, next to it.
      - A Python [set] of [str] is its members together with the order
        in which one interpreter process iterates them; a table kept as
        a [gmap] carries its entries, not the order of its keys.
      - The registry lookup, the YAML configuration and the file system
        are inputs ([HospitalMetadata], [ExtractConfig], the parsed
        document or table); [Loader.load_registry_info] is the lookup
        on the rows of the registry sheet. *)

From Stdlib Require Import ZArith Ascii String List.
From stdpp Require Import base strings list gmap pretty.

Local Open Scope string_scope.
Local Open Scope list_scope.

(* ===================================================================== *)
(** * Python strings, values and dictionaries *)
(* ===================================================================== *)

Module Py.

(** [str.isspace] on one ASCII character: TAB..CR, FS..US and the blank. *)
Definition isspace (c : ascii) : bool :=
  let n := nat_of_ascii c in
  ((9 <=? n)%nat && (n <=? 13)%nat) || ((28 <=? n)%nat && (n <=? 32)%nat).

(** [bool(s)] for a string. *)
Definition nonempty (s : string) : bool :=
  match s with
  | EmptyString => false
  | String _ _ => true
  end.

Fixpoint lstrip (s : string) : string :=
  match s with
  | EmptyString => EmptyString
  | String c s' => if isspace c then lstrip s' else s
  end.

Fixpoint rstrip (s : string) : string :=
  match s with
  | EmptyString => EmptyString
  | String c s' =>
      match rstrip s' with
      | EmptyString => if isspace c then EmptyString else String c EmptyString
      | r => String c r
      end
  end.

(** [s.strip()] *)
Definition strip (s : string) : string := lstrip (rstrip s).

Definition upper_char (c : ascii) : ascii :=
  let n := nat_of_ascii c in
  if (97 <=? n)%nat && (n <=? 122)%nat then ascii_of_nat (n - 32) else c.

(** [s.upper()] *)
Fixpoint upper (s : string) : string :=
  match s with
  | EmptyString => EmptyString
  | String c s' => String (upper_char c) (upper s')
  end.

(** [s.split(sep)] and [re.split] on a one-character class: the pieces
    between separators, empty pieces kept, never the empty list. *)
Fixpoint split (sep : ascii -> bool) (s : string) : list string :=
  match s with
  | EmptyString => [EmptyString]
  | String c s' =>
      if sep c then EmptyString :: split sep s'
      else match split sep s' with
           | p :: ps => String c p :: ps
           | [] => [String c EmptyString]
           end
  end.

(** [s.count(c)] for a one-character needle. *)
Fixpoint count (c : ascii) (s : string) : nat :=
  match s with
  | EmptyString => 0
  | String c' s' => (if Ascii.eqb c c' then 1 else 0) + count c s'
  end.

(** [s.replace(c, by)] for a one-character needle. *)
Fixpoint replace (c : ascii) (by_ : string) (s : string) : string :=
  match s with
  | EmptyString => EmptyString
  | String c' s' =>
      if Ascii.eqb c c' then by_ +:+ replace c by_ s'
      else String c' (replace c by_ s')
  end.

(** [sep.join(l)] *)
Definition join (sep : string) (l : list string) : string := String.concat sep l.

Definition is_pipe (c : ascii) : bool := Ascii.eqb c "|".

(** A scalar of a parsed JSON document as [json.load] returns it.  JSON
    numbers with a fraction or an exponent become Python floats; of a
    number the walkers only use its truth value and its text, and the
    model carries the integers. *)
Inductive pyval : Type :=
  | PNone
  | PBool (b : bool)
  | PInt (z : Z)
  | PStr (s : string).

(** [bool(v)] *)
Definition truthy (v : pyval) : bool :=
  match v with
  | PNone => false
  | PBool b => b
  | PInt z => negb (z =? 0)%Z
  | PStr s => nonempty s
  end.

(** [a or b] *)
Definition or_ (a b : pyval) : pyval := if truthy a then a else b.

(** [str(v)] *)
Definition str (v : pyval) : string :=
  match v with
  | PNone => "None"
  | PBool true => "True"
  | PBool false => "False"
  | PInt z => pretty z
  | PStr s => s
  end.

(** [a == b] on scalars ([True == 1] and [False == 0] hold in Python). *)
Definition eqb (a b : pyval) : bool :=
  match a, b with
  | PNone, PNone => true
  | PBool x, PBool y => Bool.eqb x y
  | PBool x, PInt z | PInt z, PBool x => (z =? (if x then 1 else 0))%Z
  | PInt x, PInt y => (x =? y)%Z
  | PStr x, PStr y => String.eqb x y
  | _, _ => false
  end.

(** A [dict] with string keys, in insertion order. *)
Definition dict (V : Type) : Type := list (string * V).

(** [d.get(k)]: [None] when the key is absent. *)
Fixpoint get {K V} `{EqDecision K} (d : list (K * V)) (k : K) : option V :=
  match d with
  | [] => None
  | (k', v) :: d' => if decide (k = k') then Some v else get d' k
  end.

(** [d.get(k, dflt)] *)
Definition get_or {K V} `{EqDecision K} (d : list (K * V)) (k : K) (dflt : V) : V :=
  from_option id dflt (get d k).

(** [d[k] = v] on an insertion-ordered dictionary: an existing key keeps
    its position, a new one goes last. *)
Fixpoint set {K V} `{EqDecision K} (k : K) (v : V) (d : list (K * V)) : list (K * V) :=
  match d with
  | [] => [(k, v)]
  | (k', v') :: d' =>
      if decide (k = k') then (k, v) :: d' else (k', v') :: set k v d'
  end.

(** Apply [f] to the first, to the last element of a list. *)
Definition on_first {A} (f : A -> A) (l : list A) : list A :=
  match l with
  | [] => []
  | x :: l' => f x :: l'
  end.

Fixpoint on_last {A} (f : A -> A) (l : list A) : list A :=
  match l with
  | [] => []
  | [x] => [f x]
  | x :: l' => x :: on_last f l'
  end.

(** [for a in l: body], threading the state the body updates. *)
Definition for_each {A S} (l : list A) (body : A -> S -> S) (s : S) : S :=
  fold_left (fun s a => body a s) l s.

End Py.

(* ===================================================================== *)
(** * External inputs and the run-scoped accumulators *)
(* ===================================================================== *)

(** What [load_registry_info] returns. *)
Record HospitalMetadata := {
  hospital_name : string;
  zip_code : string;
  raw_filename : string;
  healthcare_system : string
}.

(** What [load_extract_config] returns: the allowed canonical code types
    and the raw-to-canonical normalization map, both over text tokens.  A
    raw token the map does not have normalizes to [None], which is no
    member of the allowed set.

    The allowed types are a Python [set] of [str].  Python does not fix
    the order in which such a set is iterated: it follows the hashes of
    the strings, which are salted anew in every interpreter process.  The
    record holds the set as one process has it: its members, and the
    order in which that process iterates over them, which is some
    enumeration of the members without repetition. *)
Record ExtractConfig := {
  allowed_code_types : gset string;
  code_type_map : gmap string string;
  iter_allowed_code_types : list string;
  iter_allowed_code_types_enum : iter_allowed_code_types ≡ₚ elements allowed_code_types
}.

(** One configuration file as two interpreter processes load it: the
    same allowed types and the same map; each process iterates the set
    in an order of its own. *)
Definition same_configuration (cfg cfg' : ExtractConfig) : Prop :=
  allowed_code_types cfg = allowed_code_types cfg' /\ code_type_map cfg = code_type_map cfg'.

Module Audit.

(** Reading a [defaultdict(int)]. *)
Definition cnt (m : gmap string nat) (k : string) : nat := default 0 (m !! k).

(** [m[k] += 1] *)
Definition bump (k : string) (m : gmap string nat) : gmap string nat :=
  <[k := S (cnt m k)]> m.

(** [m[raw].add(v)] on a [defaultdict(set)]. *)
Definition add_mapping (raw : string) (v : option string)
    (m : gmap string (gset (option string))) : gmap string (gset (option string)) :=
  <[raw := {[v]} ∪ default ∅ (m !! raw)]> m.

(** The five module-level accumulators.  [M] is the modifier table: keyed
    by token text in the CSV walkers, by the JSON value of the modifier's
    code in the JSON walker. *)
Record Accumulators (M : Type) := {
  UNKNOWN_CODE_TYPES : gmap string nat;
  FIELD_PRESENCE_LOG : gmap string nat;
  CODE_TYPE_PRESENCE : gmap string nat;
  CODE_TYPE_MAPPINGS_USED : gmap string (gset (option string));
  MODIFIER_COUNTS : M
}.
Arguments UNKNOWN_CODE_TYPES {M} _.
Arguments FIELD_PRESENCE_LOG {M} _.
Arguments CODE_TYPE_PRESENCE {M} _.
Arguments CODE_TYPE_MAPPINGS_USED {M} _.
Arguments MODIFIER_COUNTS {M} _.

(** The accumulators as the module leaves them at import. *)
Definition fresh {M} (m0 : M) : Accumulators M :=
  {| UNKNOWN_CODE_TYPES := ∅; FIELD_PRESENCE_LOG := ∅; CODE_TYPE_PRESENCE := ∅;
     CODE_TYPE_MAPPINGS_USED := ∅; MODIFIER_COUNTS := m0 |}.

Definition with_field_presence {M} (f : gmap string nat -> gmap string nat)
    (st : Accumulators M) : Accumulators M :=
  {| UNKNOWN_CODE_TYPES := UNKNOWN_CODE_TYPES st;
     FIELD_PRESENCE_LOG := f (FIELD_PRESENCE_LOG st);
     CODE_TYPE_PRESENCE := CODE_TYPE_PRESENCE st;
     CODE_TYPE_MAPPINGS_USED := CODE_TYPE_MAPPINGS_USED st;
     MODIFIER_COUNTS := MODIFIER_COUNTS st |}.

Definition with_code_type_presence {M} (f : gmap string nat -> gmap string nat)
    (st : Accumulators M) : Accumulators M :=
  {| UNKNOWN_CODE_TYPES := UNKNOWN_CODE_TYPES st;
     FIELD_PRESENCE_LOG := FIELD_PRESENCE_LOG st;
     CODE_TYPE_PRESENCE := f (CODE_TYPE_PRESENCE st);
     CODE_TYPE_MAPPINGS_USED := CODE_TYPE_MAPPINGS_USED st;
     MODIFIER_COUNTS := MODIFIER_COUNTS st |}.

Definition with_modifier_counts {M} (f : M -> M) (st : Accumulators M) : Accumulators M :=
  {| UNKNOWN_CODE_TYPES := UNKNOWN_CODE_TYPES st;
     FIELD_PRESENCE_LOG := FIELD_PRESENCE_LOG st;
     CODE_TYPE_PRESENCE := CODE_TYPE_PRESENCE st;
     CODE_TYPE_MAPPINGS_USED := CODE_TYPE_MAPPINGS_USED st;
     MODIFIER_COUNTS := f (MODIFIER_COUNTS st) |}.

(** The allow-list check, the same five statements in the three walkers:
<<
    normalized_code_type = code_type_map.get(raw_code_type)
    CODE_TYPE_MAPPINGS_USED[raw_code_type].add(normalized_code_type)
    if normalized_code_type not in allowed_code_types:
        UNKNOWN_CODE_TYPES[raw_code_type] += 1
        continue
    CODE_TYPE_PRESENCE[normalized_code_type] += 1
>>
    The result is [Some t] when the loop body goes on with canonical type
    [t], [None] when it hits [continue]. *)
Definition normalize_code_type {M} (cfg : ExtractConfig) (raw_code_type : string)
    (st : Accumulators M) : Accumulators M * option string :=
  let normalized_code_type := code_type_map cfg !! raw_code_type in
  let used := add_mapping raw_code_type normalized_code_type (CODE_TYPE_MAPPINGS_USED st) in
  match normalized_code_type with
  | Some t =>
      if decide (t ∈ allowed_code_types cfg) then
        ({| UNKNOWN_CODE_TYPES := UNKNOWN_CODE_TYPES st;
            FIELD_PRESENCE_LOG := FIELD_PRESENCE_LOG st;
            CODE_TYPE_PRESENCE := bump t (CODE_TYPE_PRESENCE st);
            CODE_TYPE_MAPPINGS_USED := used;
            MODIFIER_COUNTS := MODIFIER_COUNTS st |}, Some t)
      else
        ({| UNKNOWN_CODE_TYPES := bump raw_code_type (UNKNOWN_CODE_TYPES st);
            FIELD_PRESENCE_LOG := FIELD_PRESENCE_LOG st;
            CODE_TYPE_PRESENCE := CODE_TYPE_PRESENCE st;
            CODE_TYPE_MAPPINGS_USED := used;
            MODIFIER_COUNTS := MODIFIER_COUNTS st |}, None)
  | None =>
      ({| UNKNOWN_CODE_TYPES := bump raw_code_type (UNKNOWN_CODE_TYPES st);
          FIELD_PRESENCE_LOG := FIELD_PRESENCE_LOG st;
          CODE_TYPE_PRESENCE := CODE_TYPE_PRESENCE st;
          CODE_TYPE_MAPPINGS_USED := used;
          MODIFIER_COUNTS := MODIFIER_COUNTS st |}, None)
  end.

(** The decision of the check alone: the canonical type of an accepted
    raw token. *)
Definition accepts (cfg : ExtractConfig) (raw_code_type : string) : option string :=
  match code_type_map cfg !! raw_code_type with
  | Some t => if decide (t ∈ allowed_code_types cfg) then Some t else None
  | None => None
  end.

(** [for key in keys: if row.get(key): FIELD_PRESENCE_LOG[key] += 1] *)
Definition log_fields {V} (is_true : V -> bool) (keys : list string) (row : Py.dict V)
    (fp : gmap string nat) : gmap string nat :=
  Py.for_each keys
    (fun key fp => if from_option is_true false (Py.get row key) then bump key fp else fp)
    fp.

(** The character class of the pattern the modifier cell is split on:
    comma or pipe. *)
Definition is_modifier_sep (c : ascii) : bool := Ascii.eqb c "," || Ascii.eqb c "|".

(** The modifier extractor of the two CSV walkers (tall lines 92-95, wide
    lines 97-100):
<<
    modifiers_raw = row.get('modifiers', '').strip()
    modifier_list = [m.strip() for m in re.split(r'[,|]', modifiers_raw) if m.strip()]
    for m in modifier_list:
        MODIFIER_COUNTS[m] += 1
>>
    [field] is the value of the row's [modifiers] cell. *)
Definition modifier_list (field : string) : list string :=
  let modifiers_raw := Py.strip field in
  map Py.strip
    (List.filter (fun m => Py.nonempty (Py.strip m)) (Py.split is_modifier_sep modifiers_raw)).

Definition tally (modifier_list : list string) (counts : gmap string nat) : gmap string nat :=
  Py.for_each modifier_list bump counts.

(** The token list and the counters after the tally. *)
Definition extract_modifiers (field : string) (counts : gmap string nat)
    : list string * gmap string nat :=
  (modifier_list field, tally (modifier_list field) counts).

(** The contract of the modifier extractor in the words of the
    specification: split on comma or pipe, trim each piece, discard the
    empty pieces. *)
Definition split_trim_discard (raw : string) : list string :=
  List.filter Py.nonempty (map Py.strip (Py.split is_modifier_sep raw)).

(** The part of the audit report every walker writes. *)
Record Report (M : Type) := {
  field_presence_summary : Py.dict nat;
  unrecognized_code_types : gmap string nat;
  missing_code_types : list string;
  code_type_presence : gmap string nat;
  code_type_normalizations_used : gmap string (gset (option string));
  modifier_counts : M
}.
Arguments field_presence_summary {M} _.
Arguments unrecognized_code_types {M} _.
Arguments missing_code_types {M} _.
Arguments code_type_presence {M} _.
Arguments code_type_normalizations_used {M} _.
Arguments modifier_counts {M} _.

(** Two reports with the same entries in every table and the same
    missing code types, listed in any order. *)
Definition same_entries {M} (r r' : Report M) : Prop :=
  field_presence_summary r = field_presence_summary r'
  /\ unrecognized_code_types r = unrecognized_code_types r'
  /\ missing_code_types r ≡ₚ missing_code_types r'
  /\ code_type_presence r = code_type_presence r'
  /\ code_type_normalizations_used r = code_type_normalizations_used r'
  /\ modifier_counts r = modifier_counts r'.

(** Reading [CODE_TYPE_PRESENCE[ct]] in the [missing_code_types]
    comprehension creates the entry of a type never seen, with count 0. *)
Definition touch (ct : string) (m : gmap string nat) : gmap string nat :=
  match m !! ct with
  | Some _ => m
  | None => <[ct := 0]> m
  end.

(** The closing statements of every walker:
<<
    full_field_summary = {field: FIELD_PRESENCE_LOG.get(field, 0) for field in HEADERS}
    missing_code_types = [ct for ct in allowed_code_types if CODE_TYPE_PRESENCE[ct] == 0]
>>
    and the dictionary handed to [json.dump].  The comprehension walks
    the allowed set in the order this process iterates it. *)
Definition build_report {M} (HEADERS : list string) (cfg : ExtractConfig)
    (st : Accumulators M) : Accumulators M * Report M :=
  let full_field_summary := map (fun field => (field, cnt (FIELD_PRESENCE_LOG st) field)) HEADERS in
  let cts := iter_allowed_code_types cfg in
  let missing := List.filter (fun ct => Nat.eqb (cnt (CODE_TYPE_PRESENCE st) ct) 0) cts in
  let st' := with_code_type_presence (fun m => Py.for_each cts touch m) st in
  (st',
   {| field_presence_summary := full_field_summary;
      unrecognized_code_types := UNKNOWN_CODE_TYPES st';
      missing_code_types := missing;
      code_type_presence := CODE_TYPE_PRESENCE st';
      code_type_normalizations_used := CODE_TYPE_MAPPINGS_USED st';
      modifier_counts := MODIFIER_COUNTS st' |}).

End Audit.

(* ===================================================================== *)
(** * The JSON walker: [src/json_parser.py] *)
(* ===================================================================== *)

Module JsonParser.
Import Py Audit.

Definition HEADERS : list string :=
  [ "hospital name"; "zip code"; "code"; "code type"; "description"; "drug unit"; "drug type";
    "insurance payer name"; "insurance payer id"; "insurance plan name";
    "negotiated price"; "negotiated percentage"; "negotiated algorithm"; "negotiated methodology";
    "gross charge"; "discounted cash price"; "min price"; "max price"; "estimated amount";
    "setting"; "additional notes" ].

(** A JSON object whose members the walker reads as scalars. *)
Definition obj : Type := dict pyval.

(** The row dictionary handed to [csv.DictWriter.writerow]. *)
Definition Row : Type := dict pyval.

(** One entry of [standard_charges]: its scalar members and its
    [payers_information] list (empty when the key is absent). *)
Record Charge := {
  charge : obj;
  payers_information : list obj
}.

(** One line item: scalar members, [code_information],
    [standard_charges] and [drug_information] (each empty when absent).
    The document is taken well-formed: an item, a code entry, a charge
    entry and a payer entry are objects, and the three lists are lists. *)
Record Item := {
  item : obj;
  code_information : list obj;
  standard_charges : list Charge;
  drug_information : obj
}.

(** One entry of the top-level [modifier_information] list. *)
Record Modifier := {
  modifier : obj;
  modifier_payer_information : list obj
}.

(** [standard_charge_information] is a list, or an object wrapping the
    list under [item], or something else. *)
Inductive Sci : Type :=
  | SciList (l : list Item)
  | SciDict (item_member : option (list Item))
  | SciOther.

(** The document [json.load] returns, with the two address strings the
    streaming pass of [ijson] found in the same file. *)
Record Root := {
  scanned_hospital_location : pyval;
  scanned_hospital_address : pyval;
  top_level_keys : gset string;
  version : pyval;
  last_updated_on : pyval;
  standard_charge_information : Sci;
  modifier_information : list Modifier
}.

Definition items_of (sci : Sci) : list Item :=
  match sci with
  | SciList l => l
  | SciDict (Some l) => l
  | SciDict None => []
  | SciOther => []
  end.

(** [MODIFIER_COUNTS[mod_code] += 1], the key being any JSON scalar. *)
Fixpoint bump_val (k : pyval) (m : list (pyval * nat)) : list (pyval * nat) :=
  match m with
  | [] => [(k, 1)]
  | (k', n) :: m' => if Py.eqb k k' then (k', S n) :: m' else (k', n) :: bump_val k m'
  end.

Definition Acc : Type := Accumulators (list (pyval * nat)).

(** The walker's state: the accumulators and the rows written so far. *)
Definition State : Type := Acc * list Row.

(** Lines 134-163: the row of one payer entry. *)
Definition payer_row (meta : HospitalMetadata) (code : pyval) (normalized_code_type : string)
    (description : pyval) (drug_info charge payer : obj) : Row :=
  let gross_charge := get_or charge "gross_charge" (PStr EmptyString) in
  let discounted_cash := get_or charge "discounted_cash" (PStr EmptyString) in
  let min_price := get_or charge "minimum" (PStr EmptyString) in
  let max_price := get_or charge "maximum" (PStr EmptyString) in
  let setting := get_or charge "setting" (PStr EmptyString) in
  let estimated_amount :=
    or_ (get_or payer "estimated_amount" PNone)
        (get_or drug_info "estimated_amount" (PStr EmptyString)) in
  let negotiated_price := get_or payer "standard_charge_dollar" (PStr EmptyString) in
  let negotiated_percentage := get_or payer "standard_charge_percentage" (PStr EmptyString) in
  let negotiated_algorithm := get_or payer "standard_charge_algorithm" (PStr EmptyString) in
  let negotiated_methodology := get_or payer "negotiated_methodology" (PStr EmptyString) in
  [ ("hospital name", PStr (hospital_name meta));
    ("zip code", PStr (zip_code meta));
    ("code", code);
    ("code type", PStr normalized_code_type);
    ("description", description);
    ("drug unit", get_or drug_info "unit" (PStr EmptyString));
    ("drug type", get_or drug_info "type" (PStr EmptyString));
    ("insurance payer name", get_or payer "payer_name" (PStr EmptyString));
    ("insurance payer id", get_or payer "payer_id" (PStr EmptyString));
    ("insurance plan name", get_or payer "plan_name" (PStr EmptyString));
    ("negotiated price", negotiated_price);
    ("negotiated percentage", negotiated_percentage);
    ("negotiated algorithm", negotiated_algorithm);
    ("negotiated methodology", negotiated_methodology);
    ("gross charge", gross_charge);
    ("discounted cash price", discounted_cash);
    ("min price", min_price);
    ("max price", max_price);
    ("estimated amount", estimated_amount);
    ("setting", setting);
    ("additional notes", get_or payer "additional_payer_notes" (PStr EmptyString)) ].

(** Lines 178-198: the row of one payer entry of a modifier. *)
Definition modifier_row (meta : HospitalMetadata) (mod_code mod_desc : pyval) (payer : obj) : Row :=
  [ ("hospital name", PStr (hospital_name meta));
    ("zip code", PStr (zip_code meta));
    ("code", mod_code);
    ("code type", PStr "MODIFIER");
    ("description", mod_desc);
    ("insurance payer name", get_or payer "payer_name" (PStr EmptyString));
    ("insurance payer id", PStr EmptyString);
    ("insurance plan name", get_or payer "plan_name" (PStr EmptyString));
    ("negotiated price", PStr EmptyString);
    ("negotiated percentage", PStr EmptyString);
    ("negotiated algorithm", PStr EmptyString);
    ("negotiated methodology", PStr EmptyString);
    ("gross charge", PStr EmptyString);
    ("discounted cash price", PStr EmptyString);
    ("min price", PStr EmptyString);
    ("max price", PStr EmptyString);
    ("estimated amount", PStr EmptyString);
    ("setting", PStr EmptyString);
    ("additional notes", get_or payer "description" (PStr EmptyString)) ].

(** Lines 165-170 and 199-203: count the non-empty fields, write the row. *)
Definition emit (row : Row) (s : State) : State :=
  (with_field_presence (log_fields truthy HEADERS row) (fst s), snd s ++ [row]).

(** Lines 127-170: [for charge in charge_entries: for payer in ...]. *)
Definition charge_step (meta : HospitalMetadata) (code : pyval) (normalized_code_type : string)
    (description : pyval) (drug_info : obj) (ch : Charge) (s : State) : State :=
  for_each (payers_information ch)
    (fun payer => emit (payer_row meta code normalized_code_type description drug_info (charge ch) payer))
    s.

(** Lines 114-170: the body of [for code_entry in code_info]. *)
Definition code_entry_step (cfg : ExtractConfig) (meta : HospitalMetadata) (description : pyval)
    (charge_entries : list Charge) (drug_info : obj) (code_entry : obj) (s : State) : State :=
  let raw_code_type := upper (strip (str (get_or code_entry "type" (PStr EmptyString)))) in
  match normalize_code_type cfg raw_code_type (fst s) with
  | (st, None) => (st, snd s)
  | (st, Some normalized_code_type) =>
      let code := get_or code_entry "code" (PStr EmptyString) in
      for_each charge_entries
        (charge_step meta code normalized_code_type description drug_info)
        (st, snd s)
  end.

(** Lines 106-170: the body of [for item in items]. *)
Definition item_step (cfg : ExtractConfig) (meta : HospitalMetadata) (it : Item) (s : State) : State :=
  let description := get_or (item it) "description" (PStr EmptyString) in
  for_each (code_information it)
    (code_entry_step cfg meta description (standard_charges it) (drug_information it))
    s.

(** Lines 173-203: the body of [for mod in root.get('modifier_information', [])]. *)
Definition modifier_step (meta : HospitalMetadata) (m : Modifier) (s : State) : State :=
  let mod_code := get_or (modifier m) "code" (PStr EmptyString) in
  let mod_desc := get_or (modifier m) "description" (PStr EmptyString) in
  for_each (modifier_payer_information m)
    (fun payer => emit (modifier_row meta mod_code mod_desc payer))
    (with_modifier_counts (bump_val mod_code) (fst s), snd s).

(** The rows of the line items, then the rows of the modifiers. *)
Definition walk (cfg : ExtractConfig) (meta : HospitalMetadata) (root : Root) (s : State) : State :=
  for_each (modifier_information root) (modifier_step meta)
    (for_each (items_of (standard_charge_information root)) (item_step cfg meta) s).

Definition known_keys_used : gset string :=
  {[ "standard_charge_information"; "hospital_location"; "hospital_address"; "modifier_information" ]}.

(** The dictionary dumped to the dev log. *)
Record DevLog := {
  raw_address_info : pyval * pyval;
  mrf_metadata : pyval * pyval;
  report : Report (list (pyval * nat));
  unused_optional_json_keys : gset string
}.

(** [parse_json], entered with the accumulators in state [st]: the
    accumulators it leaves, the rows of the canonical output after the
    header, and the dev log.  The locals [written] and [has_valid_code]
    only feed the log message and are left out. *)
Definition parse_json (cfg : ExtractConfig) (meta : HospitalMetadata) (root : Root) (st : Acc)
    : Acc * list Row * DevLog :=
  let s := walk cfg meta root (st, []) in
  let r := build_report HEADERS cfg (fst s) in
  (fst r, snd s,
   {| raw_address_info := (scanned_hospital_location root, scanned_hospital_address root);
      mrf_metadata := (version root, last_updated_on root);
      report := snd r;
      unused_optional_json_keys := top_level_keys root ∖ known_keys_used |}).

(** One run of the script: the module is imported, then [parse_json] is
    called once. *)
Definition run (cfg : ExtractConfig) (meta : HospitalMetadata) (root : Root) : list Row * DevLog :=
  let r := parse_json cfg meta root (fresh []) in (snd (fst r), snd r).

(** The code type a written row carries. *)
Definition code_type_of (row : Row) : option pyval := get row "code type".

End JsonParser.

(* ===================================================================== *)
(** * The tall-format walker: [src/tall_format_csv_extractor.py] *)
(* ===================================================================== *)

Module Tall.
Import Py Audit.

Definition HEADERS : list string :=
  [ "hospital name"; "zip code"; "code"; "code type"; "description"; "drug unit"; "drug type";
    "insurance payer name"; "insurance payer id"; "insurance plan name";
    "negotiated price"; "negotiated percentage"; "negotiated algorithm"; "negotiated methodology";
    "gross charge"; "discounted cash price"; "min price"; "max price"; "estimated amount";
    "setting"; "additional notes"; "modifiers" ].

(** One body row of the table [pandas.read_csv] returns with [dtype=str]
    and the missing cells replaced by the empty string: column name to
    cell text. *)
Definition SourceRow : Type := dict string.

(** The [output_row] dictionary. *)
Definition Row : Type := dict string.

Definition Acc : Type := Accumulators (gmap string nat).
Definition State : Type := Acc * list Row.

Definition dquote : ascii := ascii_of_nat 34.
Definition newline : ascii := ascii_of_nat 10.

(** The text up to the first closing bracket: the lazy second group
    followed by the bracket. *)
Fixpoint until_close (s : string) : option string :=
  match s with
  | EmptyString => None
  | String c s' =>
      if Ascii.eqb c "]" then Some EmptyString
      else option_map (String c) (until_close s')
  end.

(** The pattern of line 84 (a greedy group, an opening bracket, a lazy
    group, a closing bracket) on one line: the greedy first group ends at
    the last opening bracket that still has a closing bracket after it. *)
Fixpoint bracket_match (s : string) : option (string * string) :=
  match s with
  | EmptyString => None
  | String c s' =>
      match bracket_match s' with
      | Some (g1, g2) => Some (String c g1, g2)
      | None =>
          if Ascii.eqb c "[" then option_map (fun g2 => (EmptyString, g2)) (until_close s')
          else None
      end
  end.

(** [re.search] of that pattern: the dot does not cross a line break, so
    the match lies in the first line that has one. *)
Definition search (payer : string) : option (string * string) :=
  List.fold_right
    (fun line later => match bracket_match line with Some m => Some m | None => later end)
    None
    (split (Ascii.eqb newline) payer).

(** Lines 115-138: the [output_row] of one accepted code slot. *)
Definition output_row (meta : HospitalMetadata) (row : SourceRow)
    (code normalized_code_type payer_name payer_id notes modifiers_raw : string) : Row :=
  [ ("hospital name", hospital_name meta);
    ("zip code", zip_code meta);
    ("code", code);
    ("code type", normalized_code_type);
    ("description", get_or row "description" EmptyString);
    ("drug unit", get_or row "drug_unit_of_measurement" EmptyString);
    ("drug type", get_or row "drug_type_of_measurement" EmptyString);
    ("insurance payer name", payer_name);
    ("insurance payer id", payer_id);
    ("insurance plan name", get_or row "plan_name" EmptyString);
    ("negotiated price", get_or row "standard_charge|negotiated_dollar" EmptyString);
    ("negotiated percentage", get_or row "standard_charge|negotiated_percentage" EmptyString);
    ("negotiated algorithm", get_or row "standard_charge|negotiated_algorithm" EmptyString);
    ("negotiated methodology", get_or row "standard_charge|methodology" EmptyString);
    ("gross charge", get_or row "standard_charge|gross" EmptyString);
    ("discounted cash price", get_or row "standard_charge|discounted_cash" EmptyString);
    ("min price", get_or row "standard_charge|min" EmptyString);
    ("max price", get_or row "standard_charge|max" EmptyString);
    ("estimated amount", get_or row "estimated_amount" EmptyString);
    ("setting", get_or row "setting" EmptyString);
    ("additional notes", notes);
    ("modifiers", modifiers_raw) ].

(** Line 144: one cell of the written line, the value between double
    quotes with every double quote of the value replaced by two single
    quotes. *)
Definition write_cell (value : string) : string :=
  String dquote (replace dquote "''" value +:+ String dquote EmptyString).

(** Line 144: the line written for one [output_row]. *)
Definition write_line (r : Row) : string :=
  join "," (map (fun col => write_cell (get_or r col EmptyString)) HEADERS)
  +:+ String newline EmptyString.

(** Line 74: the header line. *)
Definition header_line : string := join "," HEADERS +:+ String newline EmptyString.

(** The canonical output file: the header line and one line per row. *)
Definition out_csv (rows : list Row) : string :=
  header_line +:+ String.concat EmptyString (map write_line rows).

(** Lines 140-145: count the non-empty fields, write the row. *)
Definition emit (r : Row) (s : State) : State :=
  (with_field_presence (log_fields nonempty HEADERS r) (fst s), snd s ++ [r]).

(** Lines 97-145: the body of [for i in range(1, 5)]. *)
Definition slot_step (cfg : ExtractConfig) (meta : HospitalMetadata) (row : SourceRow)
    (payer_name payer_id notes modifiers_raw : string) (i : nat) (s : State) : State :=
  let code_col := "code|" +:+ pretty i in
  let type_col := "code|" +:+ pretty i +:+ "|type" in
  let code := strip (get_or row code_col EmptyString) in
  let raw_code_type := upper (strip (get_or row type_col EmptyString)) in
  if negb (nonempty code) || negb (nonempty raw_code_type) then s
  else
    match normalize_code_type cfg raw_code_type (fst s) with
    | (st, None) => (st, snd s)
    | (st, Some normalized_code_type) =>
        emit (output_row meta row code normalized_code_type payer_name payer_id notes modifiers_raw)
             (st, snd s)
    end.

(** Lines 83-86: payer name and payer id out of the combined cell. *)
Definition payer_identity (payer : string) : string * string :=
  match search payer with
  | Some (g1, g2) => (strip g1, strip g2)
  | None => (payer, EmptyString)
  end.

(** Lines 79-145: the body of [for _, row in chunk.iterrows()]. *)
Definition row_step (cfg : ExtractConfig) (meta : HospitalMetadata) (row : SourceRow)
    (s : State) : State :=
  let payer := get_or row "payer_name" EmptyString in
  let '(payer_name, payer_id) := payer_identity payer in
  let notes := get_or row "additional_generic_notes" EmptyString in
  let field := get_or row "modifiers" EmptyString in
  let modifiers_raw := strip field in
  let st := with_modifier_counts (tally (modifier_list field)) (fst s) in
  for_each [1; 2; 3; 4]
    (slot_step cfg meta row payer_name payer_id notes modifiers_raw)
    (st, snd s).

(** The two metadata rows at the head of the file, as read. *)
Record MrfMetadata := {
  mrf_version : string;
  mrf_last_updated : string;
  raw_hospital_location : string;
  raw_hospital_address : string
}.

Record DevLog := {
  raw_address_info : string * string;
  mrf_metadata : string * string;
  report : Report (gmap string nat)
}.

(** [extract_tall_format_csv], entered with the accumulators in state
    [st], on the body rows of all chunks in file order. *)
Definition extract_tall_format_csv (cfg : ExtractConfig) (meta : HospitalMetadata)
    (head : MrfMetadata) (body : list SourceRow) (st : Acc) : Acc * list Row * DevLog :=
  let s := for_each body (row_step cfg meta) (st, []) in
  let r := build_report HEADERS cfg (fst s) in
  (fst r, snd s,
   {| raw_address_info := (raw_hospital_location head, raw_hospital_address head);
      mrf_metadata := (mrf_version head, mrf_last_updated head);
      report := snd r |}).

(** One run of the script. *)
Definition run (cfg : ExtractConfig) (meta : HospitalMetadata) (head : MrfMetadata)
    (body : list SourceRow) : list Row * DevLog :=
  let r := extract_tall_format_csv cfg meta head body (fresh ∅) in (snd (fst r), snd r).

Definition code_type_of (r : Row) : option string := get r "code type".

End Tall.

(* ===================================================================== *)
(** * The wide-format walker: [src/wide_format_csv_extractor.py] *)
(* ===================================================================== *)

Module Wide.
Import Py Audit.

Definition HEADERS : list string :=
  [ "hospital name"; "zip code"; "code"; "code type"; "description"; "drug unit"; "drug type";
    "insurance payer name"; "insurance payer id"; "insurance plan name";
    "negotiated price"; "negotiated percentage"; "negotiated algorithm"; "negotiated methodology";
    "gross charge"; "discounted cash price"; "min price"; "max price"; "estimated amount";
    "setting"; "additional notes"; "modifiers" ].

Definition STANDARD_CHARGE_PREFIXES : dict string :=
  [ ("negotiated_dollar", "negotiated price");
    ("negotiated_percentage", "negotiated percentage");
    ("negotiated_algorithm", "negotiated algorithm");
    ("estimated_amount", "estimated amount");
    ("methodology", "negotiated methodology");
    ("additional_payer_notes", "additional notes") ].

Definition SourceRow : Type := dict string.

(** The [record] dictionary appended to [rows]. *)
Definition Row : Type := dict string.

Definition Acc : Type := Accumulators (gmap string nat).
Definition State : Type := Acc * list Row.

(** The group key: (code, normalized code type, payer name, plan name). *)
Definition Key : Type := string * string * string * string.

(** [payer_row_map]: group key to the fields filed under it, both in
    insertion order. *)
Definition PayerRowMap : Type := list (Key * dict string).

(** Lines 59-63. *)
Definition parse_column_for_payer (colname : string)
    : option string * option string * option string :=
  let parts := map strip (split is_pipe colname) in
  if (length parts <? 3)%nat then (None, None, None)
  else (parts !! 0%nat, parts !! 1%nat, parts !! 2%nat).

(** [key in STANDARD_CHARGE_PREFIXES] *)
Definition known_field (key : string) : bool :=
  match get STANDARD_CHARGE_PREFIXES key with Some _ => true | None => false end.

(** Lines 89-92: the condition of the [payer_cols] comprehension. *)
Definition is_payer_col (col : string) : bool :=
  (2 <=? count "|" col)%nat &&
  (((count "|" col =? 2)%nat && known_field (strip (hd EmptyString (split is_pipe (strip col)))))
   || ((2 <? count "|" col)%nat
       && known_field (strip (List.last (split is_pipe (strip col)) EmptyString)))).

Definition payer_cols (all_columns : list string) : list string :=
  List.filter is_payer_col all_columns.

(** Line 135: [payer_row_map[key][mapped_field] = value]. *)
Definition file_value (key : Key) (mapped_field value : string) (m : PayerRowMap) : PayerRowMap :=
  set key (set mapped_field value (get_or m key [])) m.

(** Lines 120-135: the body of [for i in range(1, 5)]. *)
Definition slot_step (cfg : ExtractConfig) (row : SourceRow)
    (mapped_field payer_name plan_name value : string) (i : nat)
    (s : Acc * PayerRowMap) : Acc * PayerRowMap :=
  let code_col := "code|" +:+ pretty i in
  let type_col := "code|" +:+ pretty i +:+ "|type" in
  let code := strip (get_or row code_col EmptyString) in
  let raw_code_type := upper (strip (get_or row type_col EmptyString)) in
  if negb (nonempty code) || negb (nonempty raw_code_type) then s
  else
    match normalize_code_type cfg raw_code_type (fst s) with
    | (st, None) => (st, snd s)
    | (st, Some normalized_code_type) =>
        let key := (code, normalized_code_type, payer_name, plan_name) in
        (st, file_value key mapped_field value (snd s))
    end.

(** Lines 105-118: what a payer column contributes to a row, when it
    contributes: the canonical field, the payer, the plan and the value.
    [parse_column_for_payer] returns three strings or three [None]. *)
Definition column_parts (row : SourceRow) (col : string)
    : option (string * string * string * string) :=
  let parts := map strip (split is_pipe col) in
  if (length parts <? 3)%nat then None
  else
    let field_key :=
      if (length parts =? 3)%nat then hd EmptyString parts else List.last parts EmptyString in
    match get STANDARD_CHARGE_PREFIXES field_key with
    | None => None
    | Some mapped_field =>
        if negb (nonempty mapped_field) then None
        else
          match parse_column_for_payer col with
          | (_, Some payer_name, Some plan_name) =>
              if negb (nonempty payer_name) then None
              else
                let value := get_or row col EmptyString in
                if decide (value = EmptyString) then None
                else Some (mapped_field, payer_name, plan_name, value)
          | _ => None
          end
    end.

(** Lines 104-135: the body of [for col in payer_cols]. *)
Definition col_step (cfg : ExtractConfig) (row : SourceRow) (col : string)
    (s : Acc * PayerRowMap) : Acc * PayerRowMap :=
  match column_parts row col with
  | None => s
  | Some (mapped_field, payer_name, plan_name, value) =>
      for_each [1; 2; 3; 4] (slot_step cfg row mapped_field payer_name plan_name value) s
  end.

(** Lines 138-166: the record of one group. *)
Definition record_of (meta : HospitalMetadata) (row : SourceRow)
    (generic_notes modifiers_raw : string) (group : Key * dict string) : Row :=
  let '(code, code_type, payer, plan, field_data) := group in
  let additional_payer_note := get_or field_data "additional notes" EmptyString in
  let combined_notes := join ", " (List.filter nonempty [generic_notes; additional_payer_note]) in
  [ ("hospital name", hospital_name meta);
    ("zip code", zip_code meta);
    ("code", code);
    ("code type", code_type);
    ("insurance payer name", payer);
    ("insurance plan name", plan);
    ("negotiated price", get_or field_data "negotiated price" EmptyString);
    ("negotiated percentage", get_or field_data "negotiated percentage" EmptyString);
    ("negotiated algorithm", get_or field_data "negotiated algorithm" EmptyString);
    ("negotiated methodology", get_or field_data "negotiated methodology" EmptyString);
    ("estimated amount", get_or field_data "estimated amount" EmptyString);
    ("drug unit", get_or row "drug_unit_of_measurement" EmptyString);
    ("drug type", get_or row "drug_type_of_measurement" EmptyString);
    ("description", get_or row "description" EmptyString);
    ("gross charge", get_or row "standard_charge|gross" EmptyString);
    ("discounted cash price", get_or row "standard_charge|discounted_cash" EmptyString);
    ("min price", get_or row "standard_charge|min" EmptyString);
    ("max price", get_or row "standard_charge|max" EmptyString);
    ("setting", get_or row "setting" EmptyString);
    ("additional notes", combined_notes);
    ("modifiers", modifiers_raw) ].

(** Lines 168-172: [for k in record: if record[k]: ...], then
    [rows.append(record)]. *)
Definition emit (r : Row) (s : State) : State :=
  (with_field_presence (log_fields nonempty (map fst r) r) (fst s), snd s ++ [r]).

(** Lines 102-135: the groups of one row, with the accumulators. *)
Definition collect (cfg : ExtractConfig) (payer_cols : list string) (row : SourceRow)
    (st : Acc) : Acc * PayerRowMap :=
  for_each payer_cols (col_step cfg row) (st, []).

(** Lines 95-172: the body of [for _, row in df.iterrows()]. *)
Definition row_step (cfg : ExtractConfig) (meta : HospitalMetadata) (payer_cols : list string)
    (row : SourceRow) (s : State) : State :=
  let generic_notes := strip (get_or row "additional_generic_notes" EmptyString) in
  let field := get_or row "modifiers" EmptyString in
  let modifiers_raw := strip field in
  let st := with_modifier_counts (tally (modifier_list field)) (fst s) in
  let c := collect cfg payer_cols row st in
  for_each (snd c)
    (fun group => emit (record_of meta row generic_notes modifiers_raw group))
    (fst c, snd s).

Record MrfMetadata := {
  mrf_version : string;
  mrf_last_updated : string;
  raw_hospital_location : string;
  raw_hospital_address : string
}.

(** The body table: its column names and its rows. *)
Record DataFrame := {
  columns : list string;
  iterrows : list SourceRow
}.

Record DevLog := {
  payer_columns_parsed : nat;
  total_rows_extracted : nat;
  raw_address_info : string * string;
  mrf_metadata : string * string;
  report : Report (gmap string nat)
}.

(** Line 174: [pd.DataFrame(rows, columns=HEADERS)], the table written
    by [to_csv]: one cell per header, [None] (written as the empty
    cell) where the record has no such key. *)
Definition extracted_df (rows : list Row) : list (list (option string)) :=
  map (fun r => map (fun h => get r h) HEADERS) rows.

(** [extract_wide_format_csv], entered with the accumulators in state
    [st]. *)
Definition extract_wide_format_csv (cfg : ExtractConfig) (meta : HospitalMetadata)
    (head : MrfMetadata) (df : DataFrame) (st : Acc) : Acc * list Row * DevLog :=
  let cols := payer_cols (columns df) in
  let s := for_each (iterrows df) (row_step cfg meta cols) (st, []) in
  let r := build_report HEADERS cfg (fst s) in
  (fst r, snd s,
   {| payer_columns_parsed := length cols;
      total_rows_extracted := length (snd s);
      raw_address_info := (raw_hospital_location head, raw_hospital_address head);
      mrf_metadata := (mrf_version head, mrf_last_updated head);
      report := snd r |}).

(** One run of the script. *)
Definition run (cfg : ExtractConfig) (meta : HospitalMetadata) (head : MrfMetadata)
    (df : DataFrame) : list Row * DevLog :=
  let r := extract_wide_format_csv cfg meta head df (fresh ∅) in (snd (fst r), snd r).

Definition code_type_of (r : Row) : option string := get r "code type".

Definition key_of (r : Row) : Key :=
  (get_or r "code" EmptyString, get_or r "code type" EmptyString,
   get_or r "insurance payer name" EmptyString, get_or r "insurance plan name" EmptyString).

End Wide.

(* ===================================================================== *)
(** * The written rows as functions of the input alone *)
(* ===================================================================== *)

(** These definitions say which rows a walker writes without the
    accumulators; the lemmas of the next part prove that the walkers
    above write exactly these rows. *)

Module Rows.
Import Py Audit.

(** A code slot of a CSV row: its trimmed code and canonical type when
    the slot is filled and passes the allow-list check. *)
Definition accepted_slot (cfg : ExtractConfig) (row : dict string) (i : nat)
    : option (string * string) :=
  let code := strip (get_or row ("code|" +:+ pretty i) EmptyString) in
  let raw_code_type := upper (strip (get_or row ("code|" +:+ pretty i +:+ "|type") EmptyString)) in
  if negb (nonempty code) || negb (nonempty raw_code_type) then None
  else option_map (pair code) (accepts cfg raw_code_type).

(** What the check adds to the presence counter of [t] for one raw
    token: one when it accepts the token with canonical type [t]. *)
Definition accepted_as (cfg : ExtractConfig) (t raw : string) : nat :=
  match accepts cfg raw with
  | Some t' => if decide (t' = t) then 1 else 0
  | None => 0
  end.

(** ** JSON *)

Definition raw_code_type_of (code_entry : JsonParser.obj) : string :=
  upper (strip (str (get_or code_entry "type" (PStr EmptyString)))).

Definition json_charge (meta : HospitalMetadata) (code : pyval) (t : string)
    (description : pyval) (drug_info : JsonParser.obj) (ch : JsonParser.Charge)
    : list JsonParser.Row :=
  map (JsonParser.payer_row meta code t description drug_info (JsonParser.charge ch))
      (JsonParser.payers_information ch).

Definition json_code_entry (cfg : ExtractConfig) (meta : HospitalMetadata)
    (description : pyval) (charge_entries : list JsonParser.Charge)
    (drug_info code_entry : JsonParser.obj) : list JsonParser.Row :=
  match accepts cfg (raw_code_type_of code_entry) with
  | Some t =>
      flat_map (json_charge meta (get_or code_entry "code" (PStr EmptyString)) t description drug_info)
               charge_entries
  | None => []
  end.

Definition json_item (cfg : ExtractConfig) (meta : HospitalMetadata) (it : JsonParser.Item)
    : list JsonParser.Row :=
  flat_map
    (json_code_entry cfg meta (get_or (JsonParser.item it) "description" (PStr EmptyString))
       (JsonParser.standard_charges it) (JsonParser.drug_information it))
    (JsonParser.code_information it).

Definition json_modifier (meta : HospitalMetadata) (m : JsonParser.Modifier)
    : list JsonParser.Row :=
  map (JsonParser.modifier_row meta
         (get_or (JsonParser.modifier m) "code" (PStr EmptyString))
         (get_or (JsonParser.modifier m) "description" (PStr EmptyString)))
      (JsonParser.modifier_payer_information m).

(** The rows of the line items and the rows of the modifiers. *)
Definition json_item_rows (cfg : ExtractConfig) (meta : HospitalMetadata)
    (root : JsonParser.Root) : list JsonParser.Row :=
  flat_map (json_item cfg meta) (JsonParser.items_of (JsonParser.standard_charge_information root)).

Definition json_modifier_rows (meta : HospitalMetadata) (root : JsonParser.Root)
    : list JsonParser.Row :=
  flat_map (json_modifier meta) (JsonParser.modifier_information root).

(** The rule of line 135: the payer's value when it is there and true
    (not None, not the empty string, not zero, not false), else the
    value of the drug information, else the empty string. *)
Definition estimated_amount_of (payer drug_info : JsonParser.obj) : pyval :=
  match get payer "estimated_amount" with
  | Some v =>
      if truthy v then v
      else get_or drug_info "estimated_amount" (PStr EmptyString)
  | None => get_or drug_info "estimated_amount" (PStr EmptyString)
  end.

(** The code entries of the document, in walking order. *)
Definition json_code_entries (root : JsonParser.Root) : list JsonParser.obj :=
  flat_map JsonParser.code_information
           (JsonParser.items_of (JsonParser.standard_charge_information root)).

(** ** Tall CSV *)

Definition tall_row (cfg : ExtractConfig) (meta : HospitalMetadata) (row : Tall.SourceRow)
    : list Tall.Row :=
  let '(payer_name, payer_id) := Tall.payer_identity (get_or row "payer_name" EmptyString) in
  let notes := get_or row "additional_generic_notes" EmptyString in
  let modifiers_raw := strip (get_or row "modifiers" EmptyString) in
  flat_map
    (fun i => match accepted_slot cfg row i with
              | Some (code, t) =>
                  [Tall.output_row meta row code t payer_name payer_id notes modifiers_raw]
              | None => []
              end)
    [1; 2; 3; 4].

Definition tall_rows (cfg : ExtractConfig) (meta : HospitalMetadata)
    (body : list Tall.SourceRow) : list Tall.Row :=
  flat_map (tall_row cfg meta) body.

(** ** Wide CSV *)

(** One filing into [payer_row_map]: group key, canonical field, value. *)
Definition Contribution : Type := Wide.Key * string * string.

(** What one payer column files for a row, slot by slot. *)
Definition column_contributions (cfg : ExtractConfig) (row : Wide.SourceRow) (col : string)
    : list Contribution :=
  match Wide.column_parts row col with
  | None => []
  | Some (mapped_field, payer_name, plan_name, value) =>
      flat_map
        (fun i => match accepted_slot cfg row i with
                  | Some (code, t) => [((code, t, payer_name, plan_name), mapped_field, value)]
                  | None => []
                  end)
        [1; 2; 3; 4]
  end.

(** The filings of a row in processing order: payer columns in table
    order, code slots 1 to 4 under each. *)
Definition contributions (cfg : ExtractConfig) (payer_cols : list string)
    (row : Wide.SourceRow) : list Contribution :=
  flat_map (column_contributions cfg row) payer_cols.

Definition file (c : Contribution) (m : Wide.PayerRowMap) : Wide.PayerRowMap :=
  let '(key, mapped_field, value) := c in Wide.file_value key mapped_field value m.

Definition groups (cfg : ExtractConfig) (payer_cols : list string) (row : Wide.SourceRow)
    : Wide.PayerRowMap :=
  for_each (contributions cfg payer_cols row) file [].

Definition wide_row (cfg : ExtractConfig) (meta : HospitalMetadata) (payer_cols : list string)
    (row : Wide.SourceRow) : list Wide.Row :=
  map (Wide.record_of meta row
         (strip (get_or row "additional_generic_notes" EmptyString))
         (strip (get_or row "modifiers" EmptyString)))
      (groups cfg payer_cols row).

Definition wide_rows (cfg : ExtractConfig) (meta : HospitalMetadata) (df : Wide.DataFrame)
    : list Wide.Row :=
  flat_map (wide_row cfg meta (Wide.payer_cols (Wide.columns df))) (Wide.iterrows df).

(** The canonical fields a payer column can file, the notes apart. *)
Definition pivoted_fields : list string :=
  [ "negotiated price"; "negotiated percentage"; "negotiated algorithm";
    "negotiated methodology"; "estimated amount" ].

(** The value of the last filing for group [k] and field [f]. *)
Definition last_value (cs : list Contribution) (k : Wide.Key) (f : string) : option string :=
  for_each cs
    (fun c acc => let '(k', f', v) := c in
                  if decide (k' = k) then if decide (f' = f) then Some v else acc else acc)
    None.

(** How often a row list carries code type [t]. *)
Definition json_has_type (t : string) (r : JsonParser.Row) : bool :=
  match get r "code type" with
  | Some (PStr t') => bool_decide (t' = t)
  | _ => false
  end.

Definition csv_has_type (t : string) (r : dict string) : bool :=
  match get r "code type" with
  | Some t' => bool_decide (t' = t)
  | None => false
  end.

(** A code entry the check accepts with canonical type [t]. *)
Definition accepted_with (cfg : ExtractConfig) (t : string) (code_entry : JsonParser.obj) : bool :=
  bool_decide (accepts cfg (raw_code_type_of code_entry) = Some t).

(** The code type of a group key, and the filings made under type [t]. *)
Definition key_type (k : Wide.Key) : string := let '(_, t, _, _) := k in t.

Definition files_type (t : string) (c : Contribution) : bool :=
  bool_decide (key_type (fst (fst c)) = t).

(** [bool(row.get(field))] on a written row. *)
Definition json_field_set (field : string) (r : JsonParser.Row) : bool :=
  from_option truthy false (get r field).

Definition csv_field_set (field : string) (r : dict string) : bool :=
  from_option nonempty false (get r field).

End Rows.

(* ===================================================================== *)
(** * Inputs used by the examples *)
(* ===================================================================== *)

(** A configuration that allows CPT only. *)
Definition cpt_only : ExtractConfig :=
  {| allowed_code_types := {["CPT"]}; code_type_map := {["CPT" := "CPT"]};
     iter_allowed_code_types := elements ({["CPT"]} : gset string);
     iter_allowed_code_types_enum := Permutation_refl _ |}.

Definition general_hospital : HospitalMetadata :=
  {| hospital_name := "General"; zip_code := "02139";
     raw_filename := "mrf"; healthcare_system := "GH" |}.

Definition json_root (sci : list JsonParser.Item) (mods : list JsonParser.Modifier)
    : JsonParser.Root :=
  {| JsonParser.scanned_hospital_location := Py.PNone;
     JsonParser.scanned_hospital_address := Py.PNone;
     JsonParser.top_level_keys := ∅;
     JsonParser.version := Py.PStr "2.0.0";
     JsonParser.last_updated_on := Py.PNone;
     JsonParser.standard_charge_information := JsonParser.SciList sci;
     JsonParser.modifier_information := mods |}.

(** A document with no line item and one modifier that has one payer. *)
Definition modifier_only_root : JsonParser.Root :=
  json_root []
    [ {| JsonParser.modifier := [("code", Py.PStr "25")];
         JsonParser.modifier_payer_information := [[("payer_name", Py.PStr "Aetna")]] |} ].

(** A document with one line item: one CPT code entry, one charge entry,
    two payer entries. *)
Definition two_payer_root : JsonParser.Root :=
  json_root
    [ {| JsonParser.item := [("description", Py.PStr "Office visit")];
         JsonParser.code_information := [[("code", Py.PStr "99213"); ("type", Py.PStr "CPT")]];
         JsonParser.standard_charges :=
           [ {| JsonParser.charge := [("gross_charge", Py.PInt 150)];
                JsonParser.payers_information :=
                  [ [("payer_name", Py.PStr "Aetna")]; [("payer_name", Py.PStr "Cigna")] ] |} ];
         JsonParser.drug_information := [] |} ]
    [].

Definition wide_head : Wide.MrfMetadata :=
  {| Wide.mrf_version := "2.0.0"; Wide.mrf_last_updated := "2024-01-01";
     Wide.raw_hospital_location := "General"; Wide.raw_hospital_address := "1 Main St" |}.

Definition tall_head : Tall.MrfMetadata :=
  {| Tall.mrf_version := "2.0.0"; Tall.mrf_last_updated := "2024-01-01";
     Tall.raw_hospital_location := "General"; Tall.raw_hospital_address := "1 Main St" |}.

(** A wide table with one body row: code slot 1 filled, the negotiated
    dollar column holding 100 and the methodology column holding
    "case rate". *)
Definition one_slot_row (dollar_col methodology_col code code_type : string) : Wide.SourceRow :=
  [ ("code|1", code); ("code|1|type", code_type);
    (dollar_col, "100"); (methodology_col, "case rate") ].

Definition one_slot_table (dollar_col methodology_col code code_type : string)
    : Wide.DataFrame :=
  {| Wide.columns := ["code|1"; "code|1|type"; dollar_col; methodology_col];
     Wide.iterrows := [one_slot_row dollar_col methodology_col code code_type] |}.

(** The record the two columns and the code slot are to yield. *)
Definition one_payer_record (code t : string) (r : Wide.Row) : Prop :=
  Py.get r "code" = Some code
  /\ Py.get r "code type" = Some t
  /\ Py.get r "insurance payer name" = Some "PayerA"
  /\ Py.get r "insurance plan name" = Some "PlanA"
  /\ Py.get r "negotiated price" = Some "100"
  /\ Py.get r "negotiated methodology" = Some "case rate".

(** A tall body row with one CPT code slot and a description. *)
Definition tall_row_with (description : string) : Tall.SourceRow :=
  [ ("description", description); ("code|1", "99213"); ("code|1|type", "CPT");
    ("payer_name", "Aetna [60054]"); ("plan_name", "PPO");
    ("standard_charge|negotiated_dollar", "100") ].

(** The text of a pipe size in inches: 5, a double quote, " pipe". *)
Definition five_inch_pipe : string := "5" +:+ String Tall.dquote " pipe".

(* ===================================================================== *)
(** * The registry loader *)
(* ===================================================================== *)

Module Loader.
Import Py.

(** One row of the sheet [pd.read_excel] returns: the five columns
    [load_registry_info] reads.  The zip code cell is a number or a text. *)
Record RegistryRow := {
  campus_id : string;
  cell_hospital_name : string;
  cell_zip_code : pyval;
  cell_raw_filename : string;
  cell_healthcare_system : string
}.

Inductive Error : Type :=
  | ValueError (message : string).

(** [load_registry_info] (the same in the three files):
<<
    row = df[df['campus_id'] == campus_id]
    if row.empty:
        raise ValueError(...)
    record = row.iloc[0]
>>
    and the dictionary built from [record], with [str] on the zip code. *)
Definition load_registry_info (campus : string) (df : list RegistryRow)
    : Error + HospitalMetadata :=
  match List.filter (fun r => bool_decide (campus_id r = campus)) df with
  | [] => inl (ValueError ("Campus ID '" +:+ campus +:+ "' not found in hospital registry."))
  | record :: _ =>
      inr {| hospital_name := cell_hospital_name record;
             zip_code := str (cell_zip_code record);
             raw_filename := cell_raw_filename record;
             healthcare_system := cell_healthcare_system record |}
  end.

End Loader.

(* ===================================================================== *)
(** * Notions the further properties are stated with *)
(* ===================================================================== *)

Module Derived.
Import Py Audit.

(** What the allow-list check does to the unrecognized counters for one
    raw token: it raises the token's counter when the token is rejected. *)
Definition unknown_after (cfg : ExtractConfig) (raw : string) (u : gmap string nat)
    : gmap string nat :=
  match accepts cfg raw with
  | Some _ => u
  | None => bump raw u
  end.

(** A token in the form every walker gives it before the lookup:
    trimmed and in upper case. *)
Definition normal (raw : string) : Prop := upper raw = raw /\ strip raw = raw.

(** A code entry of a JSON line item that passes the allow-list check. *)
Definition accepted_entry (cfg : ExtractConfig) (code_entry : JsonParser.obj) : bool :=
  match accepts cfg (Rows.raw_code_type_of code_entry) with
  | Some _ => true
  | None => false
  end.

(** The payer entries of a line item, over all its charge entries. *)
Definition payer_entries (it : JsonParser.Item) : nat :=
  sum_list (map (fun ch => length (JsonParser.payers_information ch))
                (JsonParser.standard_charges it)).

(** The payer entries of a modifier. *)
Definition modifier_payers (m : JsonParser.Modifier) : nat :=
  length (JsonParser.modifier_payer_information m).

(** The modifier tokens of a CSV body row. *)
Definition row_modifiers (row : dict string) : list string :=
  modifier_list (get_or row "modifiers" EmptyString).

(** No written row carries code type [t]. *)
Definition no_row_of_type (t : string) (rows : list (dict string)) : Prop :=
  Forall (fun r => get r "code type" <> Some t) rows.

(** The normalizations recorded for a raw token are the one value the
    configured map gives for it. *)
Definition single_valued (cfg : ExtractConfig) (mp : gmap string (gset (option string))) : Prop :=
  forall raw values, mp !! raw = Some values -> values = {[ code_type_map cfg !! raw ]}.

(** Every raw token that is a key of the two tables is [normal]. *)
Definition normal_keys (u : gmap string nat) (mp : gmap string (gset (option string))) : Prop :=
  (forall raw, is_Some (u !! raw) -> normal raw)
  /\ (forall raw, is_Some (mp !! raw) -> normal raw).

End Derived.

(** A registry of two campuses, the second listed twice. *)
Definition two_campus_registry : list Loader.RegistryRow :=
  [ {| Loader.campus_id := "GH-1"; Loader.cell_hospital_name := "General";
       Loader.cell_zip_code := Py.PInt 60601; Loader.cell_raw_filename := "gh1.json";
       Loader.cell_healthcare_system := "GH" |};
    {| Loader.campus_id := "GH-2"; Loader.cell_hospital_name := "General North";
       Loader.cell_zip_code := Py.PStr "02139"; Loader.cell_raw_filename := "gh2.csv";
       Loader.cell_healthcare_system := "GH" |};
    {| Loader.campus_id := "GH-2"; Loader.cell_hospital_name := "General North (old)";
       Loader.cell_zip_code := Py.PStr "02139"; Loader.cell_raw_filename := "gh2-old.csv";
       Loader.cell_healthcare_system := "GH" |} ].

(** A configuration with a normalization map and nothing allowed. *)
Definition nothing_allowed : ExtractConfig :=
  {| allowed_code_types := ∅; code_type_map := {["CPT" := "CPT"]};
     iter_allowed_code_types := elements (∅ : gset string);
     iter_allowed_code_types_enum := Permutation_refl _ |}.

(** A configuration that allows CPT and HCPCS, as two interpreter
    processes may hold it: the same members and the same map, the set
    iterated in opposite orders. *)
Definition cpt_and_hcpcs : ExtractConfig :=
  {| allowed_code_types := {["CPT"; "HCPCS"]};
     code_type_map := {["CPT" := "CPT"; "HCPCS" := "HCPCS"]};
     iter_allowed_code_types := elements ({["CPT"; "HCPCS"]} : gset string);
     iter_allowed_code_types_enum := Permutation_refl _ |}.

Definition cpt_and_hcpcs_elsewhere : ExtractConfig :=
  {| allowed_code_types := {["CPT"; "HCPCS"]};
     code_type_map := {["CPT" := "CPT"; "HCPCS" := "HCPCS"]};
     iter_allowed_code_types := reverse (elements ({["CPT"; "HCPCS"]} : gset string));
     iter_allowed_code_types_enum := reverse_Permutation _ |}.

(* ===================================================================== *)
(** * Loops *)
(* ===================================================================== *)

Section Loops.
Context {A S : Type}.
Implicit Types (l : list A) (body : A -> S -> S).

Lemma for_each_nil body s : Py.for_each [] body s = s.
Proof. reflexivity. Qed.

Lemma for_each_cons a l body s :
  Py.for_each (a :: l) body s = Py.for_each l body (body a s).
Proof. reflexivity. Qed.

Lemma for_each_app l1 l2 body s :
  Py.for_each (l1 ++ l2) body s = Py.for_each l2 body (Py.for_each l1 body s).
Proof. unfold Py.for_each. apply fold_left_app. Qed.

(** A property every iteration preserves holds after the loop. *)
Lemma for_each_inv (P : S -> Prop) l body s :
  P s -> (forall a s, In a l -> P s -> P (body a s)) -> P (Py.for_each l body s).
Proof.
  revert s. induction l as [|a l IH]; intros s Hs Hbody; [exact Hs|].
  rewrite for_each_cons. apply IH.
  - apply Hbody; [left; reflexivity | exact Hs].
  - intros a' s' Hin. apply Hbody. right; exact Hin.
Qed.

(** A measure every iteration raises by a known amount. *)
Lemma for_each_add (M : S -> nat) (w : A -> nat) l body s :
  (forall a s, M (body a s) = M s + w a) ->
  M (Py.for_each l body s) = M s + sum_list (map w l).
Proof.
  intros Hbody. revert s. induction l as [|a l IH]; intros s.
  - rewrite for_each_nil. simpl. lia.
  - rewrite for_each_cons, IH, Hbody. simpl. lia.
Qed.

(** A component of the state no iteration changes. *)
Lemma for_each_keep {B} (proj : S -> B) l body s :
  (forall a s, proj (body a s) = proj s) -> proj (Py.for_each l body s) = proj s.
Proof.
  intros Hbody. apply (for_each_inv (fun s' => proj s' = proj s)); [reflexivity|].
  intros a s' _ Hs'. rewrite Hbody. exact Hs'.
Qed.

End Loops.

(** The rows a loop appends, when every iteration appends rows that do
    not depend on the state. *)
Lemma for_each_rows {A S R} (g : A -> list R) (l : list A)
    (body : A -> S * list R -> S * list R) (s : S * list R) (out : list R) :
  snd s = out ->
  (forall a s, snd (body a s) = snd s ++ g a) ->
  snd (Py.for_each l body s) = out ++ flat_map g l.
Proof.
  intros <- Hbody. revert s. induction l as [|a l IH]; intros s.
  - rewrite for_each_nil. simpl. rewrite app_nil_r. reflexivity.
  - rewrite for_each_cons, IH, Hbody. simpl. rewrite <- app_assoc. reflexivity.
Qed.

Lemma flat_map_singleton {A B} (f : A -> B) (l : list A) :
  flat_map (fun a => [f a]) l = map f l.
Proof. induction l as [|a l IH]; simpl; [reflexivity | rewrite IH; reflexivity]. Qed.

Lemma count_flat_map {A R} (p : R -> bool) (g : A -> list R) (l : list A) :
  length (List.filter p (flat_map g l))
  = sum_list (map (fun a => length (List.filter p (g a))) l).
Proof.
  induction l as [|a l IH]; simpl; [reflexivity|].
  rewrite List.filter_app, length_app, IH. reflexivity.
Qed.

(* ===================================================================== *)
(** * Counters *)
(* ===================================================================== *)

Lemma cnt_empty k : Audit.cnt ∅ k = 0.
Proof. unfold Audit.cnt. rewrite lookup_empty. reflexivity. Qed.

Lemma cnt_bump k m t :
  Audit.cnt (Audit.bump k m) t = Audit.cnt m t + (if decide (k = t) then 1 else 0).
Proof.
  unfold Audit.bump, Audit.cnt at 1. rewrite lookup_insert.
  destruct (decide (k = t)) as [->|Hne]; simpl.
  - lia.
  - fold (Audit.cnt m t). lia.
Qed.

Lemma cnt_tally l m t :
  Audit.cnt (Audit.tally l m) t = Audit.cnt m t + count_occ String.eq_dec l t.
Proof.
  unfold Audit.tally. revert m. induction l as [|k l IH]; intros m.
  - rewrite for_each_nil. simpl. lia.
  - rewrite for_each_cons, IH, cnt_bump. simpl.
    destruct (String.eq_dec k t), (decide (k = t)); try contradiction; lia.
Qed.

(* ===================================================================== *)
(** * Trimming and splitting *)
(* ===================================================================== *)

Lemma split_not_nil sep s : Py.split sep s <> [].
Proof.
  destruct s as [|c s]; simpl; [discriminate|].
  destruct (sep c); [discriminate|]. destruct (Py.split sep s); discriminate.
Qed.

Lemma lstrip_idem s : Py.lstrip (Py.lstrip s) = Py.lstrip s.
Proof.
  induction s as [|c s IH]; simpl; [reflexivity|].
  destruct (Py.isspace c) eqn:Hc; [exact IH|]. simpl. rewrite Hc. reflexivity.
Qed.

Lemma rstrip_cons c s :
  Py.rstrip (String c s)
  = match Py.rstrip s with
    | EmptyString => if Py.isspace c then EmptyString else String c EmptyString
    | r => String c r
    end.
Proof. reflexivity. Qed.

Lemma rstrip_idem s : Py.rstrip (Py.rstrip s) = Py.rstrip s.
Proof.
  induction s as [|c s IH]; [reflexivity|].
  rewrite rstrip_cons. destruct (Py.rstrip s) as [|c' r] eqn:Hr.
  - destruct (Py.isspace c) eqn:Hc; [reflexivity|].
    rewrite rstrip_cons. simpl. rewrite Hc. reflexivity.
  - rewrite rstrip_cons, IH. reflexivity.
Qed.

Lemma lstrip_rstrip s : Py.lstrip (Py.rstrip s) = Py.rstrip (Py.lstrip s).
Proof.
  induction s as [|c s IH]; [reflexivity|].
  rewrite rstrip_cons. simpl Py.lstrip at 2.
  destruct (Py.isspace c) eqn:Hc.
  - rewrite <- IH. destruct (Py.rstrip s) as [|c' r]; [reflexivity|].
    simpl. rewrite Hc. reflexivity.
  - rewrite rstrip_cons.
    destruct (Py.rstrip s) as [|c' r]; simpl; rewrite Hc; reflexivity.
Qed.

Lemma strip_lstrip s : Py.strip (Py.lstrip s) = Py.strip s.
Proof. unfold Py.strip. rewrite !lstrip_rstrip, lstrip_idem. reflexivity. Qed.

Lemma strip_rstrip s : Py.strip (Py.rstrip s) = Py.strip s.
Proof. unfold Py.strip. rewrite rstrip_idem. reflexivity. Qed.

Lemma strip_empty : Py.strip EmptyString = EmptyString.
Proof. reflexivity. Qed.

Section SplitStrip.
Variable sep : ascii -> bool.
Hypothesis sep_not_space : forall c, sep c = true -> Py.isspace c = false.

Lemma split_lstrip s : Py.split sep (Py.lstrip s) = Py.on_first Py.lstrip (Py.split sep s).
Proof.
  induction s as [|c s IH]; [reflexivity|]. simpl.
  destruct (Py.isspace c) eqn:Hc.
  - destruct (sep c) eqn:Hs; [rewrite (sep_not_space _ Hs) in Hc; discriminate|].
    rewrite IH. destruct (Py.split sep s) as [|p ps] eqn:Hp;
      [exfalso; exact (split_not_nil _ _ Hp)|].
    simpl. rewrite Hc. reflexivity.
  - simpl. destruct (sep c); [reflexivity|].
    destruct (Py.split sep s) as [|p ps] eqn:Hp;
      [exfalso; exact (split_not_nil _ _ Hp)|].
    simpl. rewrite Hc. reflexivity.
Qed.

Lemma split_cons_keep c s :
  sep c = false -> Py.split sep (String c s) = Py.on_first (String c) (Py.split sep s).
Proof.
  intros Hs. change (Py.split sep (String c s))
    with (if sep c then EmptyString :: Py.split sep s
          else match Py.split sep s with
               | p :: ps => String c p :: ps
               | [] => [String c EmptyString]
               end).
  rewrite Hs. destruct (Py.split sep s) eqn:Hq; [|reflexivity].
  exfalso. exact (split_not_nil _ _ Hq).
Qed.

Lemma split_singleton_empty s : Py.split sep s = [EmptyString] -> s = EmptyString.
Proof.
  destruct s as [|c s]; [reflexivity|]. simpl.
  destruct (sep c).
  - intros H. injection H as H. exfalso. exact (split_not_nil _ _ H).
  - destruct (Py.split sep s); discriminate.
Qed.

Lemma split_rstrip s : Py.split sep (Py.rstrip s) = Py.on_last Py.rstrip (Py.split sep s).
Proof.
  induction s as [|c s IH]; [reflexivity|].
  rewrite rstrip_cons. simpl Py.split at 2.
  destruct (Py.split sep s) as [|p ps] eqn:Hp; [exfalso; exact (split_not_nil _ _ Hp)|].
  destruct (sep c) eqn:Hs.
  - assert (Hc := sep_not_space _ Hs).
    assert (Py.split sep (String c (Py.rstrip s)) = Py.on_last Py.rstrip (EmptyString :: p :: ps)) as Hgoal.
    { simpl Py.split. rewrite Hs, IH. reflexivity. }
    destruct (Py.rstrip s); [rewrite Hc|]; exact Hgoal.
  - destruct (Py.rstrip s) as [|c' r] eqn:Hr.
    + destruct ps as [|p' ps].
      * change (Py.on_last Py.rstrip [String c p]) with [Py.rstrip (String c p)].
        injection IH as IH. rewrite rstrip_cons, <- IH.
        destruct (Py.isspace c); [reflexivity|]. simpl. rewrite Hs. reflexivity.
      * exfalso. simpl in IH. destruct ps; discriminate.
    + assert (Py.split sep (String c (String c' r))
              = Py.on_first (String c) (Py.split sep (String c' r))) as ->.
      { apply split_cons_keep. exact Hs. }
      rewrite IH. destruct ps as [|p' ps].
      * change (Py.on_last Py.rstrip [String c p]) with [Py.rstrip (String c p)].
        change (Py.on_last Py.rstrip [p]) with [Py.rstrip p]. simpl Py.on_first.
        rewrite rstrip_cons.
        destruct (Py.rstrip p) eqn:Hrp; [|reflexivity].
        exfalso. change (Py.on_last Py.rstrip [p]) with [Py.rstrip p] in IH.
        rewrite Hrp in IH. apply split_singleton_empty in IH. discriminate.
      * reflexivity.
Qed.

Lemma map_strip_on_first l : map Py.strip (Py.on_first Py.lstrip l) = map Py.strip l.
Proof. destruct l; simpl; [reflexivity|]. rewrite strip_lstrip. reflexivity. Qed.

Lemma map_strip_on_last l : map Py.strip (Py.on_last Py.rstrip l) = map Py.strip l.
Proof.
  induction l as [|x l IH]; [reflexivity|].
  destruct l as [|y l]; simpl; [rewrite strip_rstrip; reflexivity|].
  simpl in IH. rewrite IH. reflexivity.
Qed.

Lemma map_strip_split_strip s :
  map Py.strip (Py.split sep (Py.strip s)) = map Py.strip (Py.split sep s).
Proof.
  unfold Py.strip at 2.
  rewrite split_lstrip, map_strip_on_first, split_rstrip, map_strip_on_last. reflexivity.
Qed.

End SplitStrip.

Lemma modifier_sep_not_space c : Audit.is_modifier_sep c = true -> Py.isspace c = false.
Proof.
  unfold Audit.is_modifier_sep. intros H. apply orb_true_iff in H.
  destruct H as [H|H]; apply Ascii.eqb_eq in H; subst c; reflexivity.
Qed.

Lemma map_filter_strip l :
  map Py.strip (List.filter (fun m => Py.nonempty (Py.strip m)) l)
  = List.filter Py.nonempty (map Py.strip l).
Proof.
  induction l as [|x l IH]; simpl; [reflexivity|].
  destruct (Py.nonempty (Py.strip x)); simpl; rewrite IH; reflexivity.
Qed.

Lemma modifier_list_refines field : Audit.modifier_list field = Audit.split_trim_discard field.
Proof.
  unfold Audit.modifier_list, Audit.split_trim_discard.
  rewrite map_filter_strip, (map_strip_split_strip _ modifier_sep_not_space). reflexivity.
Qed.

(* ===================================================================== *)
(** * C6: the modifier extractor *)
(* ===================================================================== *)

(** C6: for every raw modifier cell the extractor returns the pieces
    between commas and pipes, each trimmed, the empty ones dropped, in
    source order, and raises the counter of every token by the number of
    its occurrences in that list; the cell [A, B|C] gives the tokens A, B
    and C, each counted once, and the empty cell gives no token and
    leaves the counters as they were. *)
Theorem modifier_extractor_contract :
  (forall field counts,
      fst (Audit.extract_modifiers field counts) = Audit.split_trim_discard field
      /\ forall m, Audit.cnt (snd (Audit.extract_modifiers field counts)) m
                   = Audit.cnt counts m
                     + count_occ String.eq_dec (fst (Audit.extract_modifiers field counts)) m)
  /\ Audit.extract_modifiers "A, B|C" ∅
     = (["A"; "B"; "C"], <["C" := 1]> (<["B" := 1]> (<["A" := 1]> ∅)))
  /\ forall counts, Audit.extract_modifiers EmptyString counts = ([], counts).
Proof.
  split; [|split].
  - intros field counts. split.
    + apply modifier_list_refines.
    + intros m. apply cnt_tally.
  - vm_compute. reflexivity.
  - intros counts. reflexivity.
Qed.

(* ===================================================================== *)
(** * The allow-list check *)
(* ===================================================================== *)

Section AllowList.
Context {M : Type}.
Implicit Types (st : Audit.Accumulators M).

Lemma normalize_accepts cfg raw st :
  snd (Audit.normalize_code_type cfg raw st) = Audit.accepts cfg raw.
Proof.
  unfold Audit.normalize_code_type, Audit.accepts.
  destruct (code_type_map cfg !! raw) as [t|]; [|reflexivity].
  destruct (decide (t ∈ allowed_code_types cfg)); reflexivity.
Qed.

Lemma accepts_allowed cfg raw t : Audit.accepts cfg raw = Some t -> t ∈ allowed_code_types cfg.
Proof.
  unfold Audit.accepts. destruct (code_type_map cfg !! raw) as [t'|]; [|discriminate].
  destruct (decide (t' ∈ allowed_code_types cfg)); [|discriminate].
  intros H. injection H as <-. assumption.
Qed.

Lemma normalize_field_presence cfg raw st :
  Audit.FIELD_PRESENCE_LOG (fst (Audit.normalize_code_type cfg raw st))
  = Audit.FIELD_PRESENCE_LOG st.
Proof.
  unfold Audit.normalize_code_type.
  destruct (code_type_map cfg !! raw) as [t|]; [|reflexivity].
  destruct (decide (t ∈ allowed_code_types cfg)); reflexivity.
Qed.

Lemma normalize_presence cfg raw st t :
  Audit.cnt (Audit.CODE_TYPE_PRESENCE (fst (Audit.normalize_code_type cfg raw st))) t
  = Audit.cnt (Audit.CODE_TYPE_PRESENCE st) t + Rows.accepted_as cfg t raw.
Proof.
  unfold Audit.normalize_code_type, Rows.accepted_as, Audit.accepts.
  destruct (code_type_map cfg !! raw) as [t'|]; [|simpl; lia].
  destruct (decide (t' ∈ allowed_code_types cfg)); simpl; [|lia].
  apply cnt_bump.
Qed.

End AllowList.

(* ===================================================================== *)
(** * The rows each walker writes *)
(* ===================================================================== *)

Lemma json_emit_rows row s : snd (JsonParser.emit row s) = snd s ++ [row].
Proof. reflexivity. Qed.

Lemma json_charge_step_rows meta code t description drug_info ch s :
  snd (JsonParser.charge_step meta code t description drug_info ch s)
  = snd s ++ Rows.json_charge meta code t description drug_info ch.
Proof.
  unfold JsonParser.charge_step, Rows.json_charge.
  rewrite <- flat_map_singleton. apply for_each_rows; [reflexivity|].
  intros payer s'. reflexivity.
Qed.

Lemma json_code_entry_step_rows cfg meta description charge_entries drug_info code_entry s :
  snd (JsonParser.code_entry_step cfg meta description charge_entries drug_info code_entry s)
  = snd s ++ Rows.json_code_entry cfg meta description charge_entries drug_info code_entry.
Proof.
  unfold JsonParser.code_entry_step, Rows.json_code_entry.
  fold (Rows.raw_code_type_of code_entry).
  rewrite <- (normalize_accepts cfg (Rows.raw_code_type_of code_entry) (fst s)).
  destruct (Audit.normalize_code_type cfg (Rows.raw_code_type_of code_entry) (fst s))
    as [st [t|]]; cbn [fst snd].
  - apply (for_each_rows (Rows.json_charge meta (Py.get_or code_entry "code" (Py.PStr EmptyString))
                            t description drug_info)); [reflexivity|].
    intros ch s'. apply json_charge_step_rows.
  - rewrite app_nil_r. reflexivity.
Qed.

Lemma json_item_step_rows cfg meta it s :
  snd (JsonParser.item_step cfg meta it s) = snd s ++ Rows.json_item cfg meta it.
Proof.
  unfold JsonParser.item_step, Rows.json_item. apply for_each_rows; [reflexivity|].
  intros ce s'. apply json_code_entry_step_rows.
Qed.

Lemma json_modifier_step_rows meta m s :
  snd (JsonParser.modifier_step meta m s) = snd s ++ Rows.json_modifier meta m.
Proof.
  unfold JsonParser.modifier_step, Rows.json_modifier.
  rewrite <- flat_map_singleton.
  apply (for_each_rows (fun payer =>
           [JsonParser.modifier_row meta
              (Py.get_or (JsonParser.modifier m) "code" (Py.PStr EmptyString))
              (Py.get_or (JsonParser.modifier m) "description" (Py.PStr EmptyString)) payer]));
    [reflexivity|].
  intros payer s'. reflexivity.
Qed.

Lemma json_walk_rows cfg meta root s :
  snd (JsonParser.walk cfg meta root s)
  = snd s ++ Rows.json_item_rows cfg meta root ++ Rows.json_modifier_rows meta root.
Proof.
  unfold JsonParser.walk, Rows.json_item_rows, Rows.json_modifier_rows.
  rewrite app_assoc.
  apply (for_each_rows (Rows.json_modifier meta)); [|intros; apply json_modifier_step_rows].
  apply (for_each_rows (Rows.json_item cfg meta)); [reflexivity|].
  intros; apply json_item_step_rows.
Qed.

Lemma json_parse_rows cfg meta root st :
  snd (fst (JsonParser.parse_json cfg meta root st))
  = Rows.json_item_rows cfg meta root ++ Rows.json_modifier_rows meta root.
Proof. unfold JsonParser.parse_json. cbn [fst snd]. apply (json_walk_rows cfg meta root (st, [])). Qed.

Lemma json_run_rows cfg meta root :
  fst (JsonParser.run cfg meta root)
  = Rows.json_item_rows cfg meta root ++ Rows.json_modifier_rows meta root.
Proof. unfold JsonParser.run. cbn [fst snd]. apply json_parse_rows. Qed.

(** ** Tall *)

Lemma tall_slot_step_rows cfg meta row payer_name payer_id notes modifiers_raw i s :
  snd (Tall.slot_step cfg meta row payer_name payer_id notes modifiers_raw i s)
  = snd s ++ match Rows.accepted_slot cfg row i with
             | Some (code, t) =>
                 [Tall.output_row meta row code t payer_name payer_id notes modifiers_raw]
             | None => []
             end.
Proof.
  unfold Tall.slot_step, Rows.accepted_slot.
  destruct (negb _ || negb _); [rewrite app_nil_r; reflexivity|].
  rewrite <- (normalize_accepts cfg _ (fst s)).
  destruct (Audit.normalize_code_type cfg _ (fst s)) as [st [t|]]; cbn [fst snd option_map].
  - reflexivity.
  - rewrite app_nil_r. reflexivity.
Qed.

Lemma tall_row_step_rows cfg meta row s :
  snd (Tall.row_step cfg meta row s) = snd s ++ Rows.tall_row cfg meta row.
Proof.
  unfold Tall.row_step, Rows.tall_row.
  destruct (Tall.payer_identity _) as [payer_name payer_id].
  apply (for_each_rows (fun i =>
           match Rows.accepted_slot cfg row i with
           | Some (code, t) =>
               [Tall.output_row meta row code t payer_name payer_id
                  (Py.get_or row "additional_generic_notes" EmptyString)
                  (Py.strip (Py.get_or row "modifiers" EmptyString))]
           | None => []
           end)); [reflexivity|].
  intros i s'. apply tall_slot_step_rows.
Qed.

Lemma tall_extract_rows cfg meta head body st :
  snd (fst (Tall.extract_tall_format_csv cfg meta head body st)) = Rows.tall_rows cfg meta body.
Proof.
  unfold Tall.extract_tall_format_csv, Rows.tall_rows. cbn [fst snd].
  apply (for_each_rows (Rows.tall_row cfg meta) body _ (st, []) []); [reflexivity|].
  intros; apply tall_row_step_rows.
Qed.

Lemma tall_run_rows cfg meta head body :
  fst (Tall.run cfg meta head body) = Rows.tall_rows cfg meta body.
Proof. unfold Tall.run. cbn [fst snd]. apply tall_extract_rows. Qed.

(** ** Wide *)

(** The filings a loop makes, when every iteration files values that do
    not depend on the accumulators. *)
Lemma for_each_files {A S} (g : A -> list Rows.Contribution) (l : list A)
    (body : A -> S * Wide.PayerRowMap -> S * Wide.PayerRowMap) (s : S * Wide.PayerRowMap) :
  (forall a s, snd (body a s) = Py.for_each (g a) Rows.file (snd s)) ->
  snd (Py.for_each l body s) = Py.for_each (flat_map g l) Rows.file (snd s).
Proof.
  intros Hbody. revert s. induction l as [|a l IH]; intros s.
  - reflexivity.
  - rewrite for_each_cons, IH, Hbody. simpl flat_map. rewrite for_each_app. reflexivity.
Qed.

Lemma wide_slot_step_files cfg row mapped_field payer_name plan_name value i s :
  snd (Wide.slot_step cfg row mapped_field payer_name plan_name value i s)
  = Py.for_each
      match Rows.accepted_slot cfg row i with
      | Some (code, t) => [((code, t, payer_name, plan_name), mapped_field, value)]
      | None => []
      end
      Rows.file (snd s).
Proof.
  unfold Wide.slot_step, Rows.accepted_slot.
  destruct (negb _ || negb _); [reflexivity|].
  rewrite <- (normalize_accepts cfg _ (fst s)).
  destruct (Audit.normalize_code_type cfg _ (fst s)) as [st [t|]]; reflexivity.
Qed.

Lemma wide_col_step_files cfg row col s :
  snd (Wide.col_step cfg row col s)
  = Py.for_each (Rows.column_contributions cfg row col) Rows.file (snd s).
Proof.
  unfold Wide.col_step, Rows.column_contributions.
  destruct (Wide.column_parts row col) as [[[[mapped_field payer_name] plan_name] value]|];
    [|reflexivity].
  apply (for_each_files (fun i =>
           match Rows.accepted_slot cfg row i with
           | Some (code, t) => [((code, t, payer_name, plan_name), mapped_field, value)]
           | None => []
           end)).
  intros i s'. apply wide_slot_step_files.
Qed.

Lemma wide_collect_groups cfg payer_cols row st :
  snd (Wide.collect cfg payer_cols row st) = Rows.groups cfg payer_cols row.
Proof.
  unfold Wide.collect, Rows.groups, Rows.contributions.
  apply (for_each_files (Rows.column_contributions cfg row) payer_cols _ (st, [])).
  intros; apply wide_col_step_files.
Qed.

Lemma wide_row_step_rows cfg meta payer_cols row s :
  snd (Wide.row_step cfg meta payer_cols row s) = snd s ++ Rows.wide_row cfg meta payer_cols row.
Proof.
  unfold Wide.row_step, Rows.wide_row.
  rewrite wide_collect_groups, <- flat_map_singleton.
  apply (for_each_rows (fun group =>
           [Wide.record_of meta row
              (Py.strip (Py.get_or row "additional_generic_notes" EmptyString))
              (Py.strip (Py.get_or row "modifiers" EmptyString)) group])); [reflexivity|].
  intros group s'. reflexivity.
Qed.

Lemma wide_extract_rows cfg meta head df st :
  snd (fst (Wide.extract_wide_format_csv cfg meta head df st)) = Rows.wide_rows cfg meta df.
Proof.
  unfold Wide.extract_wide_format_csv, Rows.wide_rows. cbn [fst snd].
  apply (for_each_rows (Rows.wide_row cfg meta (Wide.payer_cols (Wide.columns df))) _ _ (st, []) []);
    [reflexivity|].
  intros; apply wide_row_step_rows.
Qed.

Lemma wide_run_rows cfg meta head df :
  fst (Wide.run cfg meta head df) = Rows.wide_rows cfg meta df.
Proof. unfold Wide.run. cbn [fst snd]. apply wide_extract_rows. Qed.

(* ===================================================================== *)
(** * What the accumulators count *)
(* ===================================================================== *)

(** A measure every iteration raises by the number of its rows that
    satisfy [p]. *)
Lemma for_each_count {A S R} (M : S -> nat) (p : R -> bool) (g : A -> list R)
    (l : list A) (body : A -> S -> S) (s : S) :
  (forall a s, M (body a s) = M s + length (List.filter p (g a))) ->
  M (Py.for_each l body s) = M s + length (List.filter p (flat_map g l)).
Proof.
  intros Hbody. rewrite count_flat_map.
  apply (for_each_add M (fun a => length (List.filter p (g a)))). exact Hbody.
Qed.

Lemma headers_json_nodup : NoDup JsonParser.HEADERS.
Proof. apply (bool_decide_unpack _). vm_compute. exact I. Qed.

Lemma headers_tall_nodup : NoDup Tall.HEADERS.
Proof. apply (bool_decide_unpack _). vm_compute. exact I. Qed.

Lemma headers_wide_nodup : NoDup Wide.HEADERS.
Proof. apply (bool_decide_unpack _). vm_compute. exact I. Qed.

Lemma cnt_log_fields {V} (is_true : V -> bool) (keys : list string) (row : Py.dict V)
    (fp : gmap string nat) (h : string) :
  NoDup keys ->
  Audit.cnt (Audit.log_fields is_true keys row fp) h
  = Audit.cnt fp h
    + (if decide (h ∈ keys)
       then if from_option is_true false (Py.get row h) then 1 else 0
       else 0).
Proof.
  unfold Audit.log_fields. intros Hnd. revert fp.
  induction Hnd as [|k keys Hk Hnd IH]; intros fp.
  - rewrite for_each_nil. destruct (decide (h ∈ [])) as [Hin|]; [|lia].
    apply elem_of_nil in Hin. contradiction.
  - rewrite for_each_cons, IH.
    destruct (decide (h = k)) as [->|Hne].
    + destruct (decide (k ∈ keys)); [contradiction|].
      destruct (decide (k ∈ k :: keys)) as [_|Hn]; [|exfalso; apply Hn; left].
      destruct (from_option is_true false (Py.get row k)); [|lia].
      rewrite cnt_bump. destruct (decide (k = k)); [lia|contradiction].
    + assert (Audit.cnt (if from_option is_true false (Py.get row k)
                         then Audit.bump k fp else fp) h = Audit.cnt fp h) as ->.
      { destruct (from_option is_true false (Py.get row k)); [|reflexivity].
        rewrite cnt_bump. destruct (decide (k = h)); [congruence|lia]. }
      destruct (decide (h ∈ keys)) as [Hin|Hnin];
        destruct (decide (h ∈ k :: keys)) as [Hin'|Hnin']; try reflexivity.
      * exfalso. apply Hnin'. right. exact Hin.
      * exfalso. apply elem_of_cons in Hin'. destruct Hin'; [congruence|contradiction].
Qed.

Lemma cnt_touch ct m t : Audit.cnt (Audit.touch ct m) t = Audit.cnt m t.
Proof.
  unfold Audit.touch. destruct (m !! ct) eqn:Hm; [reflexivity|].
  unfold Audit.cnt. rewrite lookup_insert.
  destruct (decide (ct = t)) as [->|]; [rewrite Hm|]; reflexivity.
Qed.

Lemma cnt_touch_all cts m t : Audit.cnt (Py.for_each cts Audit.touch m) t = Audit.cnt m t.
Proof.
  apply (for_each_inv (fun m' => Audit.cnt m' t = Audit.cnt m t)); [reflexivity|].
  intros ct m' _ Hm'. rewrite cnt_touch. exact Hm'.
Qed.

(** The order in which a process iterates the allowed set enumerates its
    members. *)
Lemma iter_allowed_elem cfg (ct : string) :
  ct ∈ iter_allowed_code_types cfg <-> ct ∈ allowed_code_types cfg.
Proof. rewrite (iter_allowed_code_types_enum cfg). apply elem_of_elements. Qed.

Lemma lookup_touch ct m k :
  Audit.touch ct m !! k = if decide (ct = k) then Some (Audit.cnt m k) else m !! k.
Proof.
  unfold Audit.touch, Audit.cnt. destruct (m !! ct) as [n|] eqn:Hct.
  - destruct (decide (ct = k)) as [<-|]; [rewrite Hct|]; reflexivity.
  - rewrite lookup_insert. destruct (decide (ct = k)) as [<-|]; [rewrite Hct|]; reflexivity.
Qed.

Lemma lookup_touch_all cts m k :
  Py.for_each cts Audit.touch m !! k
  = if decide (k ∈ cts) then Some (Audit.cnt m k) else m !! k.
Proof.
  revert m. induction cts as [|ct cts IH]; intros m.
  - rewrite for_each_nil. destruct (decide (k ∈ [])) as [H|]; [|reflexivity].
    apply elem_of_nil in H. contradiction.
  - rewrite for_each_cons, IH, cnt_touch, lookup_touch.
    destruct (decide (k ∈ cts)) as [Hin|Hnin].
    + destruct (decide (k ∈ ct :: cts)) as [|Hn]; [reflexivity|].
      exfalso. apply Hn. right. exact Hin.
    + destruct (decide (ct = k)) as [->|Hne].
      * destruct (decide (k ∈ k :: cts)) as [|Hn]; [reflexivity|]. exfalso. apply Hn. left.
      * destruct (decide (k ∈ ct :: cts)) as [Hin|]; [|reflexivity].
        apply elem_of_cons in Hin. destruct Hin; [congruence|contradiction].
Qed.

(** The report reads the counters as the walker left them. *)
Lemma report_code_type_presence {M} HEADERS cfg (st : Audit.Accumulators M) t :
  Audit.cnt (Audit.code_type_presence (snd (Audit.build_report HEADERS cfg st))) t
  = Audit.cnt (Audit.CODE_TYPE_PRESENCE st) t.
Proof. unfold Audit.build_report. simpl. apply cnt_touch_all. Qed.

Lemma report_field_presence {M} HEADERS cfg (st : Audit.Accumulators M) :
  Audit.field_presence_summary (snd (Audit.build_report HEADERS cfg st))
  = map (fun field => (field, Audit.cnt (Audit.FIELD_PRESENCE_LOG st) field)) HEADERS.
Proof. reflexivity. Qed.

Lemma build_report_field_presence_log {M} HEADERS cfg (st : Audit.Accumulators M) :
  Audit.FIELD_PRESENCE_LOG (fst (Audit.build_report HEADERS cfg st)) = Audit.FIELD_PRESENCE_LOG st.
Proof. reflexivity. Qed.

Lemma get_summary (f : string -> nat) (keys : list string) (h : string) :
  h ∈ keys -> Py.get (map (fun field => (field, f field)) keys) h = Some (f h).
Proof.
  induction keys as [|k keys IH]; intros Hin.
  - apply elem_of_nil in Hin. contradiction.
  - simpl. destruct (decide (h = k)) as [->|Hne]; [reflexivity|].
    apply IH. apply elem_of_cons in Hin. destruct Hin; [contradiction|assumption].
Qed.

Lemma summary_keys (f : string -> nat) (keys : list string) :
  map fst (map (fun field => (field, f field)) keys) = keys.
Proof. induction keys as [|k keys IH]; simpl; [|rewrite IH]; reflexivity. Qed.

(** ** Field presence, JSON *)

Section JsonFieldPresence.
Variable h : string.
Hypothesis h_header : h ∈ JsonParser.HEADERS.

Let M (s : JsonParser.State) : nat := Audit.cnt (Audit.FIELD_PRESENCE_LOG (fst s)) h.
Let p : JsonParser.Row -> bool := Rows.json_field_set h.

Lemma json_emit_fp row s : M (JsonParser.emit row s) = M s + length (List.filter p [row]).
Proof.
  unfold M, p, JsonParser.emit. cbn [fst Audit.with_field_presence Audit.FIELD_PRESENCE_LOG].
  rewrite (cnt_log_fields _ _ _ _ _ headers_json_nodup).
  destruct (decide (h ∈ JsonParser.HEADERS)); [|contradiction].
  unfold Rows.json_field_set. simpl.
  destruct (from_option Py.truthy false (Py.get row h)); reflexivity.
Qed.

Lemma json_charge_step_fp meta code t description drug_info ch s :
  M (JsonParser.charge_step meta code t description drug_info ch s)
  = M s + length (List.filter p (Rows.json_charge meta code t description drug_info ch)).
Proof.
  unfold JsonParser.charge_step, Rows.json_charge. rewrite <- flat_map_singleton.
  apply (for_each_count M p). intros payer s'. apply json_emit_fp.
Qed.

Lemma json_code_entry_step_fp cfg meta description charge_entries drug_info code_entry s :
  M (JsonParser.code_entry_step cfg meta description charge_entries drug_info code_entry s)
  = M s + length (List.filter p
                    (Rows.json_code_entry cfg meta description charge_entries drug_info code_entry)).
Proof.
  unfold JsonParser.code_entry_step, Rows.json_code_entry.
  fold (Rows.raw_code_type_of code_entry).
  rewrite <- (normalize_accepts cfg (Rows.raw_code_type_of code_entry) (fst s)).
  assert (Hfp := normalize_field_presence cfg (Rows.raw_code_type_of code_entry) (fst s)).
  destruct (Audit.normalize_code_type cfg (Rows.raw_code_type_of code_entry) (fst s))
    as [st [t|]]; cbn [fst snd] in *.
  - etrans.
    + apply (for_each_count M p
               (Rows.json_charge meta (Py.get_or code_entry "code" (Py.PStr EmptyString))
                  t description drug_info)).
      intros ch s'. apply json_charge_step_fp.
    + unfold M. cbn [fst]. rewrite Hfp. reflexivity.
  - unfold M. cbn [fst]. rewrite Hfp. simpl. lia.
Qed.

Lemma json_item_step_fp cfg meta it s :
  M (JsonParser.item_step cfg meta it s)
  = M s + length (List.filter p (Rows.json_item cfg meta it)).
Proof.
  unfold JsonParser.item_step, Rows.json_item. apply (for_each_count M p).
  intros ce s'. apply json_code_entry_step_fp.
Qed.

Lemma json_modifier_step_fp meta m s :
  M (JsonParser.modifier_step meta m s)
  = M s + length (List.filter p (Rows.json_modifier meta m)).
Proof.
  unfold JsonParser.modifier_step, Rows.json_modifier. rewrite <- flat_map_singleton.
  etrans.
  - apply (for_each_count M p (fun payer =>
             [JsonParser.modifier_row meta
                (Py.get_or (JsonParser.modifier m) "code" (Py.PStr EmptyString))
                (Py.get_or (JsonParser.modifier m) "description" (Py.PStr EmptyString)) payer])).
    intros payer s'. apply json_emit_fp.
  - reflexivity.
Qed.

Lemma json_walk_fp cfg meta root s :
  M (JsonParser.walk cfg meta root s)
  = M s + length (List.filter p (Rows.json_item_rows cfg meta root
                                 ++ Rows.json_modifier_rows meta root)).
Proof.
  unfold JsonParser.walk, Rows.json_item_rows, Rows.json_modifier_rows.
  rewrite List.filter_app, length_app.
  etrans; [apply (for_each_count M p (Rows.json_modifier meta)); intros;
           apply json_modifier_step_fp|].
  rewrite Nat.add_assoc. f_equal.
  apply (for_each_count M p (Rows.json_item cfg meta)). intros. apply json_item_step_fp.
Qed.

End JsonFieldPresence.

(** ** Field presence, tall CSV *)

Section TallFieldPresence.
Variable h : string.
Hypothesis h_header : h ∈ Tall.HEADERS.

Let M (s : Tall.State) : nat := Audit.cnt (Audit.FIELD_PRESENCE_LOG (fst s)) h.
Let p : Tall.Row -> bool := Rows.csv_field_set h.

Lemma tall_emit_fp r s : M (Tall.emit r s) = M s + length (List.filter p [r]).
Proof.
  unfold M, p, Tall.emit. cbn [fst Audit.with_field_presence Audit.FIELD_PRESENCE_LOG].
  rewrite (cnt_log_fields _ _ _ _ _ headers_tall_nodup).
  destruct (decide (h ∈ Tall.HEADERS)); [|contradiction].
  unfold Rows.csv_field_set. simpl.
  destruct (from_option Py.nonempty false (Py.get r h)); reflexivity.
Qed.

Lemma tall_slot_step_fp cfg meta row payer_name payer_id notes modifiers_raw i s :
  M (Tall.slot_step cfg meta row payer_name payer_id notes modifiers_raw i s)
  = M s + length (List.filter p
                    match Rows.accepted_slot cfg row i with
                    | Some (code, t) =>
                        [Tall.output_row meta row code t payer_name payer_id notes modifiers_raw]
                    | None => []
                    end).
Proof.
  unfold Tall.slot_step, Rows.accepted_slot.
  destruct (negb _ || negb _); [simpl; lia|].
  rewrite <- (normalize_accepts cfg _ (fst s)).
  assert (Hfp := normalize_field_presence cfg
            (Py.upper (Py.strip (Py.get_or row ("code|" +:+ pretty i +:+ "|type") EmptyString)))
            (fst s)).
  destruct (Audit.normalize_code_type cfg _ (fst s)) as [st [t|]]; cbn [fst snd option_map] in *.
  - rewrite tall_emit_fp. unfold M. cbn [fst]. rewrite Hfp. reflexivity.
  - unfold M. cbn [fst]. rewrite Hfp. simpl. lia.
Qed.

Lemma tall_row_step_fp cfg meta row s :
  M (Tall.row_step cfg meta row s) = M s + length (List.filter p (Rows.tall_row cfg meta row)).
Proof.
  unfold Tall.row_step, Rows.tall_row.
  destruct (Tall.payer_identity _) as [payer_name payer_id].
  etrans.
  - apply (for_each_count M p (fun i =>
             match Rows.accepted_slot cfg row i with
             | Some (code, t) =>
                 [Tall.output_row meta row code t payer_name payer_id
                    (Py.get_or row "additional_generic_notes" EmptyString)
                    (Py.strip (Py.get_or row "modifiers" EmptyString))]
             | None => []
             end)).
    intros i s'. apply tall_slot_step_fp.
  - reflexivity.
Qed.

Lemma tall_walk_fp cfg meta body s :
  M (Py.for_each body (Tall.row_step cfg meta) s)
  = M s + length (List.filter p (Rows.tall_rows cfg meta body)).
Proof.
  apply (for_each_count M p (Rows.tall_row cfg meta)). intros. apply tall_row_step_fp.
Qed.

End TallFieldPresence.

(** ** Field presence, wide CSV *)

Lemma get_absent {V} (d : Py.dict V) (k : string) : k ∉ map fst d -> Py.get d k = None.
Proof.
  induction d as [|[k' v] d IH]; intros Hk; [reflexivity|]. simpl.
  destruct (decide (k = k')) as [->|Hne].
  - exfalso. apply Hk. left.
  - apply IH. intros Hin. apply Hk. right. exact Hin.
Qed.

Lemma wide_record_keys meta row generic_notes modifiers_raw group :
  map fst (Wide.record_of meta row generic_notes modifiers_raw group)
  = [ "hospital name"; "zip code"; "code"; "code type"; "insurance payer name";
      "insurance plan name"; "negotiated price"; "negotiated percentage";
      "negotiated algorithm"; "negotiated methodology"; "estimated amount"; "drug unit";
      "drug type"; "description"; "gross charge"; "discounted cash price"; "min price";
      "max price"; "setting"; "additional notes"; "modifiers" ].
Proof. destruct group as [[[[code t] payer] plan] field_data]. reflexivity. Qed.

Lemma wide_record_keys_nodup meta row generic_notes modifiers_raw group :
  NoDup (map fst (Wide.record_of meta row generic_notes modifiers_raw group)).
Proof. rewrite wide_record_keys. apply (bool_decide_unpack _). vm_compute. exact I. Qed.

Section WideFieldPresence.
Variable h : string.

Let M (s : Wide.State) : nat := Audit.cnt (Audit.FIELD_PRESENCE_LOG (fst s)) h.
Let p : Wide.Row -> bool := Rows.csv_field_set h.

Lemma wide_emit_fp r s :
  NoDup (map fst r) -> M (Wide.emit r s) = M s + length (List.filter p [r]).
Proof.
  intros Hnd. unfold M, p, Wide.emit.
  cbn [fst Audit.with_field_presence Audit.FIELD_PRESENCE_LOG].
  rewrite (cnt_log_fields _ _ _ _ _ Hnd). unfold Rows.csv_field_set. simpl.
  destruct (decide (h ∈ map fst r)) as [Hin|Hnin].
  - destruct (from_option Py.nonempty false (Py.get r h)); reflexivity.
  - rewrite (get_absent _ _ Hnin). reflexivity.
Qed.

Lemma wide_collect_fp cfg payer_cols row (st : Wide.Acc) :
  Audit.FIELD_PRESENCE_LOG (fst (Wide.collect cfg payer_cols row st))
  = Audit.FIELD_PRESENCE_LOG st.
Proof.
  unfold Wide.collect.
  apply (for_each_keep (fun s : Wide.Acc * Wide.PayerRowMap => Audit.FIELD_PRESENCE_LOG (fst s))
           payer_cols (Wide.col_step cfg row) (st, [])).
  intros col s. unfold Wide.col_step.
  destruct (Wide.column_parts row col) as [[[[mapped_field payer_name] plan_name] value]|];
    [|reflexivity].
  apply (for_each_keep (fun s : Wide.Acc * Wide.PayerRowMap => Audit.FIELD_PRESENCE_LOG (fst s))).
  intros i s'. unfold Wide.slot_step.
  destruct (negb _ || negb _); [reflexivity|].
  assert (Hfp := normalize_field_presence cfg
            (Py.upper (Py.strip (Py.get_or row ("code|" +:+ pretty i +:+ "|type") EmptyString)))
            (fst s')).
  destruct (Audit.normalize_code_type cfg _ (fst s')) as [st' [t|]]; exact Hfp.
Qed.

Lemma wide_row_step_fp cfg meta payer_cols row s :
  M (Wide.row_step cfg meta payer_cols row s)
  = M s + length (List.filter p (Rows.wide_row cfg meta payer_cols row)).
Proof.
  unfold Wide.row_step, Rows.wide_row.
  rewrite wide_collect_groups, <- flat_map_singleton.
  etrans.
  - apply (for_each_count M p (fun group =>
             [Wide.record_of meta row
                (Py.strip (Py.get_or row "additional_generic_notes" EmptyString))
                (Py.strip (Py.get_or row "modifiers" EmptyString)) group])).
    intros group s'. apply wide_emit_fp, wide_record_keys_nodup.
  - unfold M. cbn [fst]. rewrite wide_collect_fp. reflexivity.
Qed.

Lemma wide_walk_fp cfg meta df s :
  M (Py.for_each (Wide.iterrows df) (Wide.row_step cfg meta (Wide.payer_cols (Wide.columns df))) s)
  = M s + length (List.filter p (Rows.wide_rows cfg meta df)).
Proof.
  apply (for_each_count M p (Rows.wide_row cfg meta (Wide.payer_cols (Wide.columns df)))).
  intros. apply wide_row_step_fp.
Qed.

End WideFieldPresence.

(** ** Code-type presence *)

Lemma accepted_as_with cfg t code_entry :
  Rows.accepted_as cfg t (Rows.raw_code_type_of code_entry)
  = length (List.filter (Rows.accepted_with cfg t) [code_entry]).
Proof.
  unfold Rows.accepted_as, Rows.accepted_with. simpl.
  destruct (Audit.accepts cfg (Rows.raw_code_type_of code_entry)) as [t'|].
  - destruct (decide (t' = t)) as [->|Hne].
    + rewrite bool_decide_eq_true_2; reflexivity.
    + rewrite bool_decide_eq_false_2; [reflexivity|]. intros H. injection H as H. contradiction.
  - rewrite bool_decide_eq_false_2; [reflexivity|discriminate].
Qed.

Lemma flat_map_self {A} (l : list A) : flat_map (fun a => [a]) l = l.
Proof. induction l as [|a l IH]; simpl; [|rewrite IH]; reflexivity. Qed.

Section JsonPresence.
Variable t : string.

Let M (s : JsonParser.State) : nat := Audit.cnt (Audit.CODE_TYPE_PRESENCE (fst s)) t.

Lemma json_emit_presence row s : M (JsonParser.emit row s) = M s.
Proof. reflexivity. Qed.

Lemma json_charge_step_presence meta code t' description drug_info ch s :
  M (JsonParser.charge_step meta code t' description drug_info ch s) = M s.
Proof.
  unfold JsonParser.charge_step. apply (for_each_keep M). intros payer s'. reflexivity.
Qed.

Lemma json_code_entry_step_presence cfg meta description charge_entries drug_info code_entry s :
  M (JsonParser.code_entry_step cfg meta description charge_entries drug_info code_entry s)
  = M s + length (List.filter (Rows.accepted_with cfg t) [code_entry]).
Proof.
  rewrite <- accepted_as_with. unfold JsonParser.code_entry_step.
  fold (Rows.raw_code_type_of code_entry).
  assert (Hp := normalize_presence cfg (Rows.raw_code_type_of code_entry) (fst s) t).
  destruct (Audit.normalize_code_type cfg (Rows.raw_code_type_of code_entry) (fst s))
    as [st [t'|]]; cbn [fst snd] in *.
  - etrans; [|exact Hp]. apply (for_each_keep M). intros ch s'.
    apply json_charge_step_presence.
  - exact Hp.
Qed.

Lemma json_item_step_presence cfg meta it s :
  M (JsonParser.item_step cfg meta it s)
  = M s + length (List.filter (Rows.accepted_with cfg t) (JsonParser.code_information it)).
Proof.
  unfold JsonParser.item_step. etrans.
  - apply (for_each_count M (Rows.accepted_with cfg t) (fun ce => [ce])).
    intros ce s'. apply json_code_entry_step_presence.
  - rewrite flat_map_self. reflexivity.
Qed.

Lemma json_modifier_step_presence meta m s : M (JsonParser.modifier_step meta m s) = M s.
Proof.
  unfold JsonParser.modifier_step. etrans.
  - apply (for_each_keep M). intros payer s'. reflexivity.
  - reflexivity.
Qed.

Lemma json_walk_presence cfg meta root s :
  M (JsonParser.walk cfg meta root s)
  = M s + length (List.filter (Rows.accepted_with cfg t) (Rows.json_code_entries root)).
Proof.
  unfold JsonParser.walk, Rows.json_code_entries. etrans.
  - apply (for_each_keep M). intros m s'. apply json_modifier_step_presence.
  - apply (for_each_count M (Rows.accepted_with cfg t) JsonParser.code_information).
    intros it s'. apply json_item_step_presence.
Qed.

End JsonPresence.

Lemma tall_output_row_type meta row code t payer_name payer_id notes modifiers_raw :
  Py.get (Tall.output_row meta row code t payer_name payer_id notes modifiers_raw) "code type"
  = Some t.
Proof. reflexivity. Qed.

Section TallPresence.
Variable t : string.

Let M (s : Tall.State) : nat := Audit.cnt (Audit.CODE_TYPE_PRESENCE (fst s)) t.
Let p : Tall.Row -> bool := Rows.csv_has_type t.

Lemma tall_slot_step_presence cfg meta row payer_name payer_id notes modifiers_raw i s :
  M (Tall.slot_step cfg meta row payer_name payer_id notes modifiers_raw i s)
  = M s + length (List.filter p
                    match Rows.accepted_slot cfg row i with
                    | Some (code, t') =>
                        [Tall.output_row meta row code t' payer_name payer_id notes modifiers_raw]
                    | None => []
                    end).
Proof.
  unfold Tall.slot_step, Rows.accepted_slot.
  destruct (negb _ || negb _); [simpl; lia|].
  rewrite <- (normalize_accepts cfg _ (fst s)).
  assert (Hp := normalize_presence cfg
            (Py.upper (Py.strip (Py.get_or row ("code|" +:+ pretty i +:+ "|type") EmptyString)))
            (fst s) t).
  unfold Rows.accepted_as in Hp. rewrite <- (normalize_accepts cfg _ (fst s)) in Hp.
  destruct (Audit.normalize_code_type cfg _ (fst s)) as [st [t'|]]; cbn [fst snd option_map] in *.
  - etrans; [|etrans; [exact Hp|]]; [reflexivity|]. f_equal.
    unfold p, Rows.csv_has_type. cbn [List.filter]. rewrite tall_output_row_type.
    destruct (decide (t' = t)) as [->|Hne].
    + rewrite bool_decide_eq_true_2; reflexivity.
    + rewrite bool_decide_eq_false_2; [reflexivity|assumption].
  - etrans; [exact Hp|]. reflexivity.
Qed.

Lemma tall_row_step_presence cfg meta row s :
  M (Tall.row_step cfg meta row s) = M s + length (List.filter p (Rows.tall_row cfg meta row)).
Proof.
  unfold Tall.row_step, Rows.tall_row.
  destruct (Tall.payer_identity _) as [payer_name payer_id].
  etrans.
  - apply (for_each_count M p (fun i =>
             match Rows.accepted_slot cfg row i with
             | Some (code, t') =>
                 [Tall.output_row meta row code t' payer_name payer_id
                    (Py.get_or row "additional_generic_notes" EmptyString)
                    (Py.strip (Py.get_or row "modifiers" EmptyString))]
             | None => []
             end)).
    intros i s'. apply tall_slot_step_presence.
  - reflexivity.
Qed.

Lemma tall_walk_presence cfg meta body s :
  M (Py.for_each body (Tall.row_step cfg meta) s)
  = M s + length (List.filter p (Rows.tall_rows cfg meta body)).
Proof.
  apply (for_each_count M p (Rows.tall_row cfg meta)). intros. apply tall_row_step_presence.
Qed.

End TallPresence.

Section WidePresence.
Variable t : string.

Let M (s : Wide.Acc * Wide.PayerRowMap) : nat := Audit.cnt (Audit.CODE_TYPE_PRESENCE (fst s)) t.
Let p : Rows.Contribution -> bool := Rows.files_type t.

Lemma wide_slot_step_presence cfg row mapped_field payer_name plan_name value i s :
  M (Wide.slot_step cfg row mapped_field payer_name plan_name value i s)
  = M s + length (List.filter p
                    match Rows.accepted_slot cfg row i with
                    | Some (code, t') => [((code, t', payer_name, plan_name), mapped_field, value)]
                    | None => []
                    end).
Proof.
  unfold Wide.slot_step, Rows.accepted_slot.
  destruct (negb _ || negb _); [simpl; lia|].
  rewrite <- (normalize_accepts cfg _ (fst s)).
  assert (Hp := normalize_presence cfg
            (Py.upper (Py.strip (Py.get_or row ("code|" +:+ pretty i +:+ "|type") EmptyString)))
            (fst s) t).
  unfold Rows.accepted_as in Hp. rewrite <- (normalize_accepts cfg _ (fst s)) in Hp.
  destruct (Audit.normalize_code_type cfg _ (fst s)) as [st [t'|]]; cbn [fst snd option_map] in *.
  - etrans; [exact Hp|]. f_equal.
    unfold p, Rows.files_type. cbn [List.filter fst Rows.key_type].
    destruct (decide (t' = t)) as [->|Hne].
    + rewrite bool_decide_eq_true_2; reflexivity.
    + rewrite bool_decide_eq_false_2; [reflexivity|assumption].
  - etrans; [exact Hp|]. reflexivity.
Qed.

Lemma wide_col_step_presence cfg row col s :
  M (Wide.col_step cfg row col s)
  = M s + length (List.filter p (Rows.column_contributions cfg row col)).
Proof.
  unfold Wide.col_step, Rows.column_contributions.
  destruct (Wide.column_parts row col) as [[[[mapped_field payer_name] plan_name] value]|];
    [|simpl; lia].
  apply (for_each_count M p (fun i =>
           match Rows.accepted_slot cfg row i with
           | Some (code, t') => [((code, t', payer_name, plan_name), mapped_field, value)]
           | None => []
           end)).
  intros i s'. apply wide_slot_step_presence.
Qed.

Lemma wide_collect_presence cfg payer_cols row (st : Wide.Acc) :
  Audit.cnt (Audit.CODE_TYPE_PRESENCE (fst (Wide.collect cfg payer_cols row st))) t
  = Audit.cnt (Audit.CODE_TYPE_PRESENCE st) t
    + length (List.filter p (Rows.contributions cfg payer_cols row)).
Proof.
  unfold Wide.collect, Rows.contributions.
  apply (for_each_count M p (Rows.column_contributions cfg row) payer_cols _ (st, [])).
  intros col s. apply wide_col_step_presence.
Qed.

Lemma wide_row_step_presence cfg meta payer_cols row (s : Wide.State) :
  Audit.cnt (Audit.CODE_TYPE_PRESENCE (fst (Wide.row_step cfg meta payer_cols row s))) t
  = Audit.cnt (Audit.CODE_TYPE_PRESENCE (fst s)) t
    + length (List.filter p (Rows.contributions cfg payer_cols row)).
Proof.
  unfold Wide.row_step. etrans.
  - apply (for_each_keep (fun s' : Wide.State => Audit.cnt (Audit.CODE_TYPE_PRESENCE (fst s')) t)).
    intros group s'. reflexivity.
  - cbn [fst]. rewrite wide_collect_presence. reflexivity.
Qed.

Lemma wide_walk_presence cfg meta df (s : Wide.State) :
  Audit.cnt (Audit.CODE_TYPE_PRESENCE
               (fst (Py.for_each (Wide.iterrows df)
                       (Wide.row_step cfg meta (Wide.payer_cols (Wide.columns df))) s))) t
  = Audit.cnt (Audit.CODE_TYPE_PRESENCE (fst s)) t
    + length (List.filter p
                (flat_map (Rows.contributions cfg (Wide.payer_cols (Wide.columns df)))
                          (Wide.iterrows df))).
Proof.
  apply (for_each_count
           (fun s' : Wide.State => Audit.cnt (Audit.CODE_TYPE_PRESENCE (fst s')) t) p
           (Rows.contributions cfg (Wide.payer_cols (Wide.columns df)))).
  intros row s'. apply wide_row_step_presence.
Qed.

End WidePresence.

(* ===================================================================== *)
(** * Insertion-ordered dictionaries and the groups of a wide row *)
(* ===================================================================== *)

Section Dict.
Context {K V : Type} `{EqDecision K}.
Implicit Types (d : list (K * V)) (k : K) (v : V).

Lemma get_set k v d k' :
  Py.get (Py.set k v d) k' = if decide (k' = k) then Some v else Py.get d k'.
Proof.
  induction d as [|[k0 v0] d IH]; simpl.
  - destruct (decide (k' = k)); reflexivity.
  - destruct (decide (k = k0)) as [->|Hne]; simpl.
    + destruct (decide (k' = k0)); reflexivity.
    + destruct (decide (k' = k0)) as [->|Hne'].
      * destruct (decide (k0 = k)); [congruence|reflexivity].
      * exact IH.
Qed.

Lemma set_keys k v d :
  map fst (Py.set k v d) = if decide (k ∈ map fst d) then map fst d else map fst d ++ [k].
Proof.
  induction d as [|[k0 v0] d IH]; simpl.
  - destruct (decide (k ∈ [])) as [Hin|]; [|reflexivity].
    apply elem_of_nil in Hin. contradiction.
  - destruct (decide (k = k0)) as [->|Hne]; simpl.
    + destruct (decide (k0 ∈ k0 :: map fst d)) as [|Hn]; [reflexivity|].
      exfalso. apply Hn. left.
    + rewrite IH. destruct (decide (k ∈ map fst d)) as [Hin|Hnin].
      * destruct (decide (k ∈ k0 :: map fst d)) as [|Hn]; [reflexivity|].
        exfalso. apply Hn. right. exact Hin.
      * destruct (decide (k ∈ k0 :: map fst d)) as [Hin'|]; [|reflexivity].
        exfalso. apply elem_of_cons in Hin'. destruct Hin'; [congruence|contradiction].
Qed.

Lemma set_keys_nodup k v d : NoDup (map fst d) -> NoDup (map fst (Py.set k v d)).
Proof.
  intros Hnd. rewrite set_keys. destruct (decide (k ∈ map fst d)) as [|Hnin]; [exact Hnd|].
  apply NoDup_app. split; [exact Hnd|]. split.
  - intros x Hx Hx'. apply list_elem_of_singleton in Hx'. subst x. contradiction.
  - apply NoDup_singleton.
Qed.

Lemma elem_of_set_keys k v d k' :
  k' ∈ map fst (Py.set k v d) <-> k' = k \/ k' ∈ map fst d.
Proof.
  rewrite set_keys. destruct (decide (k ∈ map fst d)) as [Hin|Hnin].
  - split; [intros H0; right; exact H0|]. intros [->|H0]; assumption.
  - rewrite elem_of_app, list_elem_of_singleton. tauto.
Qed.

Lemma get_elem_of k v d : NoDup (map fst d) -> (k, v) ∈ d -> Py.get d k = Some v.
Proof.
  induction d as [|[k0 v0] d IH]; intros Hnd Hin.
  - apply elem_of_nil in Hin. contradiction.
  - simpl in Hnd. apply NoDup_cons in Hnd. destruct Hnd as [Hk0 Hnd].
    apply elem_of_cons in Hin. simpl. destruct Hin as [Heq|Hin].
    + injection Heq as -> ->. destruct (decide (k0 = k0)); [reflexivity|contradiction].
    + destruct (decide (k = k0)) as [->|Hne].
      * exfalso. apply Hk0. apply (list_elem_of_fmap_2 fst) in Hin. exact Hin.
      * apply IH; assumption.
Qed.

End Dict.

Lemma file_keys_nodup c m : NoDup (map fst m) -> NoDup (map fst (Rows.file c m)).
Proof. destruct c as [[k f] v]. apply set_keys_nodup. Qed.

Lemma groups_keys_nodup cs : NoDup (map fst (Py.for_each cs Rows.file [])).
Proof.
  apply (for_each_inv (fun m : Wide.PayerRowMap => NoDup (map fst m))).
  - apply NoDup_nil_2.
  - intros c m _. apply file_keys_nodup.
Qed.

Lemma groups_keys cs k :
  k ∈ map fst (Py.for_each cs Rows.file []) <-> exists f v, (k, f, v) ∈ cs.
Proof.
  induction cs as [|[[k0 f0] v0] cs IH] using rev_ind.
  - split.
    + intros Hin. apply elem_of_nil in Hin. contradiction.
    + intros (f & v & Hin). apply elem_of_nil in Hin. contradiction.
  - rewrite for_each_app. change (Py.for_each [(k0, f0, v0)] Rows.file ?m)
      with (Wide.file_value k0 f0 v0 m).
    unfold Wide.file_value. rewrite elem_of_set_keys, IH. split.
    + intros [->|(f & v & Hin)].
      * exists f0, v0. apply elem_of_app. right. left.
      * exists f, v. apply elem_of_app. left. exact Hin.
    + intros (f & v & Hin). apply elem_of_app in Hin. destruct Hin as [Hin|Hin].
      * right. exists f, v. exact Hin.
      * apply list_elem_of_singleton in Hin. injection Hin as -> _ _. left. reflexivity.
Qed.

Lemma last_value_snoc cs k0 f0 v0 k f :
  Rows.last_value (cs ++ [(k0, f0, v0)]) k f
  = if decide (k0 = k) then if decide (f0 = f) then Some v0 else Rows.last_value cs k f
    else Rows.last_value cs k f.
Proof. unfold Rows.last_value. rewrite for_each_app. reflexivity. Qed.

(** The field filed last under a key is the one the group holds. *)
Lemma groups_fields cs k f :
  from_option (fun fd => Py.get fd f) None (Py.get (Py.for_each cs Rows.file []) k)
  = Rows.last_value cs k f.
Proof.
  induction cs as [|[[k0 f0] v0] cs IH] using rev_ind; [reflexivity|].
  rewrite for_each_app, last_value_snoc.
  change (Py.for_each [(k0, f0, v0)] Rows.file ?m) with (Wide.file_value k0 f0 v0 m).
  unfold Wide.file_value. rewrite get_set.
  destruct (decide (k = k0)) as [->|Hne].
  - destruct (decide (k0 = k0)); [|contradiction]. simpl. rewrite get_set.
    destruct (decide (f = f0)) as [->|Hnf].
    + destruct (decide (f0 = f0)); [reflexivity|contradiction].
    + destruct (decide (f0 = f)); [congruence|]. rewrite <- IH. unfold Py.get_or.
      destruct (Py.get (Py.for_each cs Rows.file []) k0); reflexivity.
  - destruct (decide (k0 = k)); [congruence|]. exact IH.
Qed.

(** A group is counted at most once, however many filings made it. *)
Lemma groups_count (P : Wide.Key -> bool) cs m :
  length (List.filter P (map fst (Py.for_each cs Rows.file m)))
  <= length (List.filter P (map fst m))
     + length (List.filter (fun c : Rows.Contribution => P (fst (fst c))) cs).
Proof.
  revert m. induction cs as [|[[k f] v] cs IH]; intros m.
  - rewrite for_each_nil. simpl. lia.
  - rewrite for_each_cons. etrans; [apply IH|].
    cbn [Rows.file]. unfold Wide.file_value. rewrite set_keys.
    cbn [List.filter fst].
    destruct (decide (k ∈ map fst m)).
    + destruct (P k); simpl; lia.
    + rewrite List.filter_app, length_app. simpl. destruct (P k); simpl; lia.
Qed.

Lemma wide_record_key meta row generic_notes modifiers_raw group :
  Wide.key_of (Wide.record_of meta row generic_notes modifiers_raw group) = fst group.
Proof. destruct group as [[[[code t] payer] plan] field_data]. reflexivity. Qed.

Lemma wide_row_keys cfg meta payer_cols row :
  map Wide.key_of (Rows.wide_row cfg meta payer_cols row)
  = map fst (Rows.groups cfg payer_cols row).
Proof.
  unfold Rows.wide_row. rewrite map_map. apply map_ext. intros group.
  apply wide_record_key.
Qed.

Lemma wide_record_type t meta row generic_notes modifiers_raw group :
  Rows.csv_has_type t (Wide.record_of meta row generic_notes modifiers_raw group)
  = bool_decide (Rows.key_type (fst group) = t).
Proof. destruct group as [[[[code t'] payer] plan] field_data]. reflexivity. Qed.

Lemma filter_map_comm {A B} (p : B -> bool) (f : A -> B) (l : list A) :
  List.filter p (map f l) = map f (List.filter (fun a => p (f a)) l).
Proof.
  induction l as [|a l IH]; simpl; [reflexivity|].
  destruct (p (f a)); simpl; rewrite IH; reflexivity.
Qed.

(** The rows of a wide row that carry type [t] are at most the filings
    made under type [t]. *)
Lemma wide_row_count cfg meta payer_cols row t :
  length (List.filter (Rows.csv_has_type t) (Rows.wide_row cfg meta payer_cols row))
  <= length (List.filter (Rows.files_type t) (Rows.contributions cfg payer_cols row)).
Proof.
  unfold Rows.wide_row. rewrite filter_map_comm, length_map.
  rewrite (List.filter_ext _ (fun g => bool_decide (Rows.key_type (fst g) = t)))
    by (intros g; apply wide_record_type).
  assert (forall m : Wide.PayerRowMap,
             length (List.filter (fun g => bool_decide (Rows.key_type (fst g) = t)) m)
             = length (List.filter (fun k => bool_decide (Rows.key_type k = t)) (map fst m)))
    as ->.
  { intros m. rewrite filter_map_comm, length_map. reflexivity. }
  etrans; [apply groups_count|]. simpl. reflexivity.
Qed.

(* ===================================================================== *)
(** * Where a written row comes from *)
(* ===================================================================== *)

Lemma Forall_flat_map_intro {A B} (P : B -> Prop) (f : A -> list B) (l : list A) :
  (forall a, Forall P (f a)) -> Forall P (flat_map f l).
Proof.
  intros Hf. induction l as [|a l IH]; simpl; [constructor|].
  apply Forall_app. split; [apply Hf | exact IH].
Qed.

Lemma Forall_map_intro {A B} (P : B -> Prop) (f : A -> B) (l : list A) :
  (forall a, P (f a)) -> Forall P (map f l).
Proof. intros Hf. induction l as [|a l IH]; simpl; constructor; auto. Qed.

(** Every row of the line items is the row of one payer entry, under a
    code entry the allow-list check accepted. *)
Lemma json_item_row_origin cfg meta root r :
  In r (Rows.json_item_rows cfg meta root) ->
  exists it ce ch payer t,
    In it (JsonParser.items_of (JsonParser.standard_charge_information root))
    /\ In ce (JsonParser.code_information it)
    /\ Audit.accepts cfg (Rows.raw_code_type_of ce) = Some t
    /\ In ch (JsonParser.standard_charges it)
    /\ In payer (JsonParser.payers_information ch)
    /\ r = JsonParser.payer_row meta (Py.get_or ce "code" (Py.PStr EmptyString)) t
             (Py.get_or (JsonParser.item it) "description" (Py.PStr EmptyString))
             (JsonParser.drug_information it) (JsonParser.charge ch) payer.
Proof.
  unfold Rows.json_item_rows. intros Hr.
  apply in_flat_map in Hr. destruct Hr as (it & Hit & Hr).
  unfold Rows.json_item in Hr. apply in_flat_map in Hr. destruct Hr as (ce & Hce & Hr).
  unfold Rows.json_code_entry in Hr.
  destruct (Audit.accepts cfg (Rows.raw_code_type_of ce)) as [t|] eqn:Ht; [|destruct Hr].
  apply in_flat_map in Hr. destruct Hr as (ch & Hch & Hr).
  unfold Rows.json_charge in Hr. apply in_map_iff in Hr. destruct Hr as (payer & <- & Hpayer).
  exists it, ce, ch, payer, t. auto 10.
Qed.

Lemma tall_row_types cfg meta row :
  Forall (fun r => exists t, Tall.code_type_of r = Some t /\ t ∈ allowed_code_types cfg)
         (Rows.tall_row cfg meta row).
Proof.
  unfold Rows.tall_row. destruct (Tall.payer_identity _) as [payer_name payer_id].
  apply Forall_flat_map_intro. intros i.
  destruct (Rows.accepted_slot cfg row i) as [[code t]|] eqn:Hslot; [|constructor].
  constructor; [|constructor]. exists t. split; [reflexivity|].
  unfold Rows.accepted_slot in Hslot.
  destruct (negb _ || negb _); [discriminate|].
  destruct (Audit.accepts cfg _) as [t'|] eqn:Ht; [|discriminate].
  injection Hslot as _ <-. exact (accepts_allowed _ _ _ Ht).
Qed.

Lemma accepted_slot_allowed cfg row i code t :
  Rows.accepted_slot cfg row i = Some (code, t) -> t ∈ allowed_code_types cfg.
Proof.
  unfold Rows.accepted_slot. destruct (negb _ || negb _); [discriminate|].
  destruct (Audit.accepts cfg _) as [t'|] eqn:Ht; [|discriminate].
  intros Hslot. injection Hslot as _ <-. exact (accepts_allowed _ _ _ Ht).
Qed.

Lemma contributions_allowed cfg payer_cols row k f v :
  In (k, f, v) (Rows.contributions cfg payer_cols row) ->
  Rows.key_type k ∈ allowed_code_types cfg.
Proof.
  unfold Rows.contributions. intros Hin. apply in_flat_map in Hin.
  destruct Hin as (col & _ & Hin). unfold Rows.column_contributions in Hin.
  destruct (Wide.column_parts row col) as [[[[mapped_field payer_name] plan_name] value]|];
    [|destruct Hin].
  apply in_flat_map in Hin. destruct Hin as (i & _ & Hin).
  destruct (Rows.accepted_slot cfg row i) as [[code t]|] eqn:Hslot; [|destruct Hin].
  destruct Hin as [Heq|[]]. injection Heq as <- _ _.
  exact (accepted_slot_allowed _ _ _ _ _ Hslot).
Qed.

Lemma wide_record_code_type meta row generic_notes modifiers_raw group :
  Wide.code_type_of (Wide.record_of meta row generic_notes modifiers_raw group)
  = Some (Rows.key_type (fst group)).
Proof. destruct group as [[[[code t] payer] plan] field_data]. reflexivity. Qed.

Lemma wide_row_types cfg meta payer_cols row :
  Forall (fun r => exists t, Wide.code_type_of r = Some t /\ t ∈ allowed_code_types cfg)
         (Rows.wide_row cfg meta payer_cols row).
Proof.
  unfold Rows.wide_row. apply List.Forall_forall. intros r Hr.
  apply in_map_iff in Hr. destruct Hr as ([k fd] & <- & Hin).
  exists (Rows.key_type k). split; [apply wide_record_code_type|].
  assert (k ∈ map fst (Rows.groups cfg payer_cols row)) as Hk.
  { apply list_elem_of_In. apply in_map_iff. exists (k, fd). split; [reflexivity|exact Hin]. }
  apply groups_keys in Hk. destruct Hk as (f & v & Hc).
  apply list_elem_of_In in Hc. exact (contributions_allowed _ _ _ _ _ _ Hc).
Qed.

(* ===================================================================== *)
(** * C1: the allow-list *)
(* ===================================================================== *)

(** C1, as stated, fails: with only CPT allowed, the JSON walker writes
    the row of a modifier's payer entry, and its code type is the literal
    MODIFIER, which the allow-list does not contain. *)
Lemma json_modifier_row_bypasses_allow_list :
  ~ (forall cfg meta root,
        Forall (fun row => exists t, JsonParser.code_type_of row = Some (Py.PStr t)
                                     /\ t ∈ allowed_code_types cfg)
               (fst (JsonParser.run cfg meta root))).
Proof.
  intros H. specialize (H cpt_only general_hospital modifier_only_root).
  rewrite json_run_rows in H. apply Forall_inv in H. destruct H as (t & Ht & Hin).
  vm_compute in Ht. injection Ht as <-.
  cbn [allowed_code_types cpt_only] in Hin. apply elem_of_singleton in Hin. discriminate.
Qed.

(** C1, amended: every row of the tall and of the wide walker, and every
    row the JSON walker writes for a payer entry of a line item, carries
    a code type of the allowed set; the JSON walker's modifier rows come
    after them and carry the literal MODIFIER, whatever the set. *)
Theorem emitted_code_types cfg meta :
  (forall head body,
      Forall (fun r => exists t, Tall.code_type_of r = Some t /\ t ∈ allowed_code_types cfg)
             (fst (Tall.run cfg meta head body)))
  /\ (forall head df,
         Forall (fun r => exists t, Wide.code_type_of r = Some t /\ t ∈ allowed_code_types cfg)
                (fst (Wide.run cfg meta head df)))
  /\ (forall root,
         fst (JsonParser.run cfg meta root)
         = Rows.json_item_rows cfg meta root ++ Rows.json_modifier_rows meta root
         /\ Forall (fun r => exists t, JsonParser.code_type_of r = Some (Py.PStr t)
                                       /\ t ∈ allowed_code_types cfg)
                   (Rows.json_item_rows cfg meta root)
         /\ Forall (fun r => JsonParser.code_type_of r = Some (Py.PStr "MODIFIER"))
                   (Rows.json_modifier_rows meta root)).
Proof.
  split; [|split].
  - intros head body. rewrite tall_run_rows. unfold Rows.tall_rows.
    apply Forall_flat_map_intro. intros row. apply tall_row_types.
  - intros head df. rewrite wide_run_rows. unfold Rows.wide_rows.
    apply Forall_flat_map_intro. intros row. apply wide_row_types.
  - intros root. split; [apply json_run_rows|]. split.
    + apply List.Forall_forall. intros r Hr.
      apply json_item_row_origin in Hr.
      destruct Hr as (it & ce & ch & payer & t & _ & _ & Ht & _ & _ & ->).
      exists t. split; [reflexivity|]. exact (accepts_allowed _ _ _ Ht).
    + unfold Rows.json_modifier_rows. apply Forall_flat_map_intro. intros m.
      unfold Rows.json_modifier. apply Forall_map_intro. intros payer. reflexivity.
Qed.

(* ===================================================================== *)
(** * C2: one payer, two pivoted columns, one code slot *)
(* ===================================================================== *)

(** C2, as stated, fails: with the column names of the claim (field key
    in second place of four segments) no column is selected as a payer
    column, and the row yields no record at all. *)
Lemma spec_named_columns_yield_no_record :
  ~ exists r,
      fst (Wide.run cpt_only general_hospital wide_head
             (one_slot_table "standard_charge|negotiated_dollar|PayerA|PlanA"
                             "standard_charge|methodology|PayerA|PlanA" "99213" "CPT"))
      = [r].
Proof. intros [r Hr]. vm_compute in Hr. discriminate. Qed.

Lemma file_same_key k f1 v1 f2 v2 :
  f1 <> f2 ->
  Py.for_each [(k, f1, v1); (k, f2, v2)] Rows.file [] = [(k, [(f1, v1); (f2, v2)])].
Proof.
  intros Hne. cbn [Py.for_each fold_left Rows.file]. unfold Wide.file_value, Py.get_or.
  cbn [Py.get Py.set from_option id].
  destruct (decide (k = k)); [|contradiction]. cbn [Py.get Py.set from_option id].
  destruct (decide (f2 = f1)); [congruence|]. reflexivity.
Qed.

Section OneSlot.
Variables (cfg : ExtractConfig) (meta : HospitalMetadata) (head : Wide.MrfMetadata).
Variables (code code_type t : string).
Hypothesis code_filled : Py.nonempty (Py.strip code) = true.
Hypothesis type_filled : Py.nonempty (Py.upper (Py.strip code_type)) = true.
Hypothesis type_accepted : Audit.accepts cfg (Py.upper (Py.strip code_type)) = Some t.

Ltac one_slot :=
  rewrite wide_run_rows; unfold Rows.wide_rows;
  cbn [Wide.columns Wide.iterrows one_slot_table flat_map];
  match goal with
  | |- context [Wide.payer_cols ?cols] =>
      let sel := eval vm_compute in (Wide.payer_cols cols) in
      change (Wide.payer_cols cols) with sel
  end;
  rewrite app_nil_r; unfold Rows.wide_row, Rows.groups, Rows.contributions;
  cbn [flat_map]; unfold Rows.column_contributions;
  repeat match goal with
  | |- context [Wide.column_parts ?row ?col] =>
      let parts := eval vm_compute in (Wide.column_parts row col) in
      change (Wide.column_parts row col) with parts
  end;
  cbn [flat_map];
  repeat match goal with
  | |- context [Rows.accepted_slot cfg ?row (S (S ?i))] =>
      change (Rows.accepted_slot cfg row (S (S i))) with (@None (string * string))
  end;
  match goal with
  | |- context [Rows.accepted_slot cfg ?row 1] =>
      assert (Rows.accepted_slot cfg row 1 = Some (Py.strip code, t)) as ->
        by (unfold Rows.accepted_slot;
            change (Py.get_or row ("code|" +:+ pretty 1) EmptyString) with code;
            change (Py.get_or row ("code|" +:+ pretty 1 +:+ "|type") EmptyString) with code_type;
            rewrite code_filled, type_filled, type_accepted; reflexivity)
  end;
  cbn [app]; rewrite file_same_key by discriminate;
  eexists; split; [reflexivity|]; repeat split.

Lemma one_slot_field_last :
  exists r,
    fst (Wide.run cfg meta head
           (one_slot_table "standard_charge|PayerA|PlanA|negotiated_dollar"
                           "standard_charge|PayerA|PlanA|methodology" code code_type))
    = [r]
    /\ one_payer_record (Py.strip code) t r.
Proof. one_slot. Qed.

Lemma one_slot_field_first :
  exists r,
    fst (Wide.run cfg meta head
           (one_slot_table "negotiated_dollar|PayerA|PlanA"
                           "methodology|PayerA|PlanA" code code_type))
    = [r]
    /\ one_payer_record (Py.strip code) t r.
Proof. one_slot. Qed.

End OneSlot.

(** C2, amended: with the field key in last place of the column name
    ([standard_charge|PayerA|PlanA|negotiated_dollar]) or in first place
    of three segments ([negotiated_dollar|PayerA|PlanA]), a body row
    holding 100 in the negotiated-dollar column and "case rate" in the
    methodology column of PayerA/PlanA, and one filled code slot whose
    type the allow-list check accepts as [t], yields exactly one record: the trimmed
    code with type [t], payer PayerA, plan PlanA, negotiated price 100
    and negotiated methodology "case rate". *)
Theorem wide_one_slot_one_record (cfg : ExtractConfig) (meta : HospitalMetadata)
    (head : Wide.MrfMetadata) (code code_type t : string)
    (code_filled : Py.nonempty (Py.strip code) = true)
    (type_filled : Py.nonempty (Py.upper (Py.strip code_type)) = true)
    (type_accepted : Audit.accepts cfg (Py.upper (Py.strip code_type)) = Some t) :
  (exists r,
      fst (Wide.run cfg meta head
             (one_slot_table "standard_charge|PayerA|PlanA|negotiated_dollar"
                             "standard_charge|PayerA|PlanA|methodology" code code_type))
      = [r]
      /\ one_payer_record (Py.strip code) t r)
  /\ (exists r,
         fst (Wide.run cfg meta head
                (one_slot_table "negotiated_dollar|PayerA|PlanA"
                                "methodology|PayerA|PlanA" code code_type))
         = [r]
         /\ one_payer_record (Py.strip code) t r).
Proof.
  split.
  - apply one_slot_field_last; assumption.
  - apply one_slot_field_first; assumption.
Qed.

Lemma wide_one_slot_one_record_witness :
  Py.nonempty (Py.strip " 99213 ") = true
  /\ Py.nonempty (Py.upper (Py.strip "cpt")) = true
  /\ Audit.accepts cpt_only (Py.upper (Py.strip "cpt")) = Some "CPT"
  /\ (exists r,
         fst (Wide.run cpt_only general_hospital wide_head
                (one_slot_table "standard_charge|PayerA|PlanA|negotiated_dollar"
                                "standard_charge|PayerA|PlanA|methodology" " 99213 " "cpt"))
         = [r]
         /\ one_payer_record "99213" "CPT" r)
  /\ (exists r,
         fst (Wide.run cpt_only general_hospital wide_head
                (one_slot_table "negotiated_dollar|PayerA|PlanA"
                                "methodology|PayerA|PlanA" " 99213 " "cpt"))
         = [r]
         /\ one_payer_record "99213" "CPT" r).
Proof.
  split; [reflexivity|]. split; [reflexivity|]. split; [vm_compute; reflexivity|].
  exact (wide_one_slot_one_record cpt_only general_hospital wide_head " 99213 " "cpt" "CPT"
           eq_refl eq_refl eq_refl).
Defined.

(* ===================================================================== *)
(** * The counters of a whole call *)
(* ===================================================================== *)

Lemma json_call_presence cfg meta root st t :
  Audit.cnt (Audit.code_type_presence
               (JsonParser.report (snd (JsonParser.parse_json cfg meta root st)))) t
  = Audit.cnt (Audit.CODE_TYPE_PRESENCE st) t
    + length (List.filter (Rows.accepted_with cfg t) (Rows.json_code_entries root)).
Proof.
  unfold JsonParser.parse_json. cbn [fst snd JsonParser.report].
  rewrite report_code_type_presence.
  apply (json_walk_presence t cfg meta root (st, [])).
Qed.

Lemma tall_call_presence cfg meta head body st t :
  Audit.cnt (Audit.code_type_presence
               (Tall.report (snd (Tall.extract_tall_format_csv cfg meta head body st)))) t
  = Audit.cnt (Audit.CODE_TYPE_PRESENCE st) t
    + length (List.filter (Rows.csv_has_type t) (Rows.tall_rows cfg meta body)).
Proof.
  unfold Tall.extract_tall_format_csv. cbn [fst snd Tall.report].
  rewrite report_code_type_presence.
  apply (tall_walk_presence t cfg meta body (st, [])).
Qed.

Lemma wide_call_presence cfg meta head df st t :
  Audit.cnt (Audit.code_type_presence
               (Wide.report (snd (Wide.extract_wide_format_csv cfg meta head df st)))) t
  = Audit.cnt (Audit.CODE_TYPE_PRESENCE st) t
    + length (List.filter (Rows.files_type t)
                (flat_map (Rows.contributions cfg (Wide.payer_cols (Wide.columns df)))
                          (Wide.iterrows df))).
Proof.
  unfold Wide.extract_wide_format_csv. cbn [fst snd Wide.report].
  rewrite report_code_type_presence.
  apply (wide_walk_presence t cfg meta df (st, [])).
Qed.

Lemma wide_rows_count cfg meta df t :
  length (List.filter (Rows.csv_has_type t) (Rows.wide_rows cfg meta df))
  <= length (List.filter (Rows.files_type t)
               (flat_map (Rows.contributions cfg (Wide.payer_cols (Wide.columns df)))
                         (Wide.iterrows df))).
Proof.
  unfold Rows.wide_rows. rewrite !count_flat_map.
  induction (Wide.iterrows df) as [|row rows IH]; simpl; [lia|].
  pose proof (wide_row_count cfg meta (Wide.payer_cols (Wide.columns df)) row t). lia.
Qed.

(** The field-presence log after a call, and the table of the report. *)
Lemma json_call_fp cfg meta root st h :
  h ∈ JsonParser.HEADERS ->
  Audit.cnt (Audit.FIELD_PRESENCE_LOG (fst (fst (JsonParser.parse_json cfg meta root st)))) h
  = Audit.cnt (Audit.FIELD_PRESENCE_LOG st) h
    + length (List.filter (Rows.json_field_set h)
                (snd (fst (JsonParser.parse_json cfg meta root st)))).
Proof.
  intros Hh. rewrite json_parse_rows. unfold JsonParser.parse_json. cbn [fst snd].
  apply (json_walk_fp h Hh cfg meta root (st, [])).
Qed.

Lemma json_call_summary cfg meta root st h :
  h ∈ JsonParser.HEADERS ->
  Py.get (Audit.field_presence_summary
            (JsonParser.report (snd (JsonParser.parse_json cfg meta root st)))) h
  = Some (Audit.cnt (Audit.FIELD_PRESENCE_LOG st) h
          + length (List.filter (Rows.json_field_set h)
                      (snd (fst (JsonParser.parse_json cfg meta root st))))).
Proof.
  intros Hh. rewrite <- (json_call_fp _ _ _ _ _ Hh).
  unfold JsonParser.parse_json. cbn [fst snd JsonParser.report].
  rewrite report_field_presence.
  apply (get_summary (fun f => Audit.cnt _ f)). exact Hh.
Qed.

Lemma tall_call_fp cfg meta head body st h :
  h ∈ Tall.HEADERS ->
  Audit.cnt (Audit.FIELD_PRESENCE_LOG
               (fst (fst (Tall.extract_tall_format_csv cfg meta head body st)))) h
  = Audit.cnt (Audit.FIELD_PRESENCE_LOG st) h
    + length (List.filter (Rows.csv_field_set h)
                (snd (fst (Tall.extract_tall_format_csv cfg meta head body st)))).
Proof.
  intros Hh. rewrite tall_extract_rows. unfold Tall.extract_tall_format_csv. cbn [fst snd].
  apply (tall_walk_fp h Hh cfg meta body (st, [])).
Qed.

Lemma tall_call_summary cfg meta head body st h :
  h ∈ Tall.HEADERS ->
  Py.get (Audit.field_presence_summary
            (Tall.report (snd (Tall.extract_tall_format_csv cfg meta head body st)))) h
  = Some (Audit.cnt (Audit.FIELD_PRESENCE_LOG st) h
          + length (List.filter (Rows.csv_field_set h)
                      (snd (fst (Tall.extract_tall_format_csv cfg meta head body st))))).
Proof.
  intros Hh. rewrite <- (tall_call_fp _ _ _ _ _ _ Hh).
  unfold Tall.extract_tall_format_csv. cbn [fst snd Tall.report].
  rewrite report_field_presence.
  apply (get_summary (fun f => Audit.cnt _ f)). exact Hh.
Qed.

Lemma wide_call_fp cfg meta head df st h :
  Audit.cnt (Audit.FIELD_PRESENCE_LOG
               (fst (fst (Wide.extract_wide_format_csv cfg meta head df st)))) h
  = Audit.cnt (Audit.FIELD_PRESENCE_LOG st) h
    + length (List.filter (Rows.csv_field_set h)
                (snd (fst (Wide.extract_wide_format_csv cfg meta head df st)))).
Proof.
  rewrite wide_extract_rows. unfold Wide.extract_wide_format_csv. cbn [fst snd].
  apply (wide_walk_fp h cfg meta df (st, [])).
Qed.

Lemma wide_call_summary cfg meta head df st h :
  h ∈ Wide.HEADERS ->
  Py.get (Audit.field_presence_summary
            (Wide.report (snd (Wide.extract_wide_format_csv cfg meta head df st)))) h
  = Some (Audit.cnt (Audit.FIELD_PRESENCE_LOG st) h
          + length (List.filter (Rows.csv_field_set h)
                      (snd (fst (Wide.extract_wide_format_csv cfg meta head df st))))).
Proof.
  intros Hh. rewrite <- (wide_call_fp _ _ _ _ _ _).
  unfold Wide.extract_wide_format_csv. cbn [fst snd Wide.report].
  rewrite report_field_presence.
  apply (get_summary (fun f => Audit.cnt _ f)). exact Hh.
Qed.

(* ===================================================================== *)
(** * C3: the code-type presence counter *)
(* ===================================================================== *)

(** C3, as stated, fails.  JSON: one accepted code entry with one charge
    and two payers gives two CPT rows and a CPT counter of 1.  Wide: two
    payer columns of one payer and plan give one CPT row and a CPT
    counter of 2. *)
Lemma presence_counter_is_not_the_row_count :
  Audit.cnt (Audit.code_type_presence
               (JsonParser.report
                  (snd (JsonParser.run cpt_only general_hospital two_payer_root)))) "CPT"
  <> length (List.filter (Rows.json_has_type "CPT")
               (fst (JsonParser.run cpt_only general_hospital two_payer_root)))
  /\ Audit.cnt (Audit.code_type_presence
                  (Wide.report
                     (snd (Wide.run cpt_only general_hospital wide_head
                             (one_slot_table "standard_charge|PayerA|PlanA|negotiated_dollar"
                                "standard_charge|PayerA|PlanA|methodology" "99213" "CPT")))))
               "CPT"
     <> length (List.filter (Rows.csv_has_type "CPT")
                  (fst (Wide.run cpt_only general_hospital wide_head
                          (one_slot_table "standard_charge|PayerA|PlanA|negotiated_dollar"
                             "standard_charge|PayerA|PlanA|methodology" "99213" "CPT")))).
Proof. split; vm_compute; discriminate. Qed.

(** C3, amended: the presence counter of type [t] in the report of a
    call is the value the counter has when the call starts (zero in a
    fresh interpreter; the counter is a module global that no walker
    resets) plus the number of passages through the allow-list check that
    were accepted with type [t] during the call.  In the tall walker that
    number is the number of rows of type [t] the call writes.  In the
    JSON walker it is the number of code entries accepted with type [t],
    whatever the number of rows written under them.  In the wide walker
    it is the number of (payer column, code slot) filings made under type
    [t], which is at least the number of rows of type [t] the call
    writes.  The last three parts read this for one run of the script,
    where the counter starts at zero. *)
Theorem code_type_presence_counts cfg meta t :
  (forall head body st,
      let call := Tall.extract_tall_format_csv cfg meta head body st in
      Audit.cnt (Audit.code_type_presence (Tall.report (snd call))) t
      = Audit.cnt (Audit.CODE_TYPE_PRESENCE st) t
        + length (List.filter (Rows.csv_has_type t) (snd (fst call))))
  /\ (forall root st,
         let call := JsonParser.parse_json cfg meta root st in
         Audit.cnt (Audit.code_type_presence (JsonParser.report (snd call))) t
         = Audit.cnt (Audit.CODE_TYPE_PRESENCE st) t
           + length (List.filter (Rows.accepted_with cfg t) (Rows.json_code_entries root)))
  /\ (forall head df st,
         let call := Wide.extract_wide_format_csv cfg meta head df st in
         Audit.cnt (Audit.code_type_presence (Wide.report (snd call))) t
         = Audit.cnt (Audit.CODE_TYPE_PRESENCE st) t
           + length (List.filter (Rows.files_type t)
                       (flat_map (Rows.contributions cfg (Wide.payer_cols (Wide.columns df)))
                                 (Wide.iterrows df)))
         /\ Audit.cnt (Audit.CODE_TYPE_PRESENCE st) t
            + length (List.filter (Rows.csv_has_type t) (snd (fst call)))
            <= Audit.cnt (Audit.code_type_presence (Wide.report (snd call))) t)
  /\ (forall head body,
         Audit.cnt (Audit.code_type_presence (Tall.report (snd (Tall.run cfg meta head body)))) t
         = length (List.filter (Rows.csv_has_type t) (fst (Tall.run cfg meta head body))))
  /\ (forall root,
         Audit.cnt (Audit.code_type_presence
                      (JsonParser.report (snd (JsonParser.run cfg meta root)))) t
         = length (List.filter (Rows.accepted_with cfg t) (Rows.json_code_entries root)))
  /\ (forall head df,
         Audit.cnt (Audit.code_type_presence (Wide.report (snd (Wide.run cfg meta head df)))) t
         = length (List.filter (Rows.files_type t)
                     (flat_map (Rows.contributions cfg (Wide.payer_cols (Wide.columns df)))
                               (Wide.iterrows df)))
         /\ length (List.filter (Rows.csv_has_type t) (fst (Wide.run cfg meta head df)))
            <= Audit.cnt (Audit.code_type_presence
                            (Wide.report (snd (Wide.run cfg meta head df)))) t).
Proof.
  split; [|split; [|split; [|split; [|split]]]].
  - intros head body st call. subst call.
    rewrite tall_extract_rows. apply tall_call_presence.
  - intros root st call. subst call. apply json_call_presence.
  - intros head df st call. subst call.
    rewrite wide_extract_rows, wide_call_presence. split; [reflexivity|].
    pose proof (wide_rows_count cfg meta df t). lia.
  - intros head body. rewrite tall_run_rows. unfold Tall.run. cbn [snd].
    rewrite tall_call_presence. cbn [Audit.fresh Audit.CODE_TYPE_PRESENCE].
    rewrite cnt_empty. reflexivity.
  - intros root. unfold JsonParser.run. cbn [snd].
    rewrite json_call_presence. cbn [Audit.fresh Audit.CODE_TYPE_PRESENCE].
    rewrite cnt_empty. reflexivity.
  - intros head df. rewrite wide_run_rows. unfold Wide.run. cbn [snd].
    rewrite wide_call_presence. cbn [Audit.fresh Audit.CODE_TYPE_PRESENCE].
    rewrite cnt_empty. split; [reflexivity|]. apply wide_rows_count.
Qed.

(* ===================================================================== *)
(** * C9: the field-presence table *)
(* ===================================================================== *)

Lemma Forall_elem_of {A} (P : A -> Prop) (l : list A) : (forall x, x ∈ l -> P x) -> Forall P l.
Proof. intros H. apply Forall_forall. exact H. Qed.

(** C9: in the report of every call of each walker, whatever the
    accumulators hold when the call starts, the field-presence table has
    exactly the names of the walker's header list as keys, in that
    order, and under each name the count the field-presence log has for
    it: the count at the start of the call plus the number of rows the
    call writes with that field non-empty.  In one run of the script,
    where the log starts empty, that is the number of written rows whose
    field of that name is non-empty: zero for a field never seen
    non-empty. *)
Theorem field_presence_table cfg meta :
  (forall root st,
      let call := JsonParser.parse_json cfg meta root st in
      let table := Audit.field_presence_summary (JsonParser.report (snd call)) in
      map fst table = JsonParser.HEADERS
      /\ Forall (fun h => Py.get table h
                          = Some (Audit.cnt (Audit.FIELD_PRESENCE_LOG st) h
                                  + length (List.filter (Rows.json_field_set h) (snd (fst call)))))
                JsonParser.HEADERS)
  /\ (forall head body st,
         let call := Tall.extract_tall_format_csv cfg meta head body st in
         let table := Audit.field_presence_summary (Tall.report (snd call)) in
         map fst table = Tall.HEADERS
         /\ Forall (fun h => Py.get table h
                             = Some (Audit.cnt (Audit.FIELD_PRESENCE_LOG st) h
                                     + length (List.filter (Rows.csv_field_set h)
                                                 (snd (fst call)))))
                   Tall.HEADERS)
  /\ (forall head df st,
         let call := Wide.extract_wide_format_csv cfg meta head df st in
         let table := Audit.field_presence_summary (Wide.report (snd call)) in
         map fst table = Wide.HEADERS
         /\ Forall (fun h => Py.get table h
                             = Some (Audit.cnt (Audit.FIELD_PRESENCE_LOG st) h
                                     + length (List.filter (Rows.csv_field_set h)
                                                 (snd (fst call)))))
                   Wide.HEADERS)
  /\ (forall root,
         let r := JsonParser.run cfg meta root in
         let table := Audit.field_presence_summary (JsonParser.report (snd r)) in
         map fst table = JsonParser.HEADERS
         /\ Forall (fun h => Py.get table h
                             = Some (length (List.filter (Rows.json_field_set h) (fst r))))
                   JsonParser.HEADERS)
  /\ (forall head body,
         let r := Tall.run cfg meta head body in
         let table := Audit.field_presence_summary (Tall.report (snd r)) in
         map fst table = Tall.HEADERS
         /\ Forall (fun h => Py.get table h
                             = Some (length (List.filter (Rows.csv_field_set h) (fst r))))
                   Tall.HEADERS)
  /\ (forall head df,
         let r := Wide.run cfg meta head df in
         let table := Audit.field_presence_summary (Wide.report (snd r)) in
         map fst table = Wide.HEADERS
         /\ Forall (fun h => Py.get table h
                             = Some (length (List.filter (Rows.csv_field_set h) (fst r))))
                   Wide.HEADERS).
Proof.
  split; [|split; [|split; [|split; [|split]]]].
  - intros root st call table. split; [apply summary_keys|].
    apply Forall_elem_of. intros h Hh. subst table call.
    apply (json_call_summary _ _ _ _ _ Hh).
  - intros head body st call table. split; [apply summary_keys|].
    apply Forall_elem_of. intros h Hh. subst table call.
    apply (tall_call_summary _ _ _ _ _ _ Hh).
  - intros head df st call table. split; [apply summary_keys|].
    apply Forall_elem_of. intros h Hh. subst table call.
    apply (wide_call_summary _ _ _ _ _ _ Hh).
  - intros root r table. split; [apply summary_keys|].
    apply Forall_elem_of. intros h Hh. subst table r. unfold JsonParser.run. cbn [fst snd].
    rewrite (json_call_summary _ _ _ _ _ Hh). cbn [Audit.fresh Audit.FIELD_PRESENCE_LOG].
    rewrite cnt_empty. reflexivity.
  - intros head body r table. split; [apply summary_keys|].
    apply Forall_elem_of. intros h Hh. subst table r. unfold Tall.run. cbn [fst snd].
    rewrite (tall_call_summary _ _ _ _ _ _ Hh). cbn [Audit.fresh Audit.FIELD_PRESENCE_LOG].
    rewrite cnt_empty. reflexivity.
  - intros head df r table. split; [apply summary_keys|].
    apply Forall_elem_of. intros h Hh. subst table r. unfold Wide.run. cbn [fst snd].
    rewrite (wide_call_summary _ _ _ _ _ _ Hh). cbn [Audit.fresh Audit.FIELD_PRESENCE_LOG].
    rewrite cnt_empty. reflexivity.
Qed.

(* ===================================================================== *)
(** * C10: the wide walker never fills the payer id *)
(* ===================================================================== *)

Lemma wide_record_no_payer_id meta row generic_notes modifiers_raw group :
  Py.get (Wide.record_of meta row generic_notes modifiers_raw group) "insurance payer id" = None.
Proof. destruct group as [[[[code t] payer] plan] field_data]. reflexivity. Qed.

Lemma wide_rows_no_payer_id cfg meta df :
  Forall (fun r => Py.get r "insurance payer id" = None) (Rows.wide_rows cfg meta df).
Proof.
  unfold Rows.wide_rows. apply Forall_flat_map_intro. intros row.
  unfold Rows.wide_row. apply Forall_map_intro. intros group.
  apply wide_record_no_payer_id.
Qed.

Lemma filter_none {A} (p : A -> bool) (l : list A) :
  Forall (fun a => p a = false) l -> List.filter p l = [].
Proof.
  induction 1 as [|a l Ha _ IH]; simpl; [reflexivity|]. rewrite Ha. exact IH.
Qed.

(** C10: no record of the wide walker has an "insurance payer id" entry,
    so that column of the written table (the ninth) is empty in every
    row, and the report's field-presence count for it is zero. *)
Theorem wide_payer_id_never_set cfg meta head df :
  let r := Wide.run cfg meta head df in
  Forall (fun record => Py.get record "insurance payer id" = None) (fst r)
  /\ Forall (fun cells => cells !! 8%nat = Some None) (Wide.extracted_df (fst r))
  /\ Py.get (Audit.field_presence_summary (Wide.report (snd r))) "insurance payer id" = Some 0.
Proof.
  intros r. subst r. rewrite wide_run_rows.
  pose proof (wide_rows_no_payer_id cfg meta df) as Hrows.
  split; [exact Hrows|]. split.
  - unfold Wide.extracted_df. apply Forall_map. eapply Forall_impl; [exact Hrows|].
    intros record Hrecord. cbn [Wide.HEADERS map lookup list_lookup]. simpl.
    rewrite Hrecord. reflexivity.
  - unfold Wide.run. cbn [snd].
    rewrite wide_call_summary by (apply list_elem_of_In; vm_compute; tauto).
    rewrite wide_extract_rows. cbn [Audit.fresh Audit.FIELD_PRESENCE_LOG].
    rewrite cnt_empty, filter_none; [reflexivity|].
    eapply Forall_impl; [exact Hrows|]. intros record Hrecord.
    unfold Rows.csv_field_set. rewrite Hrecord. reflexivity.
Qed.

(* ===================================================================== *)
(** * C4: two calls in a row *)
(* ===================================================================== *)

(** C4, as stated, fails: called a second time in the same interpreter,
    on the same table and configuration, the tall walker starts from the
    accumulators the first call left, and its report is not the report
    of the first call. *)
Lemma second_call_report_differs :
  let first := Tall.extract_tall_format_csv cpt_only general_hospital tall_head
                 [tall_row_with "Office visit"] (Audit.fresh ∅) in
  let second := Tall.extract_tall_format_csv cpt_only general_hospital tall_head
                  [tall_row_with "Office visit"] (fst (fst first)) in
  snd first <> snd second.
Proof.
  intros first second H.
  apply (f_equal (fun d => Audit.field_presence_summary (Tall.report d))) in H.
  vm_compute in H. discriminate.
Qed.

(** The walkers read the allowed set by membership only: the order in
    which the process iterates it plays no part in the walk. *)
Lemma json_walk_same cfg cfg' meta root s :
  same_configuration cfg cfg' ->
  JsonParser.walk cfg meta root s = JsonParser.walk cfg' meta root s.
Proof.
  destruct cfg as [allowed map_ order enum], cfg' as [allowed' map_' order' enum'].
  unfold same_configuration. cbn [allowed_code_types code_type_map].
  intros [<- <-]. reflexivity.
Qed.

Lemma tall_walk_same cfg cfg' meta body s :
  same_configuration cfg cfg' ->
  Py.for_each body (Tall.row_step cfg meta) s = Py.for_each body (Tall.row_step cfg' meta) s.
Proof.
  destruct cfg as [allowed map_ order enum], cfg' as [allowed' map_' order' enum'].
  unfold same_configuration. cbn [allowed_code_types code_type_map].
  intros [<- <-]. reflexivity.
Qed.

Lemma wide_walk_same cfg cfg' meta cols body s :
  same_configuration cfg cfg' ->
  Py.for_each body (Wide.row_step cfg meta cols) s
  = Py.for_each body (Wide.row_step cfg' meta cols) s.
Proof.
  destruct cfg as [allowed map_ order enum], cfg' as [allowed' map_' order' enum'].
  unfold same_configuration. cbn [allowed_code_types code_type_map].
  intros [<- <-]. reflexivity.
Qed.

(** The closing comprehension is where the order shows: the entries it
    adds to the counter table are the same in any order, the list it
    builds is not. *)
Lemma iter_allowed_same cfg cfg' :
  same_configuration cfg cfg' -> iter_allowed_code_types cfg ≡ₚ iter_allowed_code_types cfg'.
Proof.
  intros [Hallowed _].
  rewrite (iter_allowed_code_types_enum cfg), (iter_allowed_code_types_enum cfg'), Hallowed.
  reflexivity.
Qed.

Lemma touch_all_same (cts cts' : list string) (m : gmap string nat) :
  cts ≡ₚ cts' -> Py.for_each cts Audit.touch m = Py.for_each cts' Audit.touch m.
Proof.
  intros Hperm. apply map_eq. intros k. rewrite !lookup_touch_all.
  destruct (decide (k ∈ cts)) as [Hin|Hnin]; destruct (decide (k ∈ cts')) as [Hin'|Hnin'];
    try reflexivity; exfalso.
  - apply Hnin'. rewrite <- Hperm. exact Hin.
  - apply Hnin. rewrite Hperm. exact Hin'.
Qed.

Lemma filter_same_members {A} (p : A -> bool) (l l' : list A) :
  l ≡ₚ l' -> List.filter p l ≡ₚ List.filter p l'.
Proof.
  induction 1 as [|x l l' _ IH|x y l|l l' l'' _ IH _ IH']; simpl.
  - reflexivity.
  - destruct (p x); [constructor|]; exact IH.
  - destruct (p x), (p y); try reflexivity. constructor.
  - etransitivity; eassumption.
Qed.

Lemma build_report_same {M} HEADERS cfg cfg' (st : Audit.Accumulators M) :
  same_configuration cfg cfg' ->
  fst (Audit.build_report HEADERS cfg st) = fst (Audit.build_report HEADERS cfg' st)
  /\ Audit.same_entries (snd (Audit.build_report HEADERS cfg st))
                        (snd (Audit.build_report HEADERS cfg' st)).
Proof.
  intros Hsame. pose proof (iter_allowed_same cfg cfg' Hsame) as Hperm.
  unfold Audit.build_report, Audit.same_entries, Audit.with_code_type_presence.
  cbn [fst snd Audit.field_presence_summary Audit.unrecognized_code_types
       Audit.missing_code_types Audit.code_type_presence Audit.code_type_normalizations_used
       Audit.modifier_counts Audit.UNKNOWN_CODE_TYPES Audit.CODE_TYPE_PRESENCE
       Audit.CODE_TYPE_MAPPINGS_USED Audit.MODIFIER_COUNTS Audit.FIELD_PRESENCE_LOG].
  rewrite (touch_all_same _ _ _ Hperm).
  split; [reflexivity|].
  split; [reflexivity|]. split; [reflexivity|].
  split; [apply filter_same_members; exact Hperm|].
  split; [reflexivity|]. split; reflexivity.
Qed.

(** C4, amended: the rows a walker writes do not depend on what the
    accumulators hold when it is called, so two calls on the same input
    write the same canonical output (for the tall walker, the same file
    text); the report of a call depends on the accumulators: when the
    second call follows the first in one interpreter, every count of its
    field-presence table is twice the count of the first call's table.
    Two interpreter processes that start from the same accumulators (a
    fresh import in each) write the same rows, leave the same
    accumulators and build dev logs with the same entries; the list of
    missing code types has the same members in both, in the order in
    which each process iterates the allowed set, and for two allowed
    types of which the table has no record the two lists differ when
    the two orders do. *)
Theorem two_calls cfg meta :
  (forall root st st',
      snd (fst (JsonParser.parse_json cfg meta root st))
      = snd (fst (JsonParser.parse_json cfg meta root st')))
  /\ (forall head body st st',
         snd (fst (Tall.extract_tall_format_csv cfg meta head body st))
         = snd (fst (Tall.extract_tall_format_csv cfg meta head body st'))
         /\ Tall.out_csv (snd (fst (Tall.extract_tall_format_csv cfg meta head body st)))
            = Tall.out_csv (snd (fst (Tall.extract_tall_format_csv cfg meta head body st'))))
  /\ (forall head df st st',
         snd (fst (Wide.extract_wide_format_csv cfg meta head df st))
         = snd (fst (Wide.extract_wide_format_csv cfg meta head df st')))
  /\ (forall root,
         let first := JsonParser.parse_json cfg meta root (Audit.fresh []) in
         let second := JsonParser.parse_json cfg meta root (fst (fst first)) in
         Forall (fun h => exists n,
                     Py.get (Audit.field_presence_summary (JsonParser.report (snd first))) h
                     = Some n
                     /\ Py.get (Audit.field_presence_summary (JsonParser.report (snd second))) h
                        = Some (2 * n))
                JsonParser.HEADERS)
  /\ (forall head body,
         let first := Tall.extract_tall_format_csv cfg meta head body (Audit.fresh ∅) in
         let second := Tall.extract_tall_format_csv cfg meta head body (fst (fst first)) in
         Forall (fun h => exists n,
                     Py.get (Audit.field_presence_summary (Tall.report (snd first))) h = Some n
                     /\ Py.get (Audit.field_presence_summary (Tall.report (snd second))) h
                        = Some (2 * n))
                Tall.HEADERS)
  /\ (forall head df,
         let first := Wide.extract_wide_format_csv cfg meta head df (Audit.fresh ∅) in
         let second := Wide.extract_wide_format_csv cfg meta head df (fst (fst first)) in
         Forall (fun h => exists n,
                     Py.get (Audit.field_presence_summary (Wide.report (snd first))) h = Some n
                     /\ Py.get (Audit.field_presence_summary (Wide.report (snd second))) h
                        = Some (2 * n))
                Wide.HEADERS)
  /\ (forall cfg', same_configuration cfg cfg' ->
      (forall root st,
          let here := JsonParser.parse_json cfg meta root st in
          let there := JsonParser.parse_json cfg' meta root st in
          fst here = fst there
          /\ Audit.same_entries (JsonParser.report (snd here)) (JsonParser.report (snd there))
          /\ JsonParser.raw_address_info (snd here) = JsonParser.raw_address_info (snd there)
          /\ JsonParser.mrf_metadata (snd here) = JsonParser.mrf_metadata (snd there)
          /\ JsonParser.unused_optional_json_keys (snd here)
             = JsonParser.unused_optional_json_keys (snd there))
      /\ (forall head body st,
             let here := Tall.extract_tall_format_csv cfg meta head body st in
             let there := Tall.extract_tall_format_csv cfg' meta head body st in
             fst here = fst there
             /\ Audit.same_entries (Tall.report (snd here)) (Tall.report (snd there))
             /\ Tall.raw_address_info (snd here) = Tall.raw_address_info (snd there)
             /\ Tall.mrf_metadata (snd here) = Tall.mrf_metadata (snd there))
      /\ (forall head df st,
             let here := Wide.extract_wide_format_csv cfg meta head df st in
             let there := Wide.extract_wide_format_csv cfg' meta head df st in
             fst here = fst there
             /\ Audit.same_entries (Wide.report (snd here)) (Wide.report (snd there))
             /\ Wide.payer_columns_parsed (snd here) = Wide.payer_columns_parsed (snd there)
             /\ Wide.total_rows_extracted (snd here) = Wide.total_rows_extracted (snd there)
             /\ Wide.raw_address_info (snd here) = Wide.raw_address_info (snd there)
             /\ Wide.mrf_metadata (snd here) = Wide.mrf_metadata (snd there)))
  /\ (same_configuration cpt_and_hcpcs cpt_and_hcpcs_elsewhere
      /\ Audit.missing_code_types
           (Tall.report (snd (Tall.run cpt_and_hcpcs meta tall_head [])))
         <> Audit.missing_code_types
              (Tall.report (snd (Tall.run cpt_and_hcpcs_elsewhere meta tall_head [])))).
Proof.
  split; [|split; [|split; [|split; [|split; [|split; [|split]]]]]].
  - intros root st st'. rewrite !json_parse_rows. reflexivity.
  - intros head body st st'. rewrite !tall_extract_rows. split; reflexivity.
  - intros head df st st'. rewrite !wide_extract_rows. reflexivity.
  - intros root first second. apply Forall_elem_of. intros h Hh. eexists. split.
    + subst first. apply (json_call_summary _ _ _ _ _ Hh).
    + subst second. rewrite (json_call_summary _ _ _ _ _ Hh).
      subst first. rewrite (json_call_fp _ _ _ _ _ Hh), !json_parse_rows.
      cbn [Audit.fresh Audit.FIELD_PRESENCE_LOG]. rewrite cnt_empty. f_equal. lia.
  - intros head body first second. apply Forall_elem_of. intros h Hh. eexists. split.
    + subst first. apply (tall_call_summary _ _ _ _ _ _ Hh).
    + subst second. rewrite (tall_call_summary _ _ _ _ _ _ Hh).
      subst first. rewrite (tall_call_fp _ _ _ _ _ _ Hh), !tall_extract_rows.
      cbn [Audit.fresh Audit.FIELD_PRESENCE_LOG]. rewrite cnt_empty. f_equal. lia.
  - intros head df first second. apply Forall_elem_of. intros h Hh. eexists. split.
    + subst first. apply (wide_call_summary _ _ _ _ _ _ Hh).
    + subst second. rewrite (wide_call_summary _ _ _ _ _ _ Hh).
      subst first. rewrite wide_call_fp, !wide_extract_rows.
      cbn [Audit.fresh Audit.FIELD_PRESENCE_LOG]. rewrite cnt_empty. f_equal. lia.
  - intros cfg' Hsame. split; [|split].
    + intros root st here there. subst here there. unfold JsonParser.parse_json.
      cbn [fst snd JsonParser.report JsonParser.raw_address_info JsonParser.mrf_metadata
           JsonParser.unused_optional_json_keys].
      rewrite (json_walk_same cfg cfg' meta root (st, []) Hsame).
      destruct (build_report_same JsonParser.HEADERS cfg cfg'
                  (fst (JsonParser.walk cfg' meta root (st, []))) Hsame) as [Hacc Hrep].
      rewrite Hacc. repeat (split; [first [reflexivity | exact Hrep]|]). reflexivity.
    + intros head body st here there. subst here there. unfold Tall.extract_tall_format_csv.
      cbn [fst snd Tall.report Tall.raw_address_info Tall.mrf_metadata].
      rewrite (tall_walk_same cfg cfg' meta body (st, []) Hsame).
      destruct (build_report_same Tall.HEADERS cfg cfg'
                  (fst (Py.for_each body (Tall.row_step cfg' meta) (st, []))) Hsame)
        as [Hacc Hrep].
      rewrite Hacc. repeat (split; [first [reflexivity | exact Hrep]|]). reflexivity.
    + intros head df st here there. subst here there. unfold Wide.extract_wide_format_csv.
      cbn [fst snd Wide.report Wide.raw_address_info Wide.mrf_metadata
           Wide.payer_columns_parsed Wide.total_rows_extracted].
      rewrite (wide_walk_same cfg cfg' meta _ _ (st, []) Hsame).
      destruct (build_report_same Wide.HEADERS cfg cfg'
                  (fst (Py.for_each (Wide.iterrows df)
                          (Wide.row_step cfg' meta (Wide.payer_cols (Wide.columns df)))
                          (st, []))) Hsame) as [Hacc Hrep].
      rewrite Hacc. repeat (split; [first [reflexivity | exact Hrep]|]). reflexivity.
  - split; [split; reflexivity|]. vm_compute. discriminate.
Qed.

(* ===================================================================== *)
(** * C5: what the tall writer does to a double quote *)
(* ===================================================================== *)

Lemma replace_absent c by_ s : Py.count c s = 0 -> Py.replace c by_ s = s.
Proof.
  induction s as [|c' s IH]; simpl; [reflexivity|].
  destruct (Ascii.eqb c c'); [discriminate|]. intros H. rewrite IH; [reflexivity|exact H].
Qed.

(** A value without a double quote is written between double quotes,
    its characters unchanged. *)
Lemma write_cell_plain value :
  Py.count Tall.dquote value = 0 ->
  Tall.write_cell value = String Tall.dquote (value +:+ String Tall.dquote EmptyString).
Proof. intros H. unfold Tall.write_cell. rewrite replace_absent by exact H. reflexivity. Qed.

(** C5 at the failing input: the tall walker, on a body row whose
    description is [five_inch_pipe], keeps the description in the record but
    writes the cell with two single quotes in place of the double quote;
    the written cell holds no double quote besides its two delimiters. *)
Theorem tall_writer_loses_double_quote :
  let rows := fst (Tall.run cpt_only general_hospital tall_head [tall_row_with five_inch_pipe]) in
  exists r,
    rows = [r]
    /\ Py.get r "description" = Some five_inch_pipe
    /\ Tall.write_cell five_inch_pipe
       = String Tall.dquote ("5'' pipe" +:+ String Tall.dquote EmptyString)
    /\ map Tall.write_cell (map (fun col => Py.get_or r col EmptyString) Tall.HEADERS)
         !! 4%nat
       = Some (String Tall.dquote ("5'' pipe" +:+ String Tall.dquote EmptyString))
    /\ Py.count Tall.dquote (Tall.write_cell five_inch_pipe) = 2.
Proof.
  intros rows. subst rows. eexists. split; [vm_compute; reflexivity|].
  repeat split; vm_compute; reflexivity.
Qed.

(* ===================================================================== *)
(** * C7: the estimated amount of a JSON row *)
(* ===================================================================== *)

(** C7, as stated, fails: a payer entry that supplies the estimated
    amount 0 gets the estimated amount of the drug information, 7. *)
Lemma payer_zero_estimate_is_skipped :
  ~ (forall meta code t description drug_info charge payer v,
        Py.get payer "estimated_amount" = Some v ->
        Py.get (JsonParser.payer_row meta code t description drug_info charge payer)
               "estimated amount"
        = Some v).
Proof.
  intros H.
  specialize (H general_hospital (Py.PStr "99213") "CPT" (Py.PStr "Office visit")
                [("estimated_amount", Py.PInt 7)] []
                [("payer_name", Py.PStr "Aetna"); ("estimated_amount", Py.PInt 0)]
                (Py.PInt 0) eq_refl).
  vm_compute in H. discriminate.
Qed.

Lemma get_cons_eq {K V} `{EqDecision K} (k : K) (v : V) (d : list (K * V)) :
  Py.get ((k, v) :: d) k = Some v.
Proof. simpl. destruct (decide (k = k)); [reflexivity|contradiction]. Qed.

Lemma get_cons_ne {K V} `{EqDecision K} (k k' : K) (v : V) (d : list (K * V)) :
  k <> k' -> Py.get ((k', v) :: d) k = Py.get d k.
Proof. intros Hne. simpl. destruct (decide (k = k')); [contradiction|reflexivity]. Qed.

Lemma payer_row_estimated_amount meta code t description drug_info charge payer :
  Py.get (JsonParser.payer_row meta code t description drug_info charge payer) "estimated amount"
  = Some (Rows.estimated_amount_of payer drug_info).
Proof.
  unfold JsonParser.payer_row. cbv zeta.
  rewrite !get_cons_ne by discriminate. rewrite get_cons_eq.
  unfold Rows.estimated_amount_of, Py.or_, Py.get_or.
  destruct (Py.get payer "estimated_amount") as [v|]; reflexivity.
Qed.

(** C7, amended: every row the JSON walker writes for a payer entry of a
    line item holds, as estimated amount, the payer entry's
    [estimated_amount] when the entry has one that is true in Python's
    sense (not null, not empty, not zero), and otherwise the
    [estimated_amount] of the line item's drug information, the empty
    string when that is absent too. *)
Theorem estimated_amount_fallback cfg meta root :
  fst (JsonParser.run cfg meta root)
  = Rows.json_item_rows cfg meta root ++ Rows.json_modifier_rows meta root
  /\ Forall (fun r => exists it ch payer,
                 In it (JsonParser.items_of (JsonParser.standard_charge_information root))
                 /\ In ch (JsonParser.standard_charges it)
                 /\ In payer (JsonParser.payers_information ch)
                 /\ Py.get r "insurance payer name"
                    = Some (Py.get_or payer "payer_name" (Py.PStr EmptyString))
                 /\ Py.get r "estimated amount"
                    = Some (Rows.estimated_amount_of payer (JsonParser.drug_information it)))
            (Rows.json_item_rows cfg meta root).
Proof.
  split; [apply json_run_rows|].
  apply List.Forall_forall. intros r Hr. apply json_item_row_origin in Hr.
  destruct Hr as (it & ce & ch & payer & t & Hit & _ & _ & Hch & Hpayer & ->).
  exists it, ch, payer. repeat split; try assumption.
  apply payer_row_estimated_amount.
Qed.

(* ===================================================================== *)
(** * C8: one record per group key, last filing wins *)
(* ===================================================================== *)

Lemma wide_record_pivoted meta row generic_notes modifiers_raw k fd f :
  f ∈ Rows.pivoted_fields ->
  Py.get (Wide.record_of meta row generic_notes modifiers_raw (k, fd)) f
  = Some (default EmptyString (Py.get fd f)).
Proof.
  destruct k as [[[code t] payer] plan]. unfold Rows.pivoted_fields. intros Hf.
  repeat (apply elem_of_cons in Hf; destruct Hf as [->|Hf]; [reflexivity|]).
  apply elem_of_nil in Hf. contradiction.
Qed.

Lemma wide_record_notes meta row generic_notes modifiers_raw k fd :
  Py.get (Wide.record_of meta row generic_notes modifiers_raw (k, fd)) "additional notes"
  = Some (Py.join ", "
            (List.filter Py.nonempty
               [generic_notes; default EmptyString (Py.get fd "additional notes")])).
Proof. destruct k as [[[code t] payer] plan]. reflexivity. Qed.

Lemma groups_field cfg payer_cols row k fd f :
  In (k, fd) (Rows.groups cfg payer_cols row) ->
  Py.get fd f = Rows.last_value (Rows.contributions cfg payer_cols row) k f.
Proof.
  intros Hin. rewrite <- groups_fields. fold (Rows.groups cfg payer_cols row).
  rewrite (get_elem_of k fd).
  - reflexivity.
  - apply groups_keys_nodup.
  - apply list_elem_of_In. exact Hin.
Qed.

(** C8: for one body row, the filings of the source loop are the
    [contributions] of the selected payer columns; the row's records
    have pairwise different group keys, there is a record for a key
    exactly when some column filed under it, and each pivoted field of a
    record (and the payer note joined to the row's generic note) holds
    the value of the last filing for the record's key and that field,
    the empty string when there was none. *)
Theorem wide_groups_merge cfg meta payer_cols row st :
  let records := snd (Wide.row_step cfg meta payer_cols row (st, [])) in
  let filings := Rows.contributions cfg payer_cols row in
  let generic_notes := Py.strip (Py.get_or row "additional_generic_notes" EmptyString) in
  snd (Wide.collect cfg payer_cols row st) = Py.for_each filings Rows.file []
  /\ NoDup (map Wide.key_of records)
  /\ (forall k, k ∈ map Wide.key_of records <-> exists f v, (k, f, v) ∈ filings)
  /\ Forall (fun r =>
               Forall (fun f => Py.get r f
                                = Some (default EmptyString
                                          (Rows.last_value filings (Wide.key_of r) f)))
                      Rows.pivoted_fields
               /\ Py.get r "additional notes"
                  = Some (Py.join ", "
                            (List.filter Py.nonempty
                               [generic_notes;
                                default EmptyString
                                  (Rows.last_value filings (Wide.key_of r) "additional notes")])))
            records.
Proof.
  intros records filings generic_notes. subst records filings generic_notes.
  rewrite wide_row_step_rows. cbn [snd app].
  split; [apply wide_collect_groups|].
  rewrite wide_row_keys. split; [apply groups_keys_nodup|]. split; [apply groups_keys|].
  unfold Rows.wide_row. apply List.Forall_forall. intros r Hr.
  apply in_map_iff in Hr. destruct Hr as ([k fd] & <- & Hin).
  rewrite wide_record_key. cbn [fst]. split.
  - apply Forall_elem_of. intros f Hf.
    rewrite (wide_record_pivoted _ _ _ _ _ _ _ Hf), (groups_field _ _ _ _ _ _ Hin).
    reflexivity.
  - rewrite wide_record_notes, (groups_field _ _ _ _ _ _ Hin). reflexivity.
Qed.

(** Two columns of one payer and plan that file the same field: the
    later column's value is the one in the single record. *)
Example later_column_overwrites :
  map (fun r => (Wide.key_of r, Py.get r "negotiated price"))
      (fst (Wide.run cpt_only general_hospital wide_head
              {| Wide.columns := ["code|1"; "code|1|type"; "negotiated_dollar|PayerA|PlanA";
                                  "standard_charge|PayerA|PlanA|negotiated_dollar"];
                 Wide.iterrows := [[("code|1", "99213"); ("code|1|type", "CPT");
                                    ("negotiated_dollar|PayerA|PlanA", "100");
                                    ("standard_charge|PayerA|PlanA|negotiated_dollar", "120")]]
              |}))
  = [(("99213", "CPT", "PayerA", "PlanA"), Some "120")].
Proof. vm_compute. reflexivity. Qed.

(* ===================================================================== *)
(** * More on strings *)
(* ===================================================================== *)

Lemma append_cons (c : ascii) (s1 s2 : string) : String c s1 +:+ s2 = String c (s1 +:+ s2).
Proof. reflexivity. Qed.

Lemma append_nil_l (s : string) : EmptyString +:+ s = s.
Proof. reflexivity. Qed.

Lemma append_nil_r (s : string) : s +:+ EmptyString = s.
Proof. induction s as [|c s IH]; [reflexivity|]. rewrite append_cons, IH. reflexivity. Qed.

Lemma append_assoc (s1 s2 s3 : string) : (s1 +:+ s2) +:+ s3 = s1 +:+ (s2 +:+ s3).
Proof.
  induction s1 as [|c s1 IH]; [reflexivity|]. rewrite !append_cons, IH. reflexivity.
Qed.

Lemma count_append c (s1 s2 : string) : Py.count c (s1 +:+ s2) = Py.count c s1 + Py.count c s2.
Proof.
  induction s1 as [|c' s1 IH]; [reflexivity|]. rewrite append_cons. simpl. rewrite IH. lia.
Qed.

Lemma strip_idem s : Py.strip (Py.strip s) = Py.strip s.
Proof.
  unfold Py.strip. rewrite <- (lstrip_rstrip (Py.rstrip s)), rstrip_idem, lstrip_idem.
  reflexivity.
Qed.

Lemma isspace_upper_char c : Py.isspace (Py.upper_char c) = Py.isspace c.
Proof. destruct c as [[] [] [] [] [] [] [] []]; reflexivity. Qed.

Lemma upper_char_idem c : Py.upper_char (Py.upper_char c) = Py.upper_char c.
Proof. destruct c as [[] [] [] [] [] [] [] []]; reflexivity. Qed.

Lemma upper_idem s : Py.upper (Py.upper s) = Py.upper s.
Proof.
  induction s as [|c s IH]; simpl; [reflexivity|]. rewrite upper_char_idem, IH. reflexivity.
Qed.

Lemma lstrip_upper s : Py.lstrip (Py.upper s) = Py.upper (Py.lstrip s).
Proof.
  induction s as [|c s IH]; simpl; [reflexivity|]. rewrite isspace_upper_char.
  destruct (Py.isspace c); [exact IH | reflexivity].
Qed.

Lemma rstrip_upper s : Py.rstrip (Py.upper s) = Py.upper (Py.rstrip s).
Proof.
  induction s as [|c s IH]; [reflexivity|].
  change (Py.upper (String c s)) with (String (Py.upper_char c) (Py.upper s)).
  rewrite !rstrip_cons, IH, isspace_upper_char.
  destruct (Py.rstrip s); simpl; [|reflexivity].
  destruct (Py.isspace c); reflexivity.
Qed.

Lemma strip_upper s : Py.strip (Py.upper s) = Py.upper (Py.strip s).
Proof. unfold Py.strip. rewrite rstrip_upper, lstrip_upper. reflexivity. Qed.

(** The token every walker looks up is trimmed and in upper case. *)
Lemma normal_token x : Derived.normal (Py.upper (Py.strip x)).
Proof.
  split; [apply upper_idem|]. rewrite strip_upper, strip_idem. reflexivity.
Qed.

Lemma split_length s : length (Py.split Py.is_pipe s) = S (Py.count "|" s).
Proof.
  induction s as [|c s IH]; [reflexivity|].
  change (Py.count "|" (String c s))
    with ((if Ascii.eqb "|" c then 1 else 0) + Py.count "|" s).
  assert (Ascii.eqb "|" c = Py.is_pipe c) as -> by (unfold Py.is_pipe; apply Ascii.eqb_sym).
  destruct (Py.is_pipe c) eqn:Hc.
  - change (Py.split Py.is_pipe (String c s))
      with (if Py.is_pipe c then EmptyString :: Py.split Py.is_pipe s
            else match Py.split Py.is_pipe s with
                 | p :: ps => String c p :: ps
                 | [] => [String c EmptyString]
                 end).
    rewrite Hc. simpl length. rewrite IH. reflexivity.
  - rewrite (split_cons_keep _ _ _ Hc).
    destruct (Py.split Py.is_pipe s) eqn:Hs; [exfalso; exact (split_not_nil _ _ Hs)|].
    exact IH.
Qed.

Lemma pipe_not_space c : Py.is_pipe c = true -> Py.isspace c = false.
Proof. unfold Py.is_pipe. intros H. apply Ascii.eqb_eq in H. subst c. reflexivity. Qed.

Lemma hd_map_strip l : hd EmptyString (map Py.strip l) = Py.strip (hd EmptyString l).
Proof. destruct l; reflexivity. Qed.

Lemma last_map_strip l :
  List.last (map Py.strip l) EmptyString = Py.strip (List.last l EmptyString).
Proof.
  induction l as [|x l IH]; [reflexivity|]. destruct l as [|y l]; [reflexivity|].
  change (map Py.strip (x :: y :: l)) with (Py.strip x :: map Py.strip (y :: l)).
  change (List.last (Py.strip x :: map Py.strip (y :: l)) EmptyString)
    with (List.last (map Py.strip (y :: l)) EmptyString).
  exact IH.
Qed.

(* ===================================================================== *)
(** * X1: the three parts of a payer column name *)
(* ===================================================================== *)

(** X1: [parse_column_for_payer] answers three [None] exactly for a
    name with fewer than two pipes; for any other name it answers the
    first three pipe-separated segments, each trimmed (trimming them
    again changes nothing). *)
Theorem parse_column_for_payer_parts (colname : string) :
  (Wide.parse_column_for_payer colname = (None, None, None) <-> Py.count "|" colname < 2)
  /\ (2 <= Py.count "|" colname ->
      exists a b c rest,
        map Py.strip (Py.split Py.is_pipe colname) = a :: b :: c :: rest
        /\ Wide.parse_column_for_payer colname = (Some a, Some b, Some c)
        /\ Py.strip a = a /\ Py.strip b = b /\ Py.strip c = c).
Proof.
  unfold Wide.parse_column_for_payer.
  pose proof (split_length colname) as Hlen.
  assert (length (map Py.strip (Py.split Py.is_pipe colname)) = S (Py.count "|" colname)) as Hlen'
    by (rewrite length_map; exact Hlen).
  destruct (map Py.strip (Py.split Py.is_pipe colname)) as [|a [|b [|c rest]]] eqn:Hparts;
    simpl in Hlen'; simpl.
  - lia.
  - split; [split; [lia | reflexivity]|lia].
  - split; [split; [lia | reflexivity]|lia].
  - assert (Forall (fun p => Py.strip p = p) (a :: b :: c :: rest)) as Hstrip.
    { rewrite <- Hparts. apply Forall_map_intro. intros p. apply strip_idem. }
    split.
    + split; [discriminate | lia].
    + intros _. exists a, b, c, rest.
      inversion Hstrip as [|? ? Ha Hs1]; subst. inversion Hs1 as [|? ? Hb Hs2]; subst.
      inversion Hs2 as [|? ? Hc _]; subst. auto.
Qed.

Lemma parse_column_for_payer_parts_witness :
  2 <= Py.count "|" " negotiated_dollar | Payer A |Plan A"
  /\ exists a b c rest,
       map Py.strip (Py.split Py.is_pipe " negotiated_dollar | Payer A |Plan A")
       = a :: b :: c :: rest
       /\ Wide.parse_column_for_payer " negotiated_dollar | Payer A |Plan A"
          = (Some a, Some b, Some c)
       /\ Py.strip a = a /\ Py.strip b = b /\ Py.strip c = c.
Proof.
  split; [vm_compute; lia|].
  apply (proj2 (parse_column_for_payer_parts " negotiated_dollar | Payer A |Plan A")).
  vm_compute. lia.
Defined.

(* ===================================================================== *)
(** * X2: a selected payer column is one the row loop understands *)
(* ===================================================================== *)

Lemma prefixes_nonempty key mapped_field :
  Py.get Wide.STANDARD_CHARGE_PREFIXES key = Some mapped_field ->
  Py.nonempty mapped_field = true.
Proof.
  unfold Wide.STANDARD_CHARGE_PREFIXES. cbn [Py.get].
  repeat (case_decide; [intros Heq; injection Heq as <-; reflexivity|]).
  discriminate.
Qed.

Lemma known_field_get key :
  Wide.known_field key = true ->
  exists mapped_field, Py.get Wide.STANDARD_CHARGE_PREFIXES key = Some mapped_field.
Proof.
  unfold Wide.known_field.
  destruct (Py.get Wide.STANDARD_CHARGE_PREFIXES key) as [m|]; [eauto | discriminate].
Qed.

(** The field key the comprehension of [payer_cols] tests is the one the
    row loop looks up. *)
Lemma selected_field_key col :
  Wide.is_payer_col col = true ->
  (length (map Py.strip (Py.split Py.is_pipe col)) <? 3)%nat = false
  /\ Wide.known_field
       (if (length (map Py.strip (Py.split Py.is_pipe col)) =? 3)%nat
        then hd EmptyString (map Py.strip (Py.split Py.is_pipe col))
        else List.last (map Py.strip (Py.split Py.is_pipe col)) EmptyString)
     = true.
Proof.
  unfold Wide.is_payer_col. intros Hsel.
  rewrite length_map, split_length.
  rewrite hd_map_strip, last_map_strip.
  rewrite <- (hd_map_strip (Py.split Py.is_pipe col)), <- (last_map_strip (Py.split Py.is_pipe col)).
  rewrite <- (map_strip_split_strip _ pipe_not_space col).
  rewrite hd_map_strip, last_map_strip.
  apply andb_true_iff in Hsel. destruct Hsel as [Hge Hsel].
  apply Nat.leb_le in Hge. split; [apply Nat.ltb_ge; lia|].
  apply orb_true_iff in Hsel. destruct Hsel as [Hsel|Hsel];
    apply andb_true_iff in Hsel; destruct Hsel as [Hn Hk].
  - apply Nat.eqb_eq in Hn. rewrite Hn. exact Hk.
  - apply Nat.ltb_lt in Hn.
    destruct (S (Py.count "|" col) =? 3)%nat eqn:H3; [apply Nat.eqb_eq in H3; lia|].
    exact Hk.
Qed.

(** X2: for a column the [payer_cols] comprehension selects, the two
    first guards of the row loop (fewer than three parts, unknown field
    key) never fire: the column has a known canonical field and a payer
    and plan segment, and it contributes to a row exactly when its payer
    segment and its cell in that row are not empty. *)
Theorem selected_column_contributes (col : string) (selected : Wide.is_payer_col col = true) :
  exists mapped_field payer_name plan_name,
    In mapped_field (map snd Wide.STANDARD_CHARGE_PREFIXES)
    /\ Wide.parse_column_for_payer col
       = (Some (hd EmptyString (map Py.strip (Py.split Py.is_pipe col))),
          Some payer_name, Some plan_name)
    /\ forall row,
         Wide.column_parts row col
         = if Py.nonempty payer_name && Py.nonempty (Py.get_or row col EmptyString)
           then Some (mapped_field, payer_name, plan_name, Py.get_or row col EmptyString)
           else None.
Proof.
  destruct (selected_field_key col selected) as [Hlen Hknown].
  apply known_field_get in Hknown. destruct Hknown as [mapped_field Hmapped].
  pose proof (prefixes_nonempty _ _ Hmapped) as Hne.
  assert (exists a payer_name plan_name rest,
             map Py.strip (Py.split Py.is_pipe col) = a :: payer_name :: plan_name :: rest)
    as (a & payer_name & plan_name & rest & Hparts).
  { apply Nat.ltb_ge in Hlen.
    destruct (map Py.strip (Py.split Py.is_pipe col)) as [|a [|b [|c rest]]];
      simpl in Hlen; try lia. eauto. }
  exists mapped_field, payer_name, plan_name. split; [|split].
  - clear -Hmapped. revert Hmapped.
    unfold Wide.STANDARD_CHARGE_PREFIXES. cbn [Py.get map snd].
    repeat (case_decide; [intros Heq; injection Heq as <-; simpl; tauto|]).
    discriminate.
  - unfold Wide.parse_column_for_payer. rewrite Hlen, Hparts. reflexivity.
  - intros row. unfold Wide.column_parts, Wide.parse_column_for_payer.
    rewrite Hlen, Hmapped, Hne. cbn [negb]. rewrite Hparts. cbn [lookup list_lookup].
    simpl. destruct (Py.nonempty payer_name); [|reflexivity]. simpl.
    destruct (decide (Py.get_or row col EmptyString = EmptyString)) as [->|Hv]; [reflexivity|].
    destruct (Py.get_or row col EmptyString); [contradiction | reflexivity].
Qed.

Lemma selected_column_contributes_witness :
  Wide.is_payer_col "standard_charge|Aetna|PPO|negotiated_dollar" = true
  /\ exists mapped_field payer_name plan_name,
       In mapped_field (map snd Wide.STANDARD_CHARGE_PREFIXES)
       /\ Wide.parse_column_for_payer "standard_charge|Aetna|PPO|negotiated_dollar"
          = (Some (hd EmptyString
                     (map Py.strip
                        (Py.split Py.is_pipe "standard_charge|Aetna|PPO|negotiated_dollar"))),
             Some payer_name, Some plan_name)
       /\ forall row,
            Wide.column_parts row "standard_charge|Aetna|PPO|negotiated_dollar"
            = if Py.nonempty payer_name
                 && Py.nonempty
                      (Py.get_or row "standard_charge|Aetna|PPO|negotiated_dollar" EmptyString)
              then Some (mapped_field, payer_name, plan_name,
                         Py.get_or row "standard_charge|Aetna|PPO|negotiated_dollar" EmptyString)
              else None.
Proof.
  split; [reflexivity|].
  exact (selected_column_contributes "standard_charge|Aetna|PPO|negotiated_dollar" eq_refl).
Defined.

(* ===================================================================== *)
(** * X3: a wide row without a filing is dropped *)
(* ===================================================================== *)

Lemma column_parts_empty_cell row col :
  Py.get_or row col EmptyString = EmptyString -> Wide.column_parts row col = None.
Proof.
  intros Hv. unfold Wide.column_parts. rewrite Hv.
  destruct (length _ <? 3)%nat; [reflexivity|].
  destruct (Py.get Wide.STANDARD_CHARGE_PREFIXES _) as [m|]; [|reflexivity].
  destruct (negb (Py.nonempty m)); [reflexivity|].
  destruct (Wide.parse_column_for_payer col) as [[? [p|]] [q|]]; try reflexivity.
  destruct (negb (Py.nonempty p)); reflexivity.
Qed.

Lemma flat_map_nil {A B} (f : A -> list B) (l : list A) :
  Forall (fun a => f a = []) l -> flat_map f l = [].
Proof. induction 1 as [|a l Ha _ IH]; simpl; [reflexivity|]. rewrite Ha, IH. reflexivity. Qed.

Lemma contributions_without_value cfg payer_cols row :
  Forall (fun col => Py.get_or row col EmptyString = EmptyString) payer_cols ->
  Rows.contributions cfg payer_cols row = [].
Proof.
  intros H. unfold Rows.contributions. apply flat_map_nil.
  eapply Forall_impl; [exact H|]. intros col Hcol. unfold Rows.column_contributions.
  rewrite (column_parts_empty_cell _ _ Hcol). reflexivity.
Qed.

Lemma contributions_without_slot cfg payer_cols row :
  Forall (fun i => Rows.accepted_slot cfg row i = None) [1; 2; 3; 4] ->
  Rows.contributions cfg payer_cols row = [].
Proof.
  intros H. unfold Rows.contributions. apply flat_map_nil.
  apply Forall_forall. intros col _. unfold Rows.column_contributions.
  destruct (Wide.column_parts row col) as [[[[mapped_field payer_name] plan_name] value]|];
    [|reflexivity].
  apply flat_map_nil. eapply Forall_impl; [exact H|]. intros i Hi. rewrite Hi. reflexivity.
Qed.

(** X3: a body row of the wide table in which every selected payer
    column is empty, or in which no code slot is filled and allowed,
    yields no record at all: its description, gross charge and the other
    shared cells are written nowhere. *)
Theorem wide_row_without_filing_is_dropped cfg meta payer_cols row st
    (nothing_filed :
       Forall (fun col => Py.get_or row col EmptyString = EmptyString) payer_cols
       \/ Forall (fun i => Rows.accepted_slot cfg row i = None) [1; 2; 3; 4]) :
  snd (Wide.row_step cfg meta payer_cols row (st, [])) = []
  /\ Audit.FIELD_PRESENCE_LOG (fst (Wide.row_step cfg meta payer_cols row (st, [])))
     = Audit.FIELD_PRESENCE_LOG st.
Proof.
  assert (Rows.contributions cfg payer_cols row = []) as Hcs.
  { destruct nothing_filed as [H|H];
      [apply contributions_without_value | apply contributions_without_slot]; exact H. }
  split.
  - rewrite wide_row_step_rows. unfold Rows.wide_row, Rows.groups. rewrite Hcs. reflexivity.
  - unfold Wide.row_step. rewrite wide_collect_groups. unfold Rows.groups. rewrite Hcs.
    cbn [Py.for_each fold_left fst]. rewrite wide_collect_fp. reflexivity.
Qed.

Lemma wide_row_without_filing_is_dropped_witness :
  (Forall (fun col => Py.get_or [("description", "Office visit"); ("code|1", "99213");
                                 ("code|1|type", "CPT"); ("standard_charge|gross", "150");
                                 ("standard_charge|Aetna|PPO|negotiated_dollar", EmptyString)]
                        col EmptyString = EmptyString)
          ["standard_charge|Aetna|PPO|negotiated_dollar"]
   \/ Forall (fun i => Rows.accepted_slot cpt_only
                         [("description", "Office visit"); ("code|1", "99213");
                          ("code|1|type", "CPT"); ("standard_charge|gross", "150");
                          ("standard_charge|Aetna|PPO|negotiated_dollar", EmptyString)] i = None)
             [1; 2; 3; 4])
  /\ snd (Wide.row_step cpt_only general_hospital
            ["standard_charge|Aetna|PPO|negotiated_dollar"]
            [("description", "Office visit"); ("code|1", "99213");
             ("code|1|type", "CPT"); ("standard_charge|gross", "150");
             ("standard_charge|Aetna|PPO|negotiated_dollar", EmptyString)]
            (Audit.fresh ∅, [])) = [].
Proof.
  assert (Forall (fun col => Py.get_or [("description", "Office visit"); ("code|1", "99213");
                                        ("code|1|type", "CPT"); ("standard_charge|gross", "150");
                                        ("standard_charge|Aetna|PPO|negotiated_dollar", EmptyString)]
                               col EmptyString = EmptyString)
                 ["standard_charge|Aetna|PPO|negotiated_dollar"]) as H
    by (repeat constructor).
  split; [left; exact H|].
  exact (proj1 (wide_row_without_filing_is_dropped cpt_only general_hospital
                  ["standard_charge|Aetna|PPO|negotiated_dollar"] _ (Audit.fresh ∅)
                  (or_introl H))).
Defined.

(* ===================================================================== *)
(** * X4, X5: the payer cell of the tall walker *)
(* ===================================================================== *)

Lemma count_cons_zero c c' s :
  Py.count c (String c' s) = 0 -> Ascii.eqb c c' = false /\ Py.count c s = 0.
Proof.
  change (Py.count c (String c' s)) with ((if Ascii.eqb c c' then 1 else 0) + Py.count c s).
  destruct (Ascii.eqb c c'); [discriminate|]. auto.
Qed.

Lemma split_absent c s : Py.count c s = 0 -> Py.split (Ascii.eqb c) s = [s].
Proof.
  induction s as [|c' s IH]; [reflexivity|]. intros H.
  apply count_cons_zero in H. destruct H as [Hc Hs].
  rewrite (split_cons_keep _ _ _ Hc), (IH Hs). reflexivity.
Qed.

Lemma until_close_absent s : Py.count "]" s = 0 -> Tall.until_close s = None.
Proof.
  induction s as [|c s IH]; [reflexivity|]. intros H.
  apply count_cons_zero in H. destruct H as [Hc Hs]. simpl.
  rewrite Ascii.eqb_sym, Hc, (IH Hs). reflexivity.
Qed.

Lemma until_close_found g2 rest :
  Py.count "]" g2 = 0 -> Tall.until_close (g2 +:+ String "]" rest) = Some g2.
Proof.
  induction g2 as [|c s IH]; [reflexivity|]. intros H.
  apply count_cons_zero in H. destruct H as [Hc Hs]. rewrite append_cons. simpl.
  rewrite Ascii.eqb_sym, Hc, (IH Hs). reflexivity.
Qed.

Lemma bracket_match_no_open s : Py.count "[" s = 0 -> Tall.bracket_match s = None.
Proof.
  induction s as [|c s IH]; [reflexivity|]. intros H.
  apply count_cons_zero in H. destruct H as [Hc Hs]. simpl.
  rewrite (IH Hs), Ascii.eqb_sym, Hc. reflexivity.
Qed.

Lemma bracket_match_no_close s : Py.count "]" s = 0 -> Tall.bracket_match s = None.
Proof.
  induction s as [|c s IH]; [reflexivity|]. intros H.
  apply count_cons_zero in H. destruct H as [Hc Hs]. simpl.
  rewrite (IH Hs), (until_close_absent _ Hs). destruct (Ascii.eqb c "["); reflexivity.
Qed.

(** The greedy first group takes whatever precedes a match. *)
Lemma bracket_match_prefix g0 s g1 g2 :
  Tall.bracket_match s = Some (g1, g2) -> Tall.bracket_match (g0 +:+ s) = Some (g0 +:+ g1, g2).
Proof.
  intros H. induction g0 as [|c g0 IH]; [exact H|].
  rewrite !append_cons. simpl. rewrite IH. reflexivity.
Qed.

Lemma search_one_line payer :
  Py.count Tall.newline payer = 0 -> Tall.search payer = Tall.bracket_match payer.
Proof.
  intros H. unfold Tall.search. rewrite (split_absent _ _ H). simpl.
  destruct (Tall.bracket_match payer); reflexivity.
Qed.

Lemma lines_without (sep : ascii -> bool) c s :
  Py.count c s = 0 -> Forall (fun line => Py.count c line = 0) (Py.split sep s).
Proof.
  induction s as [|c' s IH]; intros H.
  - repeat constructor.
  - apply count_cons_zero in H. destruct H as [Hc Hs]. specialize (IH Hs).
    destruct (sep c') eqn:Hsep.
    + change (Py.split sep (String c' s))
        with (if sep c' then EmptyString :: Py.split sep s
              else match Py.split sep s with
                   | p :: ps => String c' p :: ps
                   | [] => [String c' EmptyString]
                   end).
      rewrite Hsep. constructor; [reflexivity | exact IH].
    + rewrite (split_cons_keep _ _ _ Hsep).
      destruct (Py.split sep s) as [|p ps]; [constructor|].
      inversion IH as [|? ? Hp Hps]; subst. constructor; [|exact Hps].
      change (Py.count c (String c' p)) with ((if Ascii.eqb c c' then 1 else 0) + Py.count c p).
      rewrite Hc, Hp. reflexivity.
Qed.

Lemma search_no_match payer :
  Forall (fun line => Tall.bracket_match line = None)
         (Py.split (Ascii.eqb Tall.newline) payer) ->
  Tall.search payer = None.
Proof.
  unfold Tall.search. induction 1 as [|line lines Hline _ IH]; [reflexivity|].
  simpl. rewrite Hline. exact IH.
Qed.

(** X4: a payer cell without an opening bracket, or without a closing
    one, is taken whole as the payer name, spaces around it included,
    and the payer id is empty. *)
Theorem payer_without_brackets (payer : string)
    (no_pair : Py.count "[" payer = 0 \/ Py.count "]" payer = 0) :
  Tall.payer_identity payer = (payer, EmptyString).
Proof.
  unfold Tall.payer_identity. rewrite search_no_match; [reflexivity|].
  destruct no_pair as [H|H].
  - eapply Forall_impl; [exact (lines_without _ _ _ H)|]. apply bracket_match_no_open.
  - eapply Forall_impl; [exact (lines_without _ _ _ H)|]. apply bracket_match_no_close.
Qed.

Lemma payer_without_brackets_witness :
  (Py.count "[" " Blue Cross " = 0 \/ Py.count "]" " Blue Cross " = 0)
  /\ Tall.payer_identity " Blue Cross " = (" Blue Cross ", EmptyString).
Proof.
  split; [left; reflexivity|].
  exact (payer_without_brackets " Blue Cross " (or_introl eq_refl)).
Defined.

(** X5: a payer cell of the form name, opening bracket, id, closing
    bracket, rest, all on one line, with no bracket inside the id and no
    opening bracket in the rest, gives the trimmed name and the trimmed
    id; the rest after the closing bracket is dropped. *)
Theorem payer_name_and_id (name id rest : string)
    (name_one_line : Py.count Tall.newline name = 0)
    (id_one_line : Py.count Tall.newline id = 0)
    (id_no_open : Py.count "[" id = 0)
    (id_no_close : Py.count "]" id = 0)
    (rest_one_line : Py.count Tall.newline rest = 0)
    (rest_no_open : Py.count "[" rest = 0) :
  Tall.payer_identity (name +:+ String "[" (id +:+ String "]" rest))
  = (Py.strip name, Py.strip id).
Proof.
  unfold Tall.payer_identity. rewrite search_one_line.
  - rewrite (bracket_match_prefix name _ EmptyString id).
    + rewrite append_nil_r. reflexivity.
    + simpl. rewrite bracket_match_no_open.
      * rewrite (until_close_found _ _ id_no_close). reflexivity.
      * rewrite count_append, id_no_open. simpl. exact rest_no_open.
  - rewrite count_append, name_one_line. simpl.
    rewrite count_append, id_one_line. simpl. exact rest_one_line.
Qed.

Lemma payer_name_and_id_witness :
  Py.count Tall.newline "Aetna Health " = 0
  /\ Py.count Tall.newline " 60054 " = 0
  /\ Py.count "[" " 60054 " = 0
  /\ Py.count "]" " 60054 " = 0
  /\ Py.count Tall.newline " (PPO)" = 0
  /\ Py.count "[" " (PPO)" = 0
  /\ Tall.payer_identity ("Aetna Health " +:+ String "[" (" 60054 " +:+ String "]" " (PPO)"))
     = ("Aetna Health", "60054").
Proof.
  repeat (split; [reflexivity|]).
  exact (payer_name_and_id "Aetna Health " " 60054 " " (PPO)"
           eq_refl eq_refl eq_refl eq_refl eq_refl eq_refl).
Defined.

(* ===================================================================== *)
(** * X6: the double quotes of a written line *)
(* ===================================================================== *)

Lemma count_replace_self c by_ s :
  Py.count c by_ = 0 -> Py.count c (Py.replace c by_ s) = 0.
Proof.
  intros Hby. induction s as [|c' s IH]; [reflexivity|]. simpl.
  destruct (Ascii.eqb c c') eqn:Hc.
  - rewrite count_append, Hby, IH. reflexivity.
  - change (Py.count c (String c' (Py.replace c by_ s)))
      with ((if Ascii.eqb c c' then 1 else 0) + Py.count c (Py.replace c by_ s)).
    rewrite Hc, IH. reflexivity.
Qed.

Lemma count_write_cell value : Py.count Tall.dquote (Tall.write_cell value) = 2.
Proof.
  unfold Tall.write_cell.
  change (Py.count Tall.dquote (String Tall.dquote ?s)) with (1 + Py.count Tall.dquote s).
  rewrite count_append, count_replace_self by reflexivity. reflexivity.
Qed.

Lemma count_concat c sep l :
  Py.count c sep = 0 -> Py.count c (String.concat sep l) = sum_list (map (Py.count c) l).
Proof.
  intros Hsep. induction l as [|x l IH]; [reflexivity|].
  destruct l as [|y l].
  - simpl. lia.
  - change (String.concat sep (x :: y :: l)) with (x +:+ sep +:+ String.concat sep (y :: l)).
    rewrite !count_append, Hsep, IH. reflexivity.
Qed.

(** X6: whatever a record holds, the line the tall walker writes for it
    has exactly two double quotes per column, the delimiters of its 22
    cells: a written cell is its value between two double quotes, with
    no double quote in between, and with the value unchanged when the
    value has none. *)
Theorem written_line_quotes :
  (forall value, exists inner,
      Tall.write_cell value = String Tall.dquote (inner +:+ String Tall.dquote EmptyString)
      /\ Py.count Tall.dquote inner = 0
      /\ (Py.count Tall.dquote value = 0 -> inner = value))
  /\ forall r : Tall.Row, Py.count Tall.dquote (Tall.write_line r) = 44.
Proof.
  split.
  - intros value. exists (Py.replace Tall.dquote "''" value). split; [reflexivity|]. split.
    + apply count_replace_self. reflexivity.
    + apply replace_absent.
  - intros r. unfold Tall.write_line, Py.join.
    rewrite count_append, count_concat by reflexivity. rewrite map_map.
    rewrite (map_ext _ (fun _ => 2)) by (intros col; apply count_write_cell).
    reflexivity.
Qed.

(* ===================================================================== *)
(** * X7: the records of one tall row *)
(* ===================================================================== *)

Lemma output_row_shared meta row code1 t1 code2 t2 payer_name payer_id notes modifiers_raw h :
  h <> "code" -> h <> "code type" ->
  Py.get (Tall.output_row meta row code1 t1 payer_name payer_id notes modifiers_raw) h
  = Py.get (Tall.output_row meta row code2 t2 payer_name payer_id notes modifiers_raw) h.
Proof.
  intros Hcode Htype. unfold Tall.output_row. cbn [Py.get].
  repeat (case_decide; [try reflexivity; try contradiction|]). reflexivity.
Qed.

Lemma tall_row_members cfg meta row r :
  In r (Rows.tall_row cfg meta row) ->
  exists i code t,
    In i [1; 2; 3; 4]
    /\ Rows.accepted_slot cfg row i = Some (code, t)
    /\ r = Tall.output_row meta row code t
             (fst (Tall.payer_identity (Py.get_or row "payer_name" EmptyString)))
             (snd (Tall.payer_identity (Py.get_or row "payer_name" EmptyString)))
             (Py.get_or row "additional_generic_notes" EmptyString)
             (Py.strip (Py.get_or row "modifiers" EmptyString)).
Proof.
  unfold Rows.tall_row.
  destruct (Tall.payer_identity _) as [payer_name payer_id]. intros Hr.
  apply in_flat_map in Hr. destruct Hr as (i & Hi & Hr).
  destruct (Rows.accepted_slot cfg row i) as [[code t]|] eqn:Hslot; [|destruct Hr].
  destruct Hr as [<-|[]]. exists i, code, t. auto.
Qed.

Lemma flat_map_length_le {A B} (f : A -> list B) (l : list A) (n : nat) :
  (forall a, length (f a) <= n) -> length (flat_map f l) <= n * length l.
Proof.
  intros Hf. induction l as [|a l IH]; simpl; [lia|].
  rewrite length_app. specialize (Hf a). lia.
Qed.

(** X7: one body row of the tall table yields at most four records, one
    per code slot that is filled and allowed; they differ in code and
    code type only, every other field is the same in all of them; and a
    slot whose code or type cell is blank is passed over without any
    counter being touched. *)
Theorem tall_row_records cfg meta row st :
  length (snd (Tall.row_step cfg meta row (st, []))) <= 4
  /\ Forall (fun r1 =>
               Forall (fun r2 =>
                         forall h, h <> "code" -> h <> "code type" -> Py.get r1 h = Py.get r2 h)
                      (snd (Tall.row_step cfg meta row (st, []))))
            (snd (Tall.row_step cfg meta row (st, [])))
  /\ forall i payer_name payer_id notes modifiers_raw s,
       Py.nonempty (Py.strip (Py.get_or row ("code|" +:+ pretty i) EmptyString)) = false
       \/ Py.nonempty
            (Py.upper (Py.strip (Py.get_or row ("code|" +:+ pretty i +:+ "|type") EmptyString)))
          = false ->
       Tall.slot_step cfg meta row payer_name payer_id notes modifiers_raw i s = s.
Proof.
  rewrite tall_row_step_rows. cbn [snd app]. split; [|split].
  - unfold Rows.tall_row. destruct (Tall.payer_identity _) as [payer_name payer_id].
    etrans; [apply (flat_map_length_le _ _ 1)|reflexivity].
    intros i. destruct (Rows.accepted_slot cfg row i) as [[code t]|]; simpl; lia.
  - apply List.Forall_forall. intros r1 Hr1. apply List.Forall_forall. intros r2 Hr2.
    apply tall_row_members in Hr1. apply tall_row_members in Hr2.
    destruct Hr1 as (i1 & c1 & t1 & _ & _ & ->). destruct Hr2 as (i2 & c2 & t2 & _ & _ & ->).
    intros h Hcode Htype. apply output_row_shared; assumption.
  - intros i payer_name payer_id notes modifiers_raw s Hblank. unfold Tall.slot_step.
    destruct Hblank as [-> | ->]; [reflexivity|]. rewrite orb_true_r. reflexivity.
Qed.

(* ===================================================================== *)
(** * What the allow-list check logs *)
(* ===================================================================== *)

Section CheckLog.
Context {M : Type}.
Implicit Types (st : Audit.Accumulators M).

Lemma normalize_unknown cfg raw st :
  Audit.UNKNOWN_CODE_TYPES (fst (Audit.normalize_code_type cfg raw st))
  = Derived.unknown_after cfg raw (Audit.UNKNOWN_CODE_TYPES st).
Proof.
  unfold Audit.normalize_code_type, Derived.unknown_after, Audit.accepts.
  destruct (code_type_map cfg !! raw) as [t|]; [|reflexivity].
  destruct (decide (t ∈ allowed_code_types cfg)); reflexivity.
Qed.

Lemma normalize_mappings cfg raw st :
  Audit.CODE_TYPE_MAPPINGS_USED (fst (Audit.normalize_code_type cfg raw st))
  = Audit.add_mapping raw (code_type_map cfg !! raw) (Audit.CODE_TYPE_MAPPINGS_USED st).
Proof.
  unfold Audit.normalize_code_type.
  destruct (code_type_map cfg !! raw) as [t|]; [|reflexivity].
  destruct (decide (t ∈ allowed_code_types cfg)); reflexivity.
Qed.

Lemma normalize_modifier_counts cfg raw st :
  Audit.MODIFIER_COUNTS (fst (Audit.normalize_code_type cfg raw st)) = Audit.MODIFIER_COUNTS st.
Proof.
  unfold Audit.normalize_code_type.
  destruct (code_type_map cfg !! raw) as [t|]; [|reflexivity].
  destruct (decide (t ∈ allowed_code_types cfg)); reflexivity.
Qed.

End CheckLog.

(** A property of the unrecognized counters and of the mappings used
    that every passage through the check keeps is kept by a whole call
    of each walker, and read by its report. *)
Section LogInvariant.
Variable cfg : ExtractConfig.
Variable P : gmap string nat -> gmap string (gset (option string)) -> Prop.
Hypothesis check_keeps : forall x u mp,
  P u mp ->
  P (Derived.unknown_after cfg (Py.upper (Py.strip x)) u)
    (Audit.add_mapping (Py.upper (Py.strip x))
       (code_type_map cfg !! Py.upper (Py.strip x)) mp).

Let holds {M} (st : Audit.Accumulators M) : Prop :=
  P (Audit.UNKNOWN_CODE_TYPES st) (Audit.CODE_TYPE_MAPPINGS_USED st).

Lemma normalize_holds {M} x (st : Audit.Accumulators M) :
  holds st -> holds (fst (Audit.normalize_code_type cfg (Py.upper (Py.strip x)) st)).
Proof.
  unfold holds. rewrite normalize_unknown, normalize_mappings. apply check_keeps.
Qed.

Lemma json_walk_holds meta root (s : JsonParser.State) :
  holds (fst s) -> holds (fst (JsonParser.walk cfg meta root s)).
Proof.
  intros Hs. unfold JsonParser.walk.
  apply (for_each_inv (fun s : JsonParser.State => holds (fst s))).
  - apply (for_each_inv (fun s : JsonParser.State => holds (fst s))); [exact Hs|].
    intros it s1 _ Hs1. unfold JsonParser.item_step.
    apply (for_each_inv (fun s : JsonParser.State => holds (fst s))); [exact Hs1|].
    intros ce s2 _ Hs2. unfold JsonParser.code_entry_step.
    pose proof (normalize_holds (Py.str (Py.get_or ce "type" (Py.PStr EmptyString)))
                  (fst s2) Hs2) as Hn.
    destruct (Audit.normalize_code_type cfg _ (fst s2)) as [st' [t|]]; [|exact Hn].
    apply (for_each_inv (fun s : JsonParser.State => holds (fst s))); [exact Hn|].
    intros ch s3 _ Hs3. unfold JsonParser.charge_step.
    apply (for_each_inv (fun s : JsonParser.State => holds (fst s))); [exact Hs3|].
    intros payer s4 _ Hs4. exact Hs4.
  - intros m s1 _ Hs1. unfold JsonParser.modifier_step.
    apply (for_each_inv (fun s : JsonParser.State => holds (fst s))); [exact Hs1|].
    intros payer s2 _ Hs2. exact Hs2.
Qed.

Lemma tall_walk_holds meta body (s : Tall.State) :
  holds (fst s) -> holds (fst (Py.for_each body (Tall.row_step cfg meta) s)).
Proof.
  intros Hs. apply (for_each_inv (fun s : Tall.State => holds (fst s))); [exact Hs|].
  intros row s1 _ Hs1. unfold Tall.row_step.
  destruct (Tall.payer_identity _) as [payer_name payer_id].
  apply (for_each_inv (fun s : Tall.State => holds (fst s))); [exact Hs1|].
  intros i s2 _ Hs2. unfold Tall.slot_step.
  destruct (negb _ || negb _); [exact Hs2|].
  pose proof (normalize_holds
                (Py.get_or row ("code|" +:+ pretty i +:+ "|type") EmptyString) (fst s2) Hs2) as Hn.
  destruct (Audit.normalize_code_type cfg _ (fst s2)) as [st' [t|]]; exact Hn.
Qed.

Lemma wide_walk_holds meta payer_cols rows (s : Wide.State) :
  holds (fst s) -> holds (fst (Py.for_each rows (Wide.row_step cfg meta payer_cols) s)).
Proof.
  intros Hs. apply (for_each_inv (fun s : Wide.State => holds (fst s))); [exact Hs|].
  intros row s1 _ Hs1. unfold Wide.row_step.
  apply (for_each_inv (fun s : Wide.State => holds (fst s))); [|intros g s2 _ Hs2; exact Hs2].
  cbn [fst]. unfold Wide.collect.
  apply (for_each_inv (fun s : Wide.Acc * Wide.PayerRowMap => holds (fst s))); [exact Hs1|].
  intros col s2 _ Hs2. unfold Wide.col_step.
  destruct (Wide.column_parts row col) as [[[[mapped_field payer_name] plan_name] value]|];
    [|exact Hs2].
  apply (for_each_inv (fun s : Wide.Acc * Wide.PayerRowMap => holds (fst s))); [exact Hs2|].
  intros i s3 _ Hs3. unfold Wide.slot_step.
  destruct (negb _ || negb _); [exact Hs3|].
  pose proof (normalize_holds
                (Py.get_or row ("code|" +:+ pretty i +:+ "|type") EmptyString) (fst s3) Hs3) as Hn.
  destruct (Audit.normalize_code_type cfg _ (fst s3)) as [st' [t|]]; exact Hn.
Qed.

Hypothesis starts : P ∅ ∅.

Lemma json_run_holds meta root :
  P (Audit.unrecognized_code_types (JsonParser.report (snd (JsonParser.run cfg meta root))))
    (Audit.code_type_normalizations_used
       (JsonParser.report (snd (JsonParser.run cfg meta root)))).
Proof. apply (json_walk_holds meta root (Audit.fresh [], [])). exact starts. Qed.

Lemma tall_run_holds meta head body :
  P (Audit.unrecognized_code_types (Tall.report (snd (Tall.run cfg meta head body))))
    (Audit.code_type_normalizations_used (Tall.report (snd (Tall.run cfg meta head body)))).
Proof. apply (tall_walk_holds meta body (Audit.fresh ∅, [])). exact starts. Qed.

Lemma wide_run_holds meta head df :
  P (Audit.unrecognized_code_types (Wide.report (snd (Wide.run cfg meta head df))))
    (Audit.code_type_normalizations_used (Wide.report (snd (Wide.run cfg meta head df)))).
Proof.
  apply (wide_walk_holds meta (Wide.payer_cols (Wide.columns df)) (Wide.iterrows df)
           (Audit.fresh ∅, [])).
  exact starts.
Qed.

End LogInvariant.

(* ===================================================================== *)
(** * X9: allowed and unrecognized exclude each other *)
(* ===================================================================== *)

(** X9: in the report of a run of any of the three walkers, a raw code
    type the configuration maps into the allowed set has no entry among
    the unrecognized code types. *)
Theorem accepted_is_never_unrecognized cfg meta raw :
  Audit.accepts cfg raw <> None ->
  (forall root,
      Audit.unrecognized_code_types (JsonParser.report (snd (JsonParser.run cfg meta root)))
      !! raw = None)
  /\ (forall head body,
         Audit.unrecognized_code_types (Tall.report (snd (Tall.run cfg meta head body)))
         !! raw = None)
  /\ (forall head df,
         Audit.unrecognized_code_types (Wide.report (snd (Wide.run cfg meta head df)))
         !! raw = None).
Proof.
  intros Hraw.
  assert (forall x u (mp : gmap string (gset (option string))),
             u !! raw = None ->
             Derived.unknown_after cfg (Py.upper (Py.strip x)) u !! raw = None) as Hstep.
  { intros x u mp Hu. unfold Derived.unknown_after.
    destruct (Audit.accepts cfg (Py.upper (Py.strip x))) eqn:Hx; [exact Hu|].
    unfold Audit.bump. rewrite lookup_insert_ne; [exact Hu|].
    intros Heq. rewrite Heq in Hx. contradiction. }
  split; [|split]; intros.
  - apply (json_run_holds cfg (fun u _ => u !! raw = None)); [|apply lookup_empty].
    intros x u mp. apply (Hstep x u mp).
  - apply (tall_run_holds cfg (fun u _ => u !! raw = None)); [|apply lookup_empty].
    intros x u mp. apply (Hstep x u mp).
  - apply (wide_run_holds cfg (fun u _ => u !! raw = None)); [|apply lookup_empty].
    intros x u mp. apply (Hstep x u mp).
Qed.

Lemma accepted_is_never_unrecognized_witness :
  Audit.accepts cpt_only "CPT" <> None
  /\ Audit.unrecognized_code_types
       (Tall.report (snd (Tall.run cpt_only general_hospital tall_head
                            [tall_row_with "Office visit"])))
     !! "CPT" = None.
Proof.
  assert (Audit.accepts cpt_only "CPT" <> None) as H by (vm_compute; discriminate).
  split; [exact H|].
  exact (proj1 (proj2 (accepted_is_never_unrecognized cpt_only general_hospital "CPT" H))
           tall_head [tall_row_with "Office visit"]).
Defined.

(* ===================================================================== *)
(** * X10: one canonical value per raw token *)
(* ===================================================================== *)

Lemma add_mapping_single_valued cfg raw mp :
  Derived.single_valued cfg mp ->
  Derived.single_valued cfg (Audit.add_mapping raw (code_type_map cfg !! raw) mp).
Proof.
  intros Hmp r values. unfold Audit.add_mapping. rewrite lookup_insert.
  destruct (decide (raw = r)) as [->|Hne].
  - intros H. injection H as <-. destruct (mp !! r) as [old|] eqn:Hold; simpl.
    + rewrite (Hmp _ _ Hold). apply union_idemp_L.
    + apply right_id_L. apply _.
  - apply Hmp.
Qed.

(** X10: in the report of a run of any of the three walkers, the set of
    normalizations recorded for a raw code type has exactly one member,
    the value the configured map gives for it ([None] when the map has
    no such key): within one run a raw token never shows two canonical
    types. *)
Theorem normalizations_used_single_valued cfg meta :
  (forall root,
      Derived.single_valued cfg
        (Audit.code_type_normalizations_used
           (JsonParser.report (snd (JsonParser.run cfg meta root)))))
  /\ (forall head body,
         Derived.single_valued cfg
           (Audit.code_type_normalizations_used
              (Tall.report (snd (Tall.run cfg meta head body)))))
  /\ (forall head df,
         Derived.single_valued cfg
           (Audit.code_type_normalizations_used
              (Wide.report (snd (Wide.run cfg meta head df))))).
Proof.
  assert (Derived.single_valued cfg ∅) as H0 by (intros raw values H; rewrite lookup_empty in H; discriminate).
  split; [|split]; intros.
  - apply (json_run_holds cfg (fun _ mp => Derived.single_valued cfg mp)); [|exact H0].
    intros x u mp. apply add_mapping_single_valued.
  - apply (tall_run_holds cfg (fun _ mp => Derived.single_valued cfg mp)); [|exact H0].
    intros x u mp. apply add_mapping_single_valued.
  - apply (wide_run_holds cfg (fun _ mp => Derived.single_valued cfg mp)); [|exact H0].
    intros x u mp. apply add_mapping_single_valued.
Qed.

(* ===================================================================== *)
(** * X11: the tokens of the report are trimmed and in upper case *)
(* ===================================================================== *)

Lemma check_keeps_normal_keys cfg x u mp :
  Derived.normal_keys u mp ->
  Derived.normal_keys (Derived.unknown_after cfg (Py.upper (Py.strip x)) u)
              (Audit.add_mapping (Py.upper (Py.strip x))
                 (code_type_map cfg !! Py.upper (Py.strip x)) mp).
Proof.
  intros [Hu Hmp]. split; intros raw.
  - unfold Derived.unknown_after. destruct (Audit.accepts cfg _); [apply Hu|].
    unfold Audit.bump. rewrite lookup_insert.
    destruct (decide (Py.upper (Py.strip x) = raw)) as [<-|]; [|apply Hu].
    intros _. apply normal_token.
  - unfold Audit.add_mapping. rewrite lookup_insert.
    destruct (decide (Py.upper (Py.strip x) = raw)) as [<-|]; [|apply Hmp].
    intros _. apply normal_token.
Qed.

Lemma normal_keys_empty : Derived.normal_keys ∅ ∅.
Proof.
  split; intros raw [v Hv]; rewrite lookup_empty in Hv; discriminate.
Qed.

(** X11: every raw code type that appears in the report of a run, among
    the unrecognized code types or among the normalizations used, is
    trimmed and in upper case; so a key of the normalization map that
    has a lower-case letter or a blank at an end is never looked up. *)
Theorem report_tokens_are_normal cfg meta :
  (forall root,
      Derived.normal_keys
        (Audit.unrecognized_code_types (JsonParser.report (snd (JsonParser.run cfg meta root))))
        (Audit.code_type_normalizations_used
           (JsonParser.report (snd (JsonParser.run cfg meta root)))))
  /\ (forall head body,
         Derived.normal_keys
           (Audit.unrecognized_code_types (Tall.report (snd (Tall.run cfg meta head body))))
           (Audit.code_type_normalizations_used
              (Tall.report (snd (Tall.run cfg meta head body)))))
  /\ (forall head df,
         Derived.normal_keys
           (Audit.unrecognized_code_types (Wide.report (snd (Wide.run cfg meta head df))))
           (Audit.code_type_normalizations_used
              (Wide.report (snd (Wide.run cfg meta head df))))).
Proof.
  split; [|split]; intros.
  - apply (json_run_holds cfg Derived.normal_keys); [|exact normal_keys_empty].
    intros x u mp. apply check_keeps_normal_keys.
  - apply (tall_run_holds cfg Derived.normal_keys); [|exact normal_keys_empty].
    intros x u mp. apply check_keeps_normal_keys.
  - apply (wide_run_holds cfg Derived.normal_keys); [|exact normal_keys_empty].
    intros x u mp. apply check_keeps_normal_keys.
Qed.

(* ===================================================================== *)
(** * X12: the code-type tables of the report *)
(* ===================================================================== *)

(** X12: whatever the header list, the configuration and the
    accumulators, the report built at the end of a call lists as missing
    exactly the allowed code types whose presence counter is zero, and
    its code-type presence table has an entry for every allowed code
    type (zero for the missing ones, created by reading the counter)
    next to the entries the walker made. *)
Theorem report_code_type_tables {M} (HEADERS : list string) (cfg : ExtractConfig)
    (st : Audit.Accumulators M) (ct : string) :
  let report := snd (Audit.build_report HEADERS cfg st) in
  (In ct (Audit.missing_code_types report)
   <-> ct ∈ allowed_code_types cfg /\ Audit.cnt (Audit.CODE_TYPE_PRESENCE st) ct = 0)
  /\ (ct ∈ allowed_code_types cfg ->
      Audit.code_type_presence report !! ct = Some (Audit.cnt (Audit.CODE_TYPE_PRESENCE st) ct))
  /\ (ct ∉ allowed_code_types cfg ->
      Audit.code_type_presence report !! ct = Audit.CODE_TYPE_PRESENCE st !! ct).
Proof.
  intros report. subst report. unfold Audit.build_report.
  cbn [snd Audit.missing_code_types Audit.code_type_presence Audit.with_code_type_presence
       Audit.CODE_TYPE_PRESENCE].
  split; [|split].
  - rewrite filter_In, <- list_elem_of_In, iter_allowed_elem, Nat.eqb_eq. reflexivity.
  - intros Hct. rewrite lookup_touch_all.
    destruct (decide (ct ∈ iter_allowed_code_types cfg)) as [|Hn]; [reflexivity|].
    exfalso. apply Hn. apply iter_allowed_elem. exact Hct.
  - intros Hct. rewrite lookup_touch_all.
    destruct (decide (ct ∈ iter_allowed_code_types cfg)) as [Hin|]; [|reflexivity].
    exfalso. apply Hct. apply iter_allowed_elem. exact Hin.
Qed.

(* ===================================================================== *)
(** * X13: a missing code type is one without a record *)
(* ===================================================================== *)

Lemma filter_length_zero {A} (p : A -> bool) (l : list A) :
  length (List.filter p l) = 0 <-> Forall (fun a => p a = false) l.
Proof.
  induction l as [|a l IH]; simpl.
  - split; [constructor | reflexivity].
  - destruct (p a) eqn:Hp; simpl.
    + split; [discriminate|]. intros H. inversion H; congruence.
    + rewrite IH. split; [intros H; constructor; assumption | intros H; inversion H; assumption].
Qed.

Lemma no_row_of_type_count t (rows : list (Py.dict string)) :
  Derived.no_row_of_type t rows <-> length (List.filter (Rows.csv_has_type t) rows) = 0.
Proof.
  rewrite filter_length_zero. unfold Derived.no_row_of_type.
  split; intros H; (eapply Forall_impl; [exact H|]); intros r Hr;
    unfold Rows.csv_has_type in *; destruct (Py.get r "code type") as [t'|]; try reflexivity;
    try discriminate.
  - apply bool_decide_eq_false_2. congruence.
  - apply bool_decide_eq_false_1 in Hr. congruence.
Qed.

(** A filing under type [t] leaves a record of type [t]. *)
Lemma wide_row_count_zero cfg meta payer_cols row t :
  length (List.filter (Rows.csv_has_type t) (Rows.wide_row cfg meta payer_cols row)) = 0 ->
  length (List.filter (Rows.files_type t) (Rows.contributions cfg payer_cols row)) = 0.
Proof.
  intros Hrows. apply filter_length_zero. apply List.Forall_forall. intros [[k f] v] Hc.
  apply filter_length_zero in Hrows.
  assert (k ∈ map fst (Rows.groups cfg payer_cols row)) as Hk.
  { apply groups_keys. exists f, v. apply list_elem_of_In. exact Hc. }
  apply list_elem_of_In, in_map_iff in Hk. destruct Hk as ([k' fd] & Hk' & Hin).
  simpl in Hk'. subst k'.
  assert (Rows.csv_has_type t
            (Wide.record_of meta row
               (Py.strip (Py.get_or row "additional_generic_notes" EmptyString))
               (Py.strip (Py.get_or row "modifiers" EmptyString)) (k, fd)) = false) as Hr.
  { apply (proj1 (List.Forall_forall _ _) Hrows).
    unfold Rows.wide_row. apply in_map. exact Hin. }
  rewrite wide_record_type in Hr. exact Hr.
Qed.

Lemma wide_rows_count_zero cfg meta df t :
  length (List.filter (Rows.csv_has_type t) (Rows.wide_rows cfg meta df)) = 0 ->
  length (List.filter (Rows.files_type t)
            (flat_map (Rows.contributions cfg (Wide.payer_cols (Wide.columns df)))
                      (Wide.iterrows df))) = 0.
Proof.
  unfold Rows.wide_rows. rewrite !count_flat_map.
  induction (Wide.iterrows df) as [|row rows IH]; simpl; [reflexivity|].
  intros H.
  assert (length (List.filter (Rows.csv_has_type t)
                    (Rows.wide_row cfg meta (Wide.payer_cols (Wide.columns df)) row)) = 0)
    as H1 by lia.
  rewrite (wide_row_count_zero _ _ _ _ _ H1). apply IH. lia.
Qed.

(** X13: in the report of a run of the tall or of the wide walker, the
    missing code types are exactly the allowed code types of which the
    canonical output has no record. *)
Theorem missing_means_no_record cfg meta ct :
  (forall head body,
      In ct (Audit.missing_code_types (Tall.report (snd (Tall.run cfg meta head body))))
      <-> ct ∈ allowed_code_types cfg
          /\ Derived.no_row_of_type ct (fst (Tall.run cfg meta head body)))
  /\ (forall head df,
         In ct (Audit.missing_code_types (Wide.report (snd (Wide.run cfg meta head df))))
         <-> ct ∈ allowed_code_types cfg
             /\ Derived.no_row_of_type ct (fst (Wide.run cfg meta head df))).
Proof.
  split.
  - intros head body. rewrite tall_run_rows, no_row_of_type_count.
    unfold Tall.run, Tall.extract_tall_format_csv, Audit.build_report.
    cbn [fst snd Tall.report Audit.missing_code_types].
    rewrite filter_In, <- list_elem_of_In, iter_allowed_elem, Nat.eqb_eq.
    rewrite (tall_walk_presence ct cfg meta body (Audit.fresh ∅, [])).
    cbn [fst Audit.fresh Audit.CODE_TYPE_PRESENCE]. rewrite cnt_empty. reflexivity.
  - intros head df. rewrite wide_run_rows, no_row_of_type_count.
    unfold Wide.run, Wide.extract_wide_format_csv, Audit.build_report.
    cbn [fst snd Wide.report Audit.missing_code_types].
    rewrite filter_In, <- list_elem_of_In, iter_allowed_elem, Nat.eqb_eq.
    rewrite (wide_walk_presence ct cfg meta df (Audit.fresh ∅, [])).
    cbn [fst Audit.fresh Audit.CODE_TYPE_PRESENCE]. rewrite cnt_empty.
    pose proof (wide_rows_count cfg meta df ct) as Hle.
    pose proof (wide_rows_count_zero cfg meta df ct) as Hzero.
    split; intros [Hct Hn]; (split; [exact Hct|]); simpl in *; lia.
Qed.

(* ===================================================================== *)
(** * X14: the modifier tally of a run *)
(* ===================================================================== *)

Section ModifierTally.
Variable m : string.

Let w (row : Py.dict string) : nat := count_occ String.eq_dec (Derived.row_modifiers row) m.

Lemma tall_row_step_modifiers cfg meta row (s : Tall.State) :
  Audit.cnt (Audit.MODIFIER_COUNTS (fst (Tall.row_step cfg meta row s))) m
  = Audit.cnt (Audit.MODIFIER_COUNTS (fst s)) m + w row.
Proof.
  unfold Tall.row_step. destruct (Tall.payer_identity _) as [payer_name payer_id].
  etrans.
  - apply (for_each_keep (fun s : Tall.State => Audit.cnt (Audit.MODIFIER_COUNTS (fst s)) m)).
    intros i s'. unfold Tall.slot_step. destruct (negb _ || negb _); [reflexivity|].
    pose proof (normalize_modifier_counts cfg
                  (Py.upper (Py.strip (Py.get_or row ("code|" +:+ pretty i +:+ "|type")
                                         EmptyString))) (fst s')) as Hn.
    destruct (Audit.normalize_code_type cfg _ (fst s')) as [st' [t|]];
      cbn [fst Tall.emit Audit.with_field_presence Audit.MODIFIER_COUNTS] in *;
      rewrite Hn; reflexivity.
  - cbn [fst Audit.with_modifier_counts Audit.MODIFIER_COUNTS]. apply cnt_tally.
Qed.

Lemma wide_row_step_modifiers cfg meta payer_cols row (s : Wide.State) :
  Audit.cnt (Audit.MODIFIER_COUNTS (fst (Wide.row_step cfg meta payer_cols row s))) m
  = Audit.cnt (Audit.MODIFIER_COUNTS (fst s)) m + w row.
Proof.
  unfold Wide.row_step. etrans.
  - apply (for_each_keep (fun s : Wide.State => Audit.cnt (Audit.MODIFIER_COUNTS (fst s)) m)).
    intros g s'. reflexivity.
  - cbn [fst]. unfold Wide.collect. etrans.
    + apply (for_each_keep (fun s : Wide.Acc * Wide.PayerRowMap =>
                              Audit.cnt (Audit.MODIFIER_COUNTS (fst s)) m)).
      intros col s'. unfold Wide.col_step.
      destruct (Wide.column_parts row col) as [[[[mapped_field payer_name] plan_name] value]|];
        [|reflexivity].
      apply (for_each_keep (fun s : Wide.Acc * Wide.PayerRowMap =>
                              Audit.cnt (Audit.MODIFIER_COUNTS (fst s)) m)).
      intros i s''. unfold Wide.slot_step. destruct (negb _ || negb _); [reflexivity|].
      pose proof (normalize_modifier_counts cfg
                    (Py.upper (Py.strip (Py.get_or row ("code|" +:+ pretty i +:+ "|type")
                                           EmptyString))) (fst s'')) as Hn.
      destruct (Audit.normalize_code_type cfg _ (fst s'')) as [st' [t|]];
        cbn [fst] in *; rewrite Hn; reflexivity.
    + cbn [fst Audit.with_modifier_counts Audit.MODIFIER_COUNTS]. apply cnt_tally.
Qed.

End ModifierTally.

(** X14: in the report of a run of the tall or of the wide walker, the
    count of a modifier token is the number of its occurrences in the
    modifier cells of all body rows, each row counted once: it does not
    depend on the code slots or on how many records the row yields. *)
Theorem modifier_counts_of_run cfg meta (m : string) :
  (forall head body,
      Audit.cnt (Audit.modifier_counts (Tall.report (snd (Tall.run cfg meta head body)))) m
      = sum_list (map (fun row => count_occ String.eq_dec (Derived.row_modifiers row) m) body))
  /\ (forall head df,
         Audit.cnt (Audit.modifier_counts (Wide.report (snd (Wide.run cfg meta head df)))) m
         = sum_list (map (fun row => count_occ String.eq_dec (Derived.row_modifiers row) m)
                         (Wide.iterrows df))).
Proof.
  split.
  - intros head body.
    etrans; [apply (for_each_add
                      (fun s : Tall.State => Audit.cnt (Audit.MODIFIER_COUNTS (fst s)) m)
                      (fun row => count_occ String.eq_dec (Derived.row_modifiers row) m)
                      body (Tall.row_step cfg meta) (Audit.fresh ∅, []));
             intros row s; apply tall_row_step_modifiers|].
    cbn [fst Audit.fresh Audit.MODIFIER_COUNTS]. rewrite cnt_empty. reflexivity.
  - intros head df.
    etrans; [apply (for_each_add
                      (fun s : Wide.State => Audit.cnt (Audit.MODIFIER_COUNTS (fst s)) m)
                      (fun row => count_occ String.eq_dec (Derived.row_modifiers row) m)
                      (Wide.iterrows df)
                      (Wide.row_step cfg meta (Wide.payer_cols (Wide.columns df)))
                      (Audit.fresh ∅, []));
             intros row s; apply wide_row_step_modifiers|].
    cbn [fst Audit.fresh Audit.MODIFIER_COUNTS]. rewrite cnt_empty. reflexivity.
Qed.

(* ===================================================================== *)
(** * X15: how many rows the JSON walker writes *)
(* ===================================================================== *)

Lemma flat_map_length {A B} (f : A -> list B) (l : list A) :
  length (flat_map f l) = sum_list (map (fun a => length (f a)) l).
Proof.
  induction l as [|a l IH]; simpl; [reflexivity|]. rewrite length_app, IH. reflexivity.
Qed.

Lemma json_charges_length meta code t description drug_info charge_entries :
  length (flat_map (Rows.json_charge meta code t description drug_info) charge_entries)
  = sum_list (map (fun ch => length (JsonParser.payers_information ch)) charge_entries).
Proof.
  rewrite flat_map_length. f_equal. apply map_ext. intros ch.
  unfold Rows.json_charge. apply length_map.
Qed.

Lemma json_item_length cfg meta it :
  length (Rows.json_item cfg meta it)
  = length (List.filter (Derived.accepted_entry cfg) (JsonParser.code_information it))
    * Derived.payer_entries it.
Proof.
  unfold Rows.json_item. rewrite flat_map_length.
  induction (JsonParser.code_information it) as [|ce ces IH]; [reflexivity|].
  simpl. rewrite IH. unfold Rows.json_code_entry, Derived.accepted_entry.
  destruct (Audit.accepts cfg (Rows.raw_code_type_of ce)) as [t|]; simpl.
  - rewrite json_charges_length. reflexivity.
  - reflexivity.
Qed.

(** X15: a line item gives one row per allowed code entry and payer
    entry (of any of its charge entries), a modifier one row per payer
    entry of its own; so a line item without charge entries, or whose
    charge entries have no payer, gives no row, however many of its
    codes are allowed. *)
Theorem json_row_count cfg meta root :
  length (fst (JsonParser.run cfg meta root))
  = sum_list
      (map (fun it =>
              length (List.filter (Derived.accepted_entry cfg) (JsonParser.code_information it))
              * Derived.payer_entries it)
           (JsonParser.items_of (JsonParser.standard_charge_information root)))
    + sum_list (map Derived.modifier_payers (JsonParser.modifier_information root)).
Proof.
  rewrite json_run_rows, length_app. f_equal.
  - unfold Rows.json_item_rows. rewrite flat_map_length. f_equal. apply map_ext.
    intros it. apply json_item_length.
  - unfold Rows.json_modifier_rows. rewrite flat_map_length. f_equal. apply map_ext.
    intros m. unfold Rows.json_modifier, Derived.modifier_payers. apply length_map.
Qed.

(* ===================================================================== *)
(** * X16: an empty allowed set *)
(* ===================================================================== *)

Lemma Forall_unsatisfied {A} (P : A -> Prop) (l : list A) :
  (forall a, ~ P a) -> Forall P l -> l = [].
Proof. intros HP H. destruct H as [|a l Ha _]; [reflexivity|]. exfalso. exact (HP a Ha). Qed.

Lemma no_type_allowed cfg (t : string) :
  allowed_code_types cfg = ∅ -> ~ t ∈ allowed_code_types cfg.
Proof. intros -> H. apply elem_of_empty in H. exact H. Qed.

(** X16: with an empty allowed set the tall and the wide walker write no
    record at all, whatever the normalization map and the table hold,
    and the JSON walker writes the rows of the modifiers only. *)
Theorem no_allow_list_no_records (cfg : ExtractConfig) (meta : HospitalMetadata)
    (no_list : allowed_code_types cfg = ∅) :
  (forall head body, fst (Tall.run cfg meta head body) = [])
  /\ (forall head df, fst (Wide.run cfg meta head df) = [])
  /\ (forall root, fst (JsonParser.run cfg meta root) = Rows.json_modifier_rows meta root).
Proof.
  split; [|split].
  - intros head body. rewrite tall_run_rows. unfold Rows.tall_rows.
    apply (Forall_unsatisfied
             (fun r => exists t, Tall.code_type_of r = Some t /\ t ∈ allowed_code_types cfg)).
    + intros r (t & _ & Ht). exact (no_type_allowed cfg t no_list Ht).
    + apply Forall_flat_map_intro. intros row. apply tall_row_types.
  - intros head df. rewrite wide_run_rows. unfold Rows.wide_rows.
    apply (Forall_unsatisfied
             (fun r => exists t, Wide.code_type_of r = Some t /\ t ∈ allowed_code_types cfg)).
    + intros r (t & _ & Ht). exact (no_type_allowed cfg t no_list Ht).
    + apply Forall_flat_map_intro. intros row. apply wide_row_types.
  - intros root. rewrite json_run_rows.
    assert (Rows.json_item_rows cfg meta root = []) as ->; [|reflexivity].
    destruct (Rows.json_item_rows cfg meta root) as [|r rows] eqn:Hrows; [reflexivity|].
    exfalso. assert (In r (Rows.json_item_rows cfg meta root)) as Hr
      by (rewrite Hrows; left; reflexivity).
    apply json_item_row_origin in Hr.
    destruct Hr as (it & ce & ch & payer & t & _ & _ & Ht & _).
    exact (no_type_allowed cfg t no_list (accepts_allowed _ _ _ Ht)).
Qed.

Lemma no_allow_list_no_records_witness :
  allowed_code_types nothing_allowed = ∅
  /\ fst (Tall.run nothing_allowed general_hospital tall_head [tall_row_with "Office visit"]) = []
  /\ fst (JsonParser.run nothing_allowed general_hospital modifier_only_root)
     = Rows.json_modifier_rows general_hospital modifier_only_root.
Proof.
  split; [reflexivity|].
  pose proof (no_allow_list_no_records nothing_allowed general_hospital eq_refl) as H.
  split; [exact (proj1 H tall_head [tall_row_with "Office visit"])|].
  exact (proj2 (proj2 H) modifier_only_root).
Defined.

(* ===================================================================== *)
(** * X17: the registry lookup *)
(* ===================================================================== *)

Lemma filter_first {A} (p : A -> bool) (l : list A) :
  match List.filter p l with
  | [] => Forall (fun a => p a = false) l
  | a :: _ =>
      exists pre post, l = pre ++ a :: post /\ Forall (fun b => p b = false) pre /\ p a = true
  end.
Proof.
  induction l as [|b l IH]; simpl; [constructor|].
  destruct (p b) eqn:Hb.
  - exists [], l. split; [reflexivity|]. split; [constructor | exact Hb].
  - destruct (List.filter p l) as [|a rest].
    + constructor; assumption.
    + destruct IH as (pre & post & -> & Hpre & Ha).
      exists (b :: pre), post. split; [reflexivity|]. split; [constructor; assumption | exact Ha].
Qed.

(** X17: [load_registry_info] raises the "not found" error exactly when
    no row of the registry has the campus id; otherwise it answers from
    the first row that has it, whatever follows, with the zip code cell
    turned into text. *)
Theorem registry_lookup (campus : string) (df : list Loader.RegistryRow) :
  match Loader.load_registry_info campus df with
  | inl err =>
      err = Loader.ValueError
              ("Campus ID '" +:+ campus +:+ "' not found in hospital registry.")
      /\ Forall (fun r => Loader.campus_id r <> campus) df
  | inr meta =>
      exists pre record post,
        df = pre ++ record :: post
        /\ Forall (fun r => Loader.campus_id r <> campus) pre
        /\ Loader.campus_id record = campus
        /\ hospital_name meta = Loader.cell_hospital_name record
        /\ zip_code meta = Py.str (Loader.cell_zip_code record)
        /\ raw_filename meta = Loader.cell_raw_filename record
        /\ healthcare_system meta = Loader.cell_healthcare_system record
  end.
Proof.
  unfold Loader.load_registry_info.
  pose proof (filter_first (fun r => bool_decide (Loader.campus_id r = campus)) df) as H.
  destruct (List.filter _ df) as [|record rest].
  - split; [reflexivity|]. eapply Forall_impl; [exact H|].
    intros r Hr. apply bool_decide_eq_false_1 in Hr. exact Hr.
  - destruct H as (pre & post & -> & Hpre & Hrecord).
    exists pre, record, post. split; [reflexivity|]. split.
    + eapply Forall_impl; [exact Hpre|]. intros r Hr. apply bool_decide_eq_false_1 in Hr. exact Hr.
    + apply bool_decide_eq_true_1 in Hrecord. repeat split; try reflexivity. exact Hrecord.
Qed.

(** The second campus of the registry is listed twice: the first of the
    two rows answers; a zip code read as a number loses nothing but is
    written in decimal. *)
Example registry_lookup_first_row :
  Loader.load_registry_info "GH-2" two_campus_registry
  = inr {| hospital_name := "General North"; zip_code := "02139";
           raw_filename := "gh2.csv"; healthcare_system := "GH" |}
  /\ Loader.load_registry_info "GH-1" two_campus_registry
     = inr {| hospital_name := "General"; zip_code := "60601";
              raw_filename := "gh1.json"; healthcare_system := "GH" |}
  /\ Loader.load_registry_info "GH-9" two_campus_registry
     = inl (Loader.ValueError "Campus ID 'GH-9' not found in hospital registry.").
Proof. repeat split; vm_compute; reflexivity. Qed.

(* ===================================================================== *)
(** * X18: the modifier tally of the JSON walker *)
(* ===================================================================== *)

Lemma bump_val_total k m :
  sum_list (map snd (JsonParser.bump_val k m)) = S (sum_list (map snd m)).
Proof.
  induction m as [|[k' n] m IH]; [reflexivity|]. simpl.
  destruct (Py.eqb k k'); simpl; [reflexivity|]. rewrite IH. lia.
Qed.

Section JsonModifierTally.

Let M (s : JsonParser.State) : nat := sum_list (map snd (Audit.MODIFIER_COUNTS (fst s))).

Lemma json_item_step_modifier_counts cfg meta it (s : JsonParser.State) :
  Audit.MODIFIER_COUNTS (fst (JsonParser.item_step cfg meta it s))
  = Audit.MODIFIER_COUNTS (fst s).
Proof.
  unfold JsonParser.item_step.
  apply (for_each_keep (fun s : JsonParser.State => Audit.MODIFIER_COUNTS (fst s))).
  intros ce s1. unfold JsonParser.code_entry_step.
  pose proof (normalize_modifier_counts cfg
                (Py.upper (Py.strip (Py.str (Py.get_or ce "type" (Py.PStr EmptyString)))))
                (fst s1)) as Hn.
  destruct (Audit.normalize_code_type cfg _ (fst s1)) as [st' [t|]]; cbn [fst] in *;
    [|exact Hn].
  etrans; [|exact Hn].
  apply (for_each_keep (fun s : JsonParser.State => Audit.MODIFIER_COUNTS (fst s))
           _ _ (st', snd s1)).
  intros ch s2. unfold JsonParser.charge_step.
  apply (for_each_keep (fun s : JsonParser.State => Audit.MODIFIER_COUNTS (fst s))).
  intros payer s3. reflexivity.
Qed.

Lemma json_modifier_step_total meta m s : M (JsonParser.modifier_step meta m s) = M s + 1.
Proof.
  unfold JsonParser.modifier_step. etrans.
  - apply (for_each_keep M). intros payer s'. reflexivity.
  - unfold M. cbn [fst Audit.with_modifier_counts Audit.MODIFIER_COUNTS].
    rewrite bump_val_total. lia.
Qed.

Lemma json_walk_modifier_total cfg meta root s :
  M (JsonParser.walk cfg meta root s)
  = M s + length (JsonParser.modifier_information root).
Proof.
  unfold JsonParser.walk. etrans.
  - apply (for_each_add M (fun _ => 1)). intros m s'. apply json_modifier_step_total.
  - f_equal.
    + unfold M. f_equal. f_equal.
      apply (for_each_keep (fun s : JsonParser.State => Audit.MODIFIER_COUNTS (fst s))).
      intros it s'. apply json_item_step_modifier_counts.
    + induction (JsonParser.modifier_information root) as [|m ms IH]; simpl; [reflexivity|].
      rewrite IH. reflexivity.
Qed.

End JsonModifierTally.

(** X18: in the report of a run of the JSON walker the modifier counts
    add up to the number of entries of [modifier_information]: every
    modifier is tallied exactly once, whether or not it has a payer
    entry, and nothing else is tallied. *)
Theorem json_modifier_counts_total cfg meta root :
  sum_list (map snd (Audit.modifier_counts
                       (JsonParser.report (snd (JsonParser.run cfg meta root)))))
  = length (JsonParser.modifier_information root).
Proof. exact (json_walk_modifier_total cfg meta root (Audit.fresh [], [])). Qed.

(* ===================================================================== *)
(** * X19: the keys of a written row *)
(* ===================================================================== *)

Lemma json_payer_row_keys meta code t description drug_info charge payer :
  map fst (JsonParser.payer_row meta code t description drug_info charge payer)
  = JsonParser.HEADERS.
Proof. reflexivity. Qed.

Lemma json_modifier_row_keys meta mod_code mod_desc payer :
  map fst (JsonParser.modifier_row meta mod_code mod_desc payer)
  = List.filter (fun h => negb (String.eqb h "drug unit") && negb (String.eqb h "drug type"))
                JsonParser.HEADERS.
Proof. reflexivity. Qed.

Lemma tall_output_row_keys meta row code t payer_name payer_id notes modifiers_raw :
  map fst (Tall.output_row meta row code t payer_name payer_id notes modifiers_raw)
  = Tall.HEADERS.
Proof. reflexivity. Qed.

(** X19: every row a walker hands to its writer has pairwise different
    keys, all of them names of the header list, so the JSON writer never
    meets a field it does not know.  A JSON line-item row and a tall row
    have every header, in header order; a JSON modifier row lacks the
    two drug fields; a wide record lacks the payer id. *)
Theorem written_row_keys cfg meta :
  (forall root,
      Forall (fun r => map fst r = JsonParser.HEADERS) (Rows.json_item_rows cfg meta root)
      /\ Forall (fun r => map fst r
                          = List.filter (fun h => negb (String.eqb h "drug unit")
                                                  && negb (String.eqb h "drug type"))
                                        JsonParser.HEADERS)
                (Rows.json_modifier_rows meta root)
      /\ Forall (fun r => NoDup (map fst r) /\ incl (map fst r) JsonParser.HEADERS)
                (fst (JsonParser.run cfg meta root)))
  /\ (forall head body,
         Forall (fun r => map fst r = Tall.HEADERS) (fst (Tall.run cfg meta head body)))
  /\ (forall head df,
         Forall (fun r => NoDup (map fst r)
                          /\ incl (map fst r) Wide.HEADERS
                          /\ forall h, In h Wide.HEADERS -> h <> "insurance payer id" ->
                                       In h (map fst r))
                (fst (Wide.run cfg meta head df))).
Proof.
  assert (forall root,
             Forall (fun r => map fst r = JsonParser.HEADERS) (Rows.json_item_rows cfg meta root))
    as Hitems.
  { intros root. apply List.Forall_forall. intros r Hr. apply json_item_row_origin in Hr.
    destruct Hr as (it & ce & ch & payer & t & _ & _ & _ & _ & _ & ->).
    apply json_payer_row_keys. }
  assert (forall root,
             Forall (fun r => map fst r
                              = List.filter (fun h => negb (String.eqb h "drug unit")
                                                      && negb (String.eqb h "drug type"))
                                            JsonParser.HEADERS)
                    (Rows.json_modifier_rows meta root)) as Hmods.
  { intros root. unfold Rows.json_modifier_rows. apply Forall_flat_map_intro. intros m.
    unfold Rows.json_modifier. apply Forall_map_intro. intros payer.
    apply json_modifier_row_keys. }
  split; [|split].
  - intros root. split; [apply Hitems|]. split; [apply Hmods|].
    rewrite json_run_rows. apply Forall_app. split.
    + eapply Forall_impl; [apply Hitems|]. intros r ->. split.
      * apply headers_json_nodup.
      * apply incl_refl.
    + eapply Forall_impl; [apply Hmods|]. intros r ->. split.
      * apply (bool_decide_unpack _). vm_compute. exact I.
      * apply incl_filter.
  - intros head body. rewrite tall_run_rows. unfold Rows.tall_rows.
    apply Forall_flat_map_intro. intros row. apply List.Forall_forall. intros r Hr.
    apply tall_row_members in Hr. destruct Hr as (i & code & t & _ & _ & ->).
    apply tall_output_row_keys.
  - intros head df. rewrite wide_run_rows. unfold Rows.wide_rows.
    apply Forall_flat_map_intro. intros row. unfold Rows.wide_row.
    apply Forall_map_intro. intros group. rewrite wide_record_keys. split; [|split].
    + apply (bool_decide_unpack _). vm_compute. exact I.
    + intros h Hh. simpl in Hh. simpl. tauto.
    + intros h Hh Hne. simpl in Hh. simpl.
      repeat (destruct Hh as [<-|Hh]; [tauto|]). destruct Hh.
Qed.
